(** * MCP-Testing: the test pipeline, embedded and verified

    A shallow embedding of the core of the [testing_throughmcp] pipeline.
    The first part holds the definitions, the second their properties.

    - [Py]           Python values, dictionaries and the [str] methods used
    - [Re]           the fragment of [re] used by the generator
    - [Json]         a reference reader for JSON text
    - [Generator]    the recovery chain of [agents/test_generator/test_generator.py]
    - [Junit]        [agents/test_executor/run_tests.py]
    - [Analyze]      [agents/result_analyzer/analyze_results.py]
    - [Executor]     the pass probability of [agents/test_executor/test_executor.py]
    - [Stats]        [agents/result_analyzer/result_analyzer.py]
    - [Pipeline]     the world the stages run in
    - [Orchestrator] [orchestrator.py] and the [execute] of its four agents
    - [StatsSpec], [PipelineSpec], [ReSpec]  what further properties are stated with
    - [Samples]      further concrete inputs
    - [Results]      the whole of [analyze_results]
    - [GapReply]     the reply parsing of [agents/test_analyzer/test_analyzer.py]

    Conventions.  Python [int] is [Z].  Python [float] is modelled by exact
    rationals [Q]: neither binary rounding error nor overflow is
    represented.  A [str] is a [string] whose characters are the code
    points 0-255.  A [dict] is an association list in insertion order, as
    Python iterates it.  A call that may raise returns an [outcome]. *)

From Stdlib Require Import List String Ascii ZArith QArith Bool Lia Arith.
From Stdlib Require Import Numbers.DecimalString.
From Stdlib Require Import Sorting.Permutation Sorting.Sorted.
Import ListNotations.

Set Implicit Arguments.
Set Warnings "-register-all".
Open Scope string_scope.

(* ================================================================== *)
(** * Python values and string methods *)
(* ================================================================== *)

Module Py.

(** The double quote character, and a one-character string of it. *)
Definition dquote : ascii := "034"%char.
Definition q : string := String dquote EmptyString.

Definition newline : string := String "010"%char EmptyString.
Definition backslash : ascii := "092"%char.

(** ** Characters *)

Definition code (c : ascii) : nat := nat_of_ascii c.

Definition between (lo hi n : nat) : bool := (lo <=? n)%nat && (n <=? hi)%nat.

(** [str.isspace] on the code points below 256. *)
Definition is_space (c : ascii) : bool :=
  let n := code c in
  between 9 13 n || between 28 32 n || (n =? 133)%nat || (n =? 160)%nat.

Definition is_digit (c : ascii) : bool := between 48 57 (code c).

Definition is_upper_ascii (c : ascii) : bool := between 65 90 (code c).

(** [\w] of [re] on [str] patterns: alphanumeric or underscore. *)
Definition is_word (c : ascii) : bool :=
  let n := code c in
  between 48 57 n || between 65 90 n || between 97 122 n || (n =? 95)%nat
  || (n =? 170)%nat || (n =? 178)%nat || (n =? 179)%nat || (n =? 181)%nat
  || (n =? 185)%nat || (n =? 186)%nat || between 188 190 n
  || between 192 214 n || between 216 246 n || between 248 255 n.

(** [str.lower] on one character. *)
Definition lower_char (c : ascii) : ascii :=
  let n := code c in
  if between 65 90 n || between 192 214 n || between 216 222 n
  then ascii_of_nat (n + 32) else c.

(** ** Strings *)

Fixpoint lower (s : string) : string :=
  match s with
  | EmptyString => EmptyString
  | String c r => String (lower_char c) (lower r)
  end.

Fixpoint lstrip (s : string) : string :=
  match s with
  | EmptyString => EmptyString
  | String c r => if is_space c then lstrip r else s
  end.

Fixpoint rstrip (s : string) : string :=
  match s with
  | EmptyString => EmptyString
  | String c r =>
      match rstrip r with
      | EmptyString => if is_space c then EmptyString else String c EmptyString
      | r' => String c r'
      end
  end.

Definition strip (s : string) : string := rstrip (lstrip s).

Definition startswith (s p : string) : bool := String.prefix p s.

(** [sub in s]. *)
Fixpoint contains (sub s : string) : bool :=
  String.prefix sub s ||
  match s with
  | EmptyString => false
  | String _ r => contains sub r
  end.

(** [s.find(sub)]; [None] stands for [-1]. *)
Fixpoint find (sub s : string) : option nat :=
  if String.prefix sub s then Some 0%nat
  else match s with
       | EmptyString => None
       | String _ r => option_map S (find sub r)
       end.

(** [s[n:]] and [s[:n]] for [n >= 0]. *)
Fixpoint drop (n : nat) (s : string) : string :=
  match n, s with
  | O, _ => s
  | S _, EmptyString => EmptyString
  | S k, String _ r => drop k r
  end.

Fixpoint take (n : nat) (s : string) : string :=
  match n, s with
  | O, _ => EmptyString
  | S _, EmptyString => EmptyString
  | S k, String c r => String c (take k r)
  end.

Fixpoint rev_onto (acc s : string) : string :=
  match s with
  | EmptyString => acc
  | String c r => rev_onto (String c acc) r
  end.

Definition srev (s : string) : string := rev_onto EmptyString s.

(** [s.split(sep)] for a non-empty [sep]: [skip] counts the characters
    of an already recognised separator that are still to be passed,
    [cur] is the current piece, reversed. *)
Fixpoint split_aux (sep : string) (skip : nat) (cur : string) (s : string)
  : list string :=
  match s with
  | EmptyString => [srev cur]
  | String c r =>
      match skip with
      | S k => split_aux sep k cur r
      | O =>
          if String.prefix sep s
          then srev cur :: split_aux sep (String.length sep - 1) EmptyString r
          else split_aux sep 0 (String c cur) r
      end
  end.

Definition split (sep s : string) : list string :=
  split_aux sep 0 EmptyString s.

(** [s.replace(old, new)] for a non-empty [old]. *)
Fixpoint replace_aux (old new : string) (skip : nat) (s : string) : string :=
  match s with
  | EmptyString => EmptyString
  | String c r =>
      match skip with
      | S k => replace_aux old new k r
      | O =>
          if String.prefix old s
          then new ++ replace_aux old new (String.length old - 1) r
          else String c (replace_aux old new 0 r)
      end
  end.

Definition replace (old new s : string) : string := replace_aux old new 0 s.

Definition or_empty (o : option string) : string :=
  match o with Some s => s | None => EmptyString end.

(** [str(n)] and [f"{n:03d}"] for a natural number. *)
Definition str_of_nat (n : nat) : string :=
  NilZero.string_of_uint (Nat.to_uint n).

Fixpoint zeros (n : nat) : string :=
  match n with
  | O => EmptyString
  | S k => String "0"%char (zeros k)
  end.

Definition fmt_03d (n : nat) : string :=
  let s := str_of_nat n in zeros (3 - String.length s) ++ s.

(** [str(z)] for an integer. *)
Definition str_of_Z (z : Z) : string := NilZero.string_of_int (Z.to_int z).

(** ** Numbers *)

(** [a < b], and the two-argument [min] and [max], which return their
    first argument on a tie. *)
Definition qlt (a b : Q) : bool := negb (Qle_bool b a).
Definition py_min (a b : Q) : Q := if qlt b a then b else a.
Definition py_max (a b : Q) : Q := if qlt a b then b else a.

(** Round to the nearest integer, ties to even, and [round(x, n)]. *)
Definition round_half_even (x : Q) : Z :=
  let n := Qnum x in
  let d := Zpos (Qden x) in
  let f := (n / d)%Z in
  let r2 := (2 * (n - f * d))%Z in
  if (r2 <? d)%Z then f
  else if (d <? r2)%Z then (f + 1)%Z
  else if Z.even f then f else (f + 1)%Z.

Definition round_digits (n : nat) (x : Q) : Q :=
  Qred (inject_Z (round_half_even (x * inject_Z (10 ^ Z.of_nat n)))
        / inject_Z (10 ^ Z.of_nat n)).

(** A [float]: a number, an infinity or a NaN. *)
Inductive pyfloat : Type :=
| Finite (x : Q)
| Infinity (negative : bool)
| NaN.

Definition round_float (n : nat) (x : pyfloat) : pyfloat :=
  match x with
  | Finite v => Finite (round_digits n v)
  | other => other
  end.

(** A run of digits in which single underscores may separate digits:
    its value, the number of digits and the rest. *)
Fixpoint read_digitpart (acc : Z) (len : nat) (s : string) : Z * nat * string :=
  match s with
  | EmptyString => (acc, len, s)
  | String c r =>
      if is_digit c
      then read_digitpart (10 * acc + Z.of_nat (code c - 48)) (S len) r
      else if (code c =? 95)%nat && (0 <? len)%nat then
        match r with
        | String c2 r2 =>
            if is_digit c2
            then read_digitpart (10 * acc + Z.of_nat (code c2 - 48)) (S len) r2
            else (acc, len, s)
        | EmptyString => (acc, len, s)
        end
      else (acc, len, s)
  end.

(** An optional sign. *)
Definition read_sign (s : string) : bool * string :=
  match s with
  | String c r =>
      if (code c =? 45)%nat then (true, r)
      else if (code c =? 43)%nat then (false, r)
      else (false, s)
  | EmptyString => (false, s)
  end.

(** An unsigned decimal literal, read to the end of the text. *)
Definition read_decimal (s : string) : option Q :=
  let '(i, ilen, s1) := read_digitpart 0 0 s in
  let '(f, flen, s2) :=
    match s1 with
    | String c r =>
        if (code c =? 46)%nat then read_digitpart 0 0 r else (0%Z, O, s1)
    | EmptyString => (0%Z, O, s1)
    end in
  if (ilen + flen =? 0)%nat then None
  else
    let mantissa := (i * 10 ^ Z.of_nat flen + f)%Z in
    match s2 with
    | EmptyString => Some (inject_Z mantissa * Qpower 10 (- Z.of_nat flen))
    | String c r =>
        if (code c =? 101)%nat || (code c =? 69)%nat then
          let '(eneg, r1) := read_sign r in
          let '(e, elen, r2) := read_digitpart 0 0 r1 in
          match elen, r2 with
          | S _, EmptyString =>
              Some (inject_Z mantissa
                    * Qpower 10 ((if eneg then - e else e) - Z.of_nat flen))
          | _, _ => None
          end
        else None
    end.

(** [float(s)]; [None] is a [ValueError]. *)
Definition py_float (s : string) : option pyfloat :=
  let '(neg, body) := read_sign (strip s) in
  if (lower body =? "inf") || (lower body =? "infinity") then Some (Infinity neg)
  else if lower body =? "nan" then Some NaN
  else
    match read_decimal body with
    | Some x => Some (Finite (Qred (if neg then - x else x)))
    | None => None
    end.

(** [sum(...)] over integers. *)
Definition zsum (l : list Z) : Z := fold_left Z.add l 0%Z.

(** ** Values *)

Inductive value : Type :=
| VNone
| VBool (b : bool)
| VInt (z : Z)
| VFloat (x : Q)
| VStr (s : string)
| VList (l : list value)
| VDict (d : list (string * value)).

Definition dict : Type := list (string * value).

(** [bool(v)]. *)
Definition truthy (v : value) : bool :=
  match v with
  | VNone => false
  | VBool b => b
  | VInt z => negb (z =? 0)%Z
  | VFloat x => negb (Qeq_bool x 0)
  | VStr s => negb (s =? "")
  | VList l => match l with [] => false | _ => true end
  | VDict d => match d with [] => false | _ => true end
  end.

(** ** Dictionaries, generic in the type of the values *)

Section Dict.
Variable A : Type.

Fixpoint get (k : string) (d : list (string * A)) : option A :=
  match d with
  | [] => None
  | (k', v) :: r => if k' =? k then Some v else get k r
  end.

Definition has (k : string) (d : list (string * A)) : bool :=
  match get k d with Some _ => true | None => false end.

(** [d[k] = v]: an existing key keeps its place, a new one goes last. *)
Fixpoint set (k : string) (v : A) (d : list (string * A))
  : list (string * A) :=
  match d with
  | [] => [(k, v)]
  | (k', v') :: r =>
      if k' =? k then (k', v) :: r else (k', v') :: set k v r
  end.

(** [d.get(k, default)]. *)
Definition get_or (k : string) (default : A) (d : list (string * A)) : A :=
  match get k d with Some v => v | None => default end.
End Dict.

(** ** Calls that may raise *)

Inductive outcome (A : Type) : Type :=
| Returned (a : A)
| Raised (exn : string).

Arguments Returned {A} a.
Arguments Raised {A} exn.

Definition bind {A B} (m : outcome A) (f : A -> outcome B) : outcome B :=
  match m with
  | Returned a => f a
  | Raised e => Raised e
  end.

(** [k in v] for a string [k]: key of a dict, element of a list,
    substring of a string; a [TypeError] on the other values. *)
Definition value_eqb_str (k : string) (v : value) : bool :=
  match v with VStr s => s =? k | _ => false end.

Definition py_in (k : string) (v : value) : outcome bool :=
  match v with
  | VDict d => Returned (has k d)
  | VList l => Returned (existsb (value_eqb_str k) l)
  | VStr s => Returned (contains k s)
  | _ => Raised "TypeError"
  end.

End Py.

Notation "x <- m ;; f" := (Py.bind m (fun x => f))
(at level 61, m at next level, right associativity).

(* ================================================================== *)
(** * The fragment of [re] used by the generator *)
(* ================================================================== *)

(** A backtracking matcher with greedy repetition and one capture
    group, which is what the patterns of [test_generator.py] need. *)

Module Re.
Import Py.

Inductive regex : Type :=
| Eps
| Chr (c : ascii)
| Class (p : ascii -> bool)
| Seq (r1 r2 : regex)
| Star (r : regex)
| Group (r : regex).

Definition Plus (r : regex) : regex := Seq r (Star r).

Fixpoint Lit (s : string) : regex :=
  match s with
  | EmptyString => Eps
  | String c r => Seq (Chr c) (Lit r)
  end.

Fixpoint has_group (r : regex) : bool :=
  match r with
  | Seq r1 r2 => has_group r1 || has_group r2
  | Star r1 => has_group r1
  | Group _ => true
  | _ => false
  end.

(** [run r s g k]: match [r] at the head of [s], with [g] the text of
    the group so far, and hand the rest to [k]; the first way of
    matching that [k] accepts wins, longer repetitions being tried
    first. *)
Fixpoint run (A : Type) (r : regex) (s : string) (g : option string)
  (k : string -> option string -> option A) {struct r} : option A :=
  match r with
  | Eps => k s g
  | Chr c =>
      match s with
      | String c' s' => if Ascii.eqb c c' then k s' g else None
      | EmptyString => None
      end
  | Class p =>
      match s with
      | String c' s' => if p c' then k s' g else None
      | EmptyString => None
      end
  | Seq r1 r2 => run r1 s g (fun s' g' => run r2 s' g' k)
  | Star r1 =>
      (fix star (n : nat) (s : string) (g : option string) : option A :=
         match n with
         | O => k s g
         | S n' =>
             match run r1 s g
                     (fun s' g' =>
                        if (String.length s' <? String.length s)%nat
                        then star n' s' g' else None) with
             | Some a => Some a
             | None => k s g
             end
         end) (String.length s) s g
  | Group r1 =>
      run r1 s g
          (fun s' _ => k s' (Some (take (String.length s - String.length s') s)))
  end.

(** A match at the head of [s]: the rest and the text of the group. *)
Definition match_here (r : regex) (s : string) : option (string * option string) :=
  run r s None (fun s' g => Some (s', g)).

(** [re.findall(r, s)]: the matches from left to right, without
    overlap; the text of the group when the pattern has one.  [skip]
    counts the characters of the last match still to be passed. *)
Fixpoint findall_aux (r : regex) (skip : nat) (s : string) : list string :=
  match s with
  | EmptyString =>
      match skip, match_here r s with
      | O, Some (_, g) =>
          [if has_group r then or_empty g else EmptyString]
      | _, _ => []
      end
  | String _ s' =>
      match skip with
      | S k => findall_aux r k s'
      | O =>
          match match_here r s with
          | Some (rest, g) =>
              let n := (String.length s - String.length rest)%nat in
              (if has_group r then or_empty g else take n s)
              :: findall_aux r (n - 1) s'
          | None => findall_aux r 0 s'
          end
      end
  end.

Definition findall (r : regex) (s : string) : list string := findall_aux r 0 s.

(** A replacement template: text and references to the group. *)
Inductive piece : Type :=
| Text (s : string)
| Group1.

Fixpoint expand (repl : list piece) (g : option string) : string :=
  match repl with
  | [] => EmptyString
  | Text t :: rest => t ++ expand rest g
  | Group1 :: rest => or_empty g ++ expand rest g
  end.

(** [re.sub(r, repl, s)]. *)
Fixpoint sub_aux (r : regex) (repl : list piece) (skip : nat) (s : string)
  : string :=
  match s with
  | EmptyString =>
      match skip, match_here r s with
      | O, Some (_, g) => expand repl g
      | _, _ => EmptyString
      end
  | String c s' =>
      match skip with
      | S k => sub_aux r repl k s'
      | O =>
          match match_here r s with
          | Some (rest, g) =>
              match (String.length s - String.length rest)%nat with
              | O => expand repl g ++ String c (sub_aux r repl 0 s')
              | S k => expand repl g ++ sub_aux r repl k s'
              end
          | None => String c (sub_aux r repl 0 s')
          end
      end
  end.

Definition sub (r : regex) (repl : list piece) (s : string) : string :=
  sub_aux r repl 0 s.

(** ** The patterns of [test_generator.py] *)

Definition not_quote (c : ascii) : bool := negb (Ascii.eqb c dquote).

(** The pattern [Q name Q : \s* Q ( [^Q]+ ) Q], where [Q] stands for the
    double quote. *)
Definition field_pattern (name : string) : regex :=
  Seq (Lit (q ++ name ++ q ++ ":"))
      (Seq (Star (Class is_space))
           (Seq (Chr dquote) (Seq (Group (Plus (Class not_quote))) (Chr dquote)))).

(** [TC-[A-Z]+-\d+] *)
Definition test_id_pattern : regex :=
  Seq (Lit "TC-")
      (Seq (Plus (Class is_upper_ascii))
           (Seq (Chr "-"%char) (Plus (Class is_digit)))).

(** [,\s*}] and [,\s*]] *)
Definition comma_before (closing : ascii) : regex :=
  Seq (Chr ","%char) (Seq (Star (Class is_space)) (Chr closing)).

(** [(\w+):] *)
Definition bare_key : regex := Seq (Group (Plus (Class is_word))) (Chr ":"%char).

End Re.

(* ================================================================== *)
(** * A reference reader for JSON text *)
(* ================================================================== *)

(** [loads] follows the grammar [json.loads] accepts, on the characters
    of the model: objects, arrays, strings with their escapes, numbers,
    [true], [false], [null].  It is used to run the pipeline on concrete
    replies; the general results below hold for any [json_loads].
    Outside its range: a [\u] escape above 255 and the literals [NaN]
    and [Infinity], which it rejects. *)

Module Json.
Import Py.

Definition is_ws (c : ascii) : bool :=
  let n := code c in
  (n =? 32)%nat || (n =? 9)%nat || (n =? 10)%nat || (n =? 13)%nat.

Fixpoint skip_ws (s : string) : string :=
  match s with
  | EmptyString => EmptyString
  | String c r => if is_ws c then skip_ws r else s
  end.

Definition hex_digit (c : ascii) : option nat :=
  let n := code c in
  if between 48 57 n then Some (n - 48)%nat
  else if between 65 70 n then Some (n - 55)%nat
  else if between 97 102 n then Some (n - 87)%nat
  else None.

(** The character a one-letter escape stands for. *)
Definition escape (c : ascii) : option ascii :=
  let n := code c in
  if (n =? 34)%nat then Some dquote
  else if (n =? 92)%nat then Some backslash
  else if (n =? 47)%nat then Some "/"%char
  else if (n =? 98)%nat then Some "008"%char
  else if (n =? 102)%nat then Some "012"%char
  else if (n =? 110)%nat then Some "010"%char
  else if (n =? 114)%nat then Some "013"%char
  else if (n =? 116)%nat then Some "009"%char
  else None.

Definition cons_fst (c : ascii) (p : option (string * string))
  : option (string * string) :=
  match p with
  | Some (s, rest) => Some (String c s, rest)
  | None => None
  end.

(** The body of a string literal, after its opening quote: the decoded
    content and the text after the closing quote. *)
Fixpoint read_string (s : string) : option (string * string) :=
  match s with
  | EmptyString => None
  | String c r =>
      if (code c =? 34)%nat then Some (EmptyString, r)
      else if (code c =? 92)%nat then
        match r with
        | EmptyString => None
        | String e r1 =>
            match escape e with
            | Some ch => cons_fst ch (read_string r1)
            | None =>
                if (code e =? 117)%nat then
                  match r1 with
                  | String h1 (String h2 (String h3 (String h4 r2))) =>
                      match hex_digit h1, hex_digit h2, hex_digit h3, hex_digit h4 with
                      | Some 0%nat, Some 0%nat, Some a, Some b =>
                          cons_fst (ascii_of_nat (16 * a + b)) (read_string r2)
                      | _, _, _, _ => None
                      end
                  | _ => None
                  end
                else None
            end
        end
      else if (code c <? 32)%nat then None
      else cons_fst c (read_string r)
  end.

(** A run of decimal digits: its value, its length and the rest. *)
Fixpoint read_digits (acc : Z) (len : nat) (s : string) : Z * nat * string :=
  match s with
  | EmptyString => (acc, len, s)
  | String c r =>
      if is_digit c
      then read_digits (10 * acc + Z.of_nat (code c - 48)) (S len) r
      else (acc, len, s)
  end.

(** The integer part: [0], or digits that do not start with [0]. *)
Definition read_int_part (s : string) : option (Z * string) :=
  match s with
  | String c r =>
      if (code c =? 48)%nat then Some (0%Z, r)
      else if is_digit c
      then let '(v, _, rest) := read_digits 0 0 s in Some (v, rest)
      else None
  | EmptyString => None
  end.

Definition read_fraction (s : string) : option (option (Z * nat) * string) :=
  match s with
  | String "."%char r =>
      let '(v, len, rest) := read_digits 0 0 r in
      match len with
      | O => None
      | _ => Some (Some (v, len), rest)
      end
  | _ => Some (None, s)
  end.

Definition read_exponent (s : string) : option (option Z * string) :=
  match s with
  | String c r =>
      if (code c =? 101)%nat || (code c =? 69)%nat then
        let '(sign, r1) :=
          match r with
          | String "+"%char r' => (1%Z, r')
          | String "-"%char r' => ((-1)%Z, r')
          | _ => (1%Z, r)
          end in
        let '(v, len, rest) := read_digits 0 0 r1 in
        match len with
        | O => None
        | _ => Some (Some (sign * v)%Z, rest)
        end
      else Some (None, s)
  | EmptyString => Some (None, s)
  end.

(** A number: an [int] when it has neither fraction nor exponent. *)
Definition read_number (s : string) : option (value * string) :=
  let '(neg, s1) :=
    match s with
    | String "-"%char r => (true, r)
    | _ => (false, s)
    end in
  match read_int_part s1 with
  | None => None
  | Some (i, s2) =>
      match read_fraction s2 with
      | None => None
      | Some (frac, s3) =>
          match read_exponent s3 with
          | None => None
          | Some (ex, s4) =>
              let sign := if neg then (-1)%Z else 1%Z in
              match frac, ex with
              | None, None => Some (VInt (sign * i), s4)
              | _, _ =>
                  let '(f, flen) :=
                    match frac with Some p => p | None => (0%Z, O) end in
                  let e := match ex with Some e => e | None => 0%Z end in
                  let mantissa := (sign * (i * 10 ^ Z.of_nat flen + f))%Z in
                  Some (VFloat (Qred (inject_Z mantissa
                                      * Qpower 10 (e - Z.of_nat flen))), s4)
              end
          end
      end
  end.

(** Values, the elements of an array after its bracket or a comma, and
    the members of an object after its brace or a comma. *)
Fixpoint read_value (fuel : nat) (s : string) : option (value * string) :=
  match fuel with
  | O => None
  | S fuel' =>
      match skip_ws s with
      | String c r =>
          if (code c =? 123)%nat then
            match skip_ws r with
            | String "}"%char rest => Some (VDict [], rest)
            | _ => read_members fuel' [] r
            end
          else if (code c =? 91)%nat then
            match skip_ws r with
            | String "]"%char rest => Some (VList [], rest)
            | _ => read_elements fuel' [] r
            end
          else if (code c =? 34)%nat then
            match read_string r with
            | Some (str, rest) => Some (VStr str, rest)
            | None => None
            end
          else if String.prefix "true" (String c r) then Some (VBool true, drop 4 (String c r))
          else if String.prefix "false" (String c r) then Some (VBool false, drop 5 (String c r))
          else if String.prefix "null" (String c r) then Some (VNone, drop 4 (String c r))
          else read_number (String c r)
      | EmptyString => None
      end
  end

with read_elements (fuel : nat) (acc : list value) (s : string)
  : option (value * string) :=
  match fuel with
  | O => None
  | S fuel' =>
      match read_value fuel' s with
      | None => None
      | Some (v, rest) =>
          match skip_ws rest with
          | String ","%char rest' => read_elements fuel' (acc ++ [v]) rest'
          | String "]"%char rest' => Some (VList (acc ++ [v]), rest')
          | _ => None
          end
      end
  end

with read_members (fuel : nat) (acc : dict) (s : string)
  : option (value * string) :=
  match fuel with
  | O => None
  | S fuel' =>
      match skip_ws s with
      | String c r =>
          if (code c =? 34)%nat then
            match read_string r with
            | None => None
            | Some (key, r1) =>
                match skip_ws r1 with
                | String ":"%char r2 =>
                    match read_value fuel' r2 with
                    | None => None
                    | Some (v, rest) =>
                        match skip_ws rest with
                        | String ","%char rest' =>
                            read_members fuel' (set key v acc) rest'
                        | String "}"%char rest' =>
                            Some (VDict (set key v acc), rest')
                        | _ => None
                        end
                    end
                | _ => None
                end
            end
          else None
      | EmptyString => None
      end
  end.

(** [json.loads(s)]; [None] is a [JSONDecodeError]. *)
Definition loads (s : string) : option value :=
  match read_value (2 * String.length s + 2) s with
  | Some (v, rest) =>
      match skip_ws rest with
      | EmptyString => Some v
      | _ => None
      end
  | None => None
  end.

End Json.

(* ================================================================== *)
(** * The generator's recovery chain: [test_generator.py] *)
(* ================================================================== *)

Module Generator.
Import Py Re.

(** [l[i] if i < len(l) else default]. *)
Definition item_or (l : list string) (i : nat) (default : string) : string :=
  nth i l default.

Definition zip3 (a b c : list string) : list (string * string * string) :=
  combine (combine a b) c.

(** The list stored under [generated_tests], empty when there is none. *)
Definition records_of (generated_tests : value) : list value :=
  match generated_tests with
  | VDict d =>
      match get "generated_tests" d with
      | Some (VList l) => l
      | _ => []
      end
  | _ => []
  end.

(** ** [_extract_structured_data] *)

Definition harvested_test (test_ids modules scenarios priorities : list string)
  (i : nat) : value :=
  VDict
    [("test_id", VStr (item_or test_ids i ("TC-AI-" ++ fmt_03d (i + 1))));
     ("module", VStr (item_or modules i "Banking System"));
     ("scenario",
      VStr (item_or scenarios i ("Banking test scenario " ++ str_of_nat (i + 1))));
     ("priority", VStr (item_or priorities i "medium"));
     ("test_type", VStr "functional");
     ("category", VStr "extracted_tests")].

Definition max_tests (test_ids modules scenarios : list string) : nat :=
  Nat.min 30
    (Nat.max (Nat.max (Nat.max (List.length test_ids) (List.length modules))
                      (List.length scenarios))
             10).

Definition _extract_structured_data (content : string) : value :=
  let test_ids := findall (field_pattern "test_id") content in
  let modules := findall (field_pattern "module") content in
  let scenarios := findall (field_pattern "scenario") content in
  let priorities := findall (field_pattern "priority") content in
  let tests :=
    map (harvested_test test_ids modules scenarios priorities)
        (seq 0 (max_tests test_ids modules scenarios)) in
  match tests with
  | [] => VDict []
  | _ =>
      VDict
        [("generated_tests", VList tests);
         ("test_summary",
          VDict [("total_tests", VInt (Z.of_nat (List.length tests)));
                 ("extraction_method", VStr "manual_pattern_matching")])]
  end.

(** ** [_create_fallback_tests] *)

Definition pattern_test (t : string * string * string) : value :=
  let '(tid, md, scen) := t in
  VDict
    [("test_id", VStr tid); ("module", VStr md); ("scenario", VStr scen);
     ("priority", VStr "medium"); ("test_type", VStr "functional");
     ("category", VStr "generated_tests")].

(** [l[:10] if l else default]. *)
Definition first_ten_or (l default : list string) : list string :=
  match l with
  | [] => default
  | _ => firstn 10 l
  end.

(** The tests built from the patterns found in the failed content. *)
Definition tests_from_patterns (failed_content : string) : list value :=
  if failed_content =? "" then []
  else
    let test_ids := findall test_id_pattern failed_content in
    let modules := findall (field_pattern "module") failed_content in
    let test_scenarios := findall (field_pattern "scenario") failed_content in
    match test_ids, modules, test_scenarios with
    | [], [], [] => []
    | _, _, _ =>
        map pattern_test
            (zip3
               (first_ten_or test_ids
                  (map (fun i => "TC-GEN-" ++ fmt_03d i) (seq 0 10)))
               (first_ten_or modules (repeat "Banking System" 10))
               (first_ten_or test_scenarios
                  (map (fun i => "Test scenario " ++ str_of_nat (i + 1))
                       (seq 0 10))))
    end.

Definition banking_modules : list string :=
  ["Authentication"; "Payment Processing"; "Account Management"; "Security";
   "Transaction History"].

Definition test_types : list string :=
  ["Login validation"; "Payment flow"; "Account verification";
   "Security check"; "Data retrieval"].

Definition template_test (i : nat) (p : string * string) : value :=
  VDict
    [("test_id", VStr ("TC-AI-" ++ fmt_03d (i + 1)));
     ("module", VStr (fst p));
     ("scenario", VStr (snd p ++ " - scenario " ++ str_of_nat (i + 1)));
     ("priority", VStr (nth (i mod 3) ["high"; "medium"; "low"] ""));
     ("test_type", VStr "functional");
     ("category", VStr "ai_generated")].

(** The loop over [zip(banking_modules * 6, test_types * 6)], left at
    the thirtieth test. *)
Definition template_tests : list value :=
  let pairs :=
    combine (List.concat (repeat banking_modules 6))
            (List.concat (repeat test_types 6)) in
  firstn 30 (map (fun ip => template_test (fst ip) (snd ip))
                 (combine (seq 0 (List.length pairs)) pairs)).

Definition _create_fallback_tests (failed_content : string) : value :=
  let scenarios :=
    match tests_from_patterns failed_content with
    | [] => template_tests
    | found => found
    end in
  VDict
    [("generated_tests", VList (firstn 30 scenarios));
     ("test_summary",
      VDict
        [("total_tests", VInt (Z.of_nat (List.length (firstn 30 scenarios))));
         ("fallback_reason",
          VStr "JSON parsing failed, used intelligent content analysis");
         ("generated_from_content", VBool (negb (failed_content =? "")))])].

(** ** The chain of [execute], lines 304-413 *)

(** A candidate is absent when it is [None] or empty. *)
Definition absent (json_content : option string) : bool :=
  match json_content with
  | Some s => s =? ""
  | None => true
  end.

(** Fenced-block extraction. *)
Definition fenced_block (result_text : string) : option string :=
  if contains "```json" result_text
  then Some (strip (nth 0 (split "```" (nth 1 (split "```json" result_text) "")) ""))
  else if contains "```" result_text && contains "{" result_text
  then option_map strip
         (List.find (fun block => contains "{" block && contains "}" block)
                    (split "```" result_text))
  else None.

(** The loop of the brace-balanced scan, from the first brace: the text
    up to the brace that brings the count back to zero. *)
Fixpoint scan_braces (brace_count : Z) (s : string) : option string :=
  match s with
  | EmptyString => None
  | String c r =>
      if (code c =? 123)%nat
      then option_map (String c) (scan_braces (brace_count + 1) r)
      else if (code c =? 125)%nat
      then if (brace_count - 1 =? 0)%Z
           then Some (String c EmptyString)
           else option_map (String c) (scan_braces (brace_count - 1) r)
      else option_map (String c) (scan_braces brace_count r)
  end.

Definition balanced_object (result_text : string) : option string :=
  match find "{" result_text with
  | Some start_idx => scan_braces 0 (drop start_idx result_text)
  | None => None
  end.

(** Strategy 1: the text that is handed to the parser. *)
Definition extracted (result_text : string) : string :=
  let c1 := fenced_block result_text in
  let c2 := if absent c1 then balanced_object result_text else c1 in
  if absent c2 then result_text else or_empty c2.

Definition prefixes_to_remove : list string :=
  ["Here is the"; "The answer is"; "Final Answer:";
   "Your final answer must be"; "the great and"].

Definition remove_prefix (json_content prefix : string) : string :=
  if startswith (lower (strip json_content)) (lower prefix)
  then strip (drop (String.length prefix) json_content)
  else json_content.

(** Strategy 2: fences, escaped newlines and underscores, prefixes.  The
    two-character texts backslash-n and backslash-underscore are meant:
    a backslash is an ordinary character here. *)
Definition cleaned (json_content : string) : string :=
  fold_left remove_prefix prefixes_to_remove
    (replace "\_" "_"
       (replace "\n" ""
          (replace "```" "" (replace "```json" "" json_content)))).

(** The text the parsing attempts work on. *)
Definition prepared (generation_result : string) : string :=
  cleaned (extracted (strip generation_result)).

(** Syntax repair: trailing commas, then bare keys. *)
Definition repaired (json_content : string) : string :=
  sub bare_key [Text q; Group1; Text (q ++ ":")]
    (sub (comma_before "]"%char) [Text "]"]
       (sub (comma_before "}"%char) [Text "}"] json_content)).

Section Chain.

(** [json.loads]; [None] is a [JSONDecodeError]. *)
Variable json_loads : string -> option value.

(** What [json.loads] made of the text, directly or after repair. *)
Definition parsed (json_content : string) : option value :=
  match json_loads json_content with
  | Some v => Some v
  | None => json_loads (repaired json_content)
  end.

(** Strategy 3: parse, repair and parse, harvest. *)
Definition strategy3 (json_content : string) : value :=
  match parsed json_content with
  | Some v => v
  | None => _extract_structured_data json_content
  end.

(** The first list of a dict that starts with a dict holding a
    [test_id]. *)
Definition looks_like_tests (kv : string * value) : bool :=
  match snd kv with
  | VList (VDict first :: _) => has "test_id" first
  | _ => false
  end.

(** "Validate and enhance structure". *)
Definition structured (json_content : string) (generated_tests : value) : value :=
  let as_dict :=
    match generated_tests with
    | VDict d => d
    | VList l => [("generated_tests", VList l)]
    | _ => [("generated_tests", VList [])]
    end in
  if has "generated_tests" as_dict then VDict as_dict
  else
    match List.find looks_like_tests as_dict with
    | Some kv => VDict [("generated_tests", snd kv)]
    | None => _create_fallback_tests json_content
    end.

(** Lines 304-413: from the reply of the collaborator to
    [generated_tests]. *)
Definition recover (generation_result : string) : value :=
  let json_content := prepared generation_result in
  let generated_tests := strategy3 json_content in
  let generated_tests :=
    if truthy generated_tests then generated_tests
    else _create_fallback_tests json_content in
  structured json_content generated_tests.

(** The parsed values that are passed on without any record being
    added: a truthy object that has its own [generated_tests], or a
    truthy scalar, which is replaced by an empty list. *)
Definition passed_on (v : value) : bool :=
  truthy v &&
  match v with
  | VDict d => has "generated_tests" d
  | VList _ => false
  | _ => true
  end.

End Chain.

(** Three quoted occurrences of each field, and no object syntax. *)
Definition field (name v : string) : string :=
  q ++ name ++ q ++ ": " ++ q ++ v ++ q.

Definition three_fields : string :=
  field "test_id" "TC-UI-001" ++ ", " ++ field "module" "Login" ++ ", "
  ++ field "scenario" "Valid login" ++ newline
  ++ field "test_id" "TC-UI-002" ++ ", " ++ field "module" "Login" ++ ", "
  ++ field "scenario" "Wrong password" ++ newline
  ++ field "test_id" "TC-API-001" ++ ", " ++ field "module" "Payments" ++ ", "
  ++ field "scenario" "Refund".

(** A reply that is a JSON object with an empty list of tests. *)
Definition empty_batch : string := "{" ++ q ++ "generated_tests" ++ q ++ ": []}".

End Generator.

(* ================================================================== *)
(** * The JUnit normalizer: [parse_junit_to_results] of [run_tests.py] *)
(* ================================================================== *)

Module Junit.
Import Py.
Local Open Scope Q_scope.

(** An element of the parsed XML tree: tag, attributes, the text before
    its first child, and its children. *)
Inductive element : Type :=
| Element (tag : string) (attrib : list (string * string))
          (text : option string) (children : list element).

Definition tag (e : element) : string :=
  match e with Element t _ _ _ => t end.
Definition attrib (e : element) : list (string * string) :=
  match e with Element _ a _ _ => a end.
Definition text (e : element) : option string :=
  match e with Element _ _ t _ => t end.
Definition children (e : element) : list element :=
  match e with Element _ _ _ c => c end.

(** The elements below [e], in document order. *)
Fixpoint descendants (e : element) : list element :=
  match e with
  | Element _ _ _ cs =>
      (fix below (l : list element) : list element :=
         match l with
         | [] => []
         | c :: r => ((c :: descendants c) ++ below r)%list
         end) cs
  end.

(** The number of elements of the tree of [e], [e] included, whose tag
    is [t]. *)
Fixpoint count_elements (t : string) (e : element) : nat :=
  match e with
  | Element tg _ _ cs =>
      ((if (tg =? t)%string then 1 else 0)
       + (fix below (l : list element) : nat :=
            match l with
            | [] => 0
            | c :: r => count_elements t c + below r
            end) cs)%nat
  end.

(** [e.findall(".//t")] and [e.find(t)]. *)
Definition findall_below (t : string) (e : element) : list element :=
  filter (fun c => tag c =? t) (descendants e).

Definition find_child (t : string) (e : element) : option element :=
  List.find (fun c => tag c =? t) (children e).

Record result : Type := {
  test_id : string;
  name : string;
  module_name : string;
  status : string;
  execution_time : pyfloat;
  timestamp : string;
  failure_details : string
}.

(** The details taken from a [failure] or [error] element. *)
Definition details_of (e : element) : string :=
  let message := strip (get_or "message" "" (attrib e)) in
  match text e with
  | Some body =>
      if body =? "" then message
      else strip (message ++ newline ++ strip body)
  | None => message
  end.

(** [float(time_str)] with [0.0] on a [ValueError]. *)
Definition exec_time_of (case : element) : pyfloat :=
  match py_float (get_or "time" "0" (attrib case)) with
  | Some x => x
  | None => Finite 0
  end.

(** The body of the loop, for one [testcase] read at time [now]. *)
Definition case_result (now : string) (case : element) : result :=
  let name := get_or "name" "" (attrib case) in
  let classname := get_or "classname" "" (attrib case) in
  let exec_time := exec_time_of case in
  let '(status, failure_details) :=
    match find_child "failure" case with
    | Some failure => ("FAIL", details_of failure)
    | None =>
        match find_child "error" case with
        | Some error => ("FAIL", details_of error)
        | None =>
            match find_child "skipped" case with
            | Some _ => ("SKIPPED", "")
            | None => ("PASS", "")
            end
        end
    end in
  {| test_id := if classname =? "" then name else classname ++ "::" ++ name;
     name := name;
     module_name := if classname =? "" then "unknown" else classname;
     status := status;
     execution_time := round_float 4 exec_time;
     timestamp := now;
     failure_details := if status =? "FAIL" then failure_details else "" |}.

(** What the normalizer owes for one case, in the words of its
    contract.  [has_child t e]: [e] has a sub-element with tag [t].
    The reason of a failed case is the message of its [failure]
    element (of its [error] element when there is no [failure]),
    stripped, and, when the element has a body, the message, a new line
    and the body, each stripped, the whole stripped again. *)
Definition has_child (t : string) (e : element) : Prop :=
  exists c, In c (children e) /\ tag c = t.

Record normalized (case : element) (r : result) : Prop := {
  norm_fail :
    has_child "failure" case \/ has_child "error" case -> status r = "FAIL";
  norm_skip :
    ~ has_child "failure" case -> ~ has_child "error" case ->
    has_child "skipped" case -> status r = "SKIPPED";
  norm_pass :
    ~ has_child "failure" case -> ~ has_child "error" case ->
    ~ has_child "skipped" case -> status r = "PASS";
  norm_failure_message :
    forall f, find_child "failure" case = Some f ->
    text f = None \/ text f = Some "" ->
    failure_details r = strip (get_or "message" "" (attrib f));
  norm_failure_body :
    forall f body, find_child "failure" case = Some f ->
    text f = Some body -> body <> "" ->
    failure_details r
    = strip (strip (get_or "message" "" (attrib f)) ++ newline ++ strip body);
  norm_error_message :
    forall e, find_child "failure" case = None ->
    find_child "error" case = Some e ->
    text e = None \/ text e = Some "" ->
    failure_details r = strip (get_or "message" "" (attrib e));
  norm_error_body :
    forall e body, find_child "failure" case = None ->
    find_child "error" case = Some e ->
    text e = Some body -> body <> "" ->
    failure_details r
    = strip (strip (get_or "message" "" (attrib e)) ++ newline ++ strip body);
  norm_no_details :
    status r <> "FAIL" -> failure_details r = "";
  norm_scoped_id :
    forall scope, get "classname" (attrib case) = Some scope -> scope <> "" ->
    test_id r = scope ++ "::" ++ get_or "name" "" (attrib case);
  norm_plain_id :
    get_or "classname" "" (attrib case) = "" ->
    test_id r = get_or "name" "" (attrib case);
  norm_missing_time :
    get "time" (attrib case) = None -> execution_time r = Finite 0;
  norm_unreadable_time :
    forall time_str, get "time" (attrib case) = Some time_str ->
    py_float time_str = None -> execution_time r = Finite 0
}.

Section Clock.

(** [clock i] is the time read while the [i]-th case is converted. *)
Variable clock : nat -> string.

Fixpoint results_from (i : nat) (cases : list element) : list result :=
  match cases with
  | [] => []
  | case :: rest => case_result (clock i) case :: results_from (S i) rest
  end.

Definition parse_junit_to_results (root : element) : list result :=
  results_from 0 (findall_below "testcase" root).

End Clock.

(** The record as the dict that is serialised for the analyzer. *)
Definition value_of_float (x : pyfloat) : value :=
  match x with
  | Finite v => VFloat v
  | _ => VNone
  end.

Definition result_dict (r : result) : dict :=
  [("test_id", VStr (test_id r)); ("name", VStr (name r));
   ("module", VStr (module_name r)); ("status", VStr (status r));
   ("execution_time", value_of_float (execution_time r));
   ("timestamp", VStr (timestamp r));
   ("failure_details", VStr (failure_details r))].

(** A small report: a failure with message and body, an error, a
    skipped case, a case with an unreadable time, a case without
    attributes, and a case that is both failed and skipped. *)
Definition leaf (t : string) (a : list (string * string)) (body : option string)
  : element := Element t a body [].

Definition error_case : element :=
  Element "testcase"
    [("classname", "tests.test_pay"); ("name", "test_err"); ("time", "soon")]
    None [leaf "error" [] (Some "boom")].

Definition sample_report : element :=
  Element "testsuites" [] None
    [Element "testsuite" [("name", "pytest")] None
       [Element "testcase"
          [("classname", "tests.test_login"); ("name", "test_ok"); ("time", "0.125")]
          None [];
        Element "testcase"
          [("classname", "tests.test_login"); ("name", "test_bad"); ("time", "1.5")]
          None [leaf "failure" [("message", " assert 1 == 2 ")] (Some " trace ")];
        error_case;
        Element "testcase" [("name", "test_skip")] None
          [leaf "skipped" [("message", "later")] None];
        Element "testcase" [] None [];
        Element "testcase" [("name", "both"); ("time", "")] None
          [leaf "skipped" [] None; leaf "failure" [("message", "first")] None]]].

Definition fixed_clock (_ : nat) : string := "2025-01-01 00:00:00".

End Junit.

(* ================================================================== *)
(** * Basic metrics of [analyze_results] *)
(* ================================================================== *)

Module Analyze.
Import Py.

(** [r.get("status") == s]. *)
Definition status_is (s : string) (r : dict) : bool :=
  match get "status" r with
  | Some (VStr t) => t =? s
  | _ => false
  end.

(** [sum(1 for r in results if r.get("status") == s)]. *)
Definition count_status (s : string) (results : list dict) : Z :=
  zsum (map (fun _ => 1%Z) (filter (status_is s) results)).

Record overview : Type := {
  total_tests : Z;
  skipped_tests : Z;
  executed_tests : Z;
  passed_tests : Z;
  failed_tests : Z;
  pass_rate : Q
}.

(** Lines 37-43 of [analyze_results]. *)
Definition basic_metrics (results : list dict) : overview :=
  let total := Z.of_nat (List.length results) in
  let skipped := count_status "SKIPPED" results in
  let executed := (total - skipped)%Z in
  let passed := count_status "PASS" results in
  let failed := if (0 <=? executed)%Z then (executed - passed)%Z else 0%Z in
  let rate :=
    if (0 <? executed)%Z
    then (inject_Z passed / inject_Z executed) * 100
    else 0 in
  {| total_tests := total; skipped_tests := skipped;
     executed_tests := executed; passed_tests := passed;
     failed_tests := failed; pass_rate := rate |}.

(** A record of the shape [parse_junit_to_results] emits, with the
    given status. *)
Definition with_status (s : string) : dict :=
  [("test_id", VStr "t"); ("name", VStr "t"); ("module", VStr "m");
   ("status", VStr s); ("execution_time", VFloat 0);
   ("timestamp", VStr ""); ("failure_details", VStr "")].

(** Ten records: seven passed, two failed, one skipped. *)
Definition ten_records : list dict :=
  repeat (with_status "PASS") 7 ++ repeat (with_status "FAIL") 2
  ++ [with_status "SKIPPED"].

End Analyze.

(* ================================================================== *)
(** * The simulated executor: [TestExecutorAgent] of [test_executor.py] *)
(* ================================================================== *)

Module Executor.
Import Py.
Local Open Scope Q_scope.

Record modifier : Type := { pass_rate_mod : Q; exec_time_mod : Q }.

(** [self.pass_rate] and [self.priority_modifiers] of [__init__]. *)
Definition pass_rate : Q := 0.85.

Definition priority_modifiers : list (string * modifier) :=
  [("critical", {| pass_rate_mod := -0.1; exec_time_mod := 1.5 |});
   ("high", {| pass_rate_mod := -0.05; exec_time_mod := 1.2 |});
   ("medium", {| pass_rate_mod := 0.0; exec_time_mod := 1.0 |});
   ("low", {| pass_rate_mod := 0.05; exec_time_mod := 0.8 |})].

(** [priority in self.priority_modifiers] needs a hashable value: a
    list or a dict raises.  A non-string is never one of the keys. *)
Definition priority_adjusted (base : Q) (priority : value) : outcome Q :=
  match priority with
  | VStr p =>
      match get p priority_modifiers with
      | Some m => Returned (base + pass_rate_mod m)
      | None => Returned base
      end
  | VList _ | VDict _ => Raised "TypeError"
  | _ => Returned base
  end.

(** The three adjustments on the lower-cased test type. *)
Definition type_adjusted (base : Q) (test_type : string) : Q :=
  let b1 := if contains "security" (lower test_type) then base - 0.15 else base in
  let b2 := if contains "validation" (lower test_type) then b1 - 0.1 else b1 in
  if contains "functional" (lower test_type) then b2 + 0.05 else b2.

Definition _calculate_pass_probability (test_case : dict) : outcome Q :=
  base_probability <-
    priority_adjusted pass_rate (get_or "priority" (VStr "medium") test_case) ;;
  match get_or "test_type" (VStr "") test_case with
  | VStr test_type =>
      Returned (py_max 0.1 (py_min 0.95 (type_adjusted base_probability test_type)))
  | _ => Raised "AttributeError"
  end.

(** [test_passed = random.random() < pass_probability], for a draw [r]
    of [random.random()], which lies in [0, 1). *)
Definition test_passed (r pass_probability : Q) : bool := qlt r pass_probability.

(** The records on which [_calculate_pass_probability] raises: a
    priority that cannot be hashed, or a test type that has no [lower]. *)
Definition ill_typed (test_case : dict) : bool :=
  match get_or "priority" (VStr "medium") test_case with
  | VList _ | VDict _ => true
  | _ => match get_or "test_type" (VStr "") test_case with
         | VStr _ => false
         | _ => true
         end
  end.

End Executor.

(* ================================================================== *)
(** * Statistics and insights: [ResultAnalyzerAgent] of [result_analyzer.py] *)
(* ================================================================== *)

Module Stats.
Import Py.
Local Open Scope Q_scope.

(** One entry of [execution_results].  A field is [None] when the key
    is absent; when present the textual fields are strings and the time
    is a number, as the executor writes them. *)
Record test : Type := {
  test_id : option string;
  test_name : option string;
  module_name : option string;
  category : option string;
  priority : option string;
  status : option string;
  execution_time_seconds : option Q;
  failure_reason : option string
}.

(** [execution_results] is a flat list, or a dict with the two lists
    [baseline_tests] and [ai_generated_tests] (absent means empty). *)
Inductive execution_results : Type :=
| Flat (tests : list test)
| Structured (baseline_tests ai_generated_tests : list test).

(** The [summary] of a report, every key optional. *)
Record report_summary : Type := {
  s_total_tests : option Z;
  s_passed : option Z;
  s_failed : option Z;
  s_pass_rate_percentage : option Q;
  s_total_execution_time_seconds : option Q
}.

Record report : Type := {
  execution_id : option string;
  summary : report_summary;
  results : execution_results
}.

Record overview : Type := {
  total_tests : Z;
  passed : Z;
  failed : Z;
  pass_rate : Q;
  execution_duration : Q
}.

(** An entry of a [defaultdict(lambda: {"total": 0, "failed": 0})]. *)
Record counts : Type := { c_total : Z; c_failed : Z }.

(** A bucket once [failure_rate] has been added. *)
Record bucket : Type := { b_total : Z; b_failed : Z; failure_rate : Q }.

Record distribution : Type := { d_total : Z; d_passed : Z; d_failed : Z }.

Record timing : Type := { t_test_id : string; t_time : Q }.

Record stats : Type := {
  st_overview : overview;
  by_module : list (string * bucket);
  by_category : list (string * bucket);
  by_priority : list (string * bucket);
  slowest_tests : list timing;
  fastest_tests : list timing;
  average_execution_time : Q;
  total_execution_time : Q;
  dist_baseline : distribution;
  dist_ai_generated : distribution
}.

Definition or_default (A : Type) (o : option A) (d : A) : A :=
  match o with Some a => a | None => d end.

(** [test.get("status") == s]. *)
Definition status_is (s : string) (t : test) : bool :=
  match status t with Some x => x =? s | None => false end.

(** [round(x, 2)]. *)
Definition round2 (x : Q) : Q := round_digits 2 x.

(** ** [_calculate_statistics] *)

Definition zero_counts : counts := {| c_total := 0; c_failed := 0 |}.

(** [d[k]["total"] += 1] and [d[k]["failed"] += 1] on a defaultdict. *)
Definition add_total (k : string) (d : list (string * counts)) :=
  let e := get_or k zero_counts d in
  set k {| c_total := c_total e + 1; c_failed := c_failed e |} d.

Definition add_failed (k : string) (d : list (string * counts)) :=
  let e := get_or k zero_counts d in
  set k {| c_total := c_total e; c_failed := c_failed e + 1 |} d.

(** One turn of the loop "Analyze failures by dimensions" on one of the
    three dictionaries. *)
Definition tally (key : test -> string) (d : list (string * counts)) (t : test) :=
  let d1 := add_total (key t) d in
  if status_is "FAILED" t then add_failed (key t) d1 else d1.

Definition module_key (t : test) : string := or_default (module_name t) "Unknown".
Definition category_key (t : test) : string := or_default (category t) "Unknown".
Definition priority_key (t : test) : string := or_default (priority t) "medium".

Definition with_rate (c : counts) : bucket :=
  {| b_total := c_total c; b_failed := c_failed c;
     failure_rate :=
       round2 (if (0 <? c_total c)%Z
               then inject_Z (c_failed c) / inject_Z (c_total c) * 100
               else 0) |}.

Definition dimension (key : test -> string) (all_tests : list test)
  : list (string * bucket) :=
  map (fun kv => (fst kv, with_rate (snd kv)))
      (fold_left (tally key) all_tests []).

(** One turn of a loop that fills a [test_distribution] entry. *)
Definition distribute (d : distribution) (t : test) : distribution :=
  if status_is "PASSED" t
  then {| d_total := d_total d + 1; d_passed := d_passed d + 1; d_failed := d_failed d |}
  else {| d_total := d_total d + 1; d_passed := d_passed d; d_failed := d_failed d + 1 |}.

Definition zero_distribution : distribution :=
  {| d_total := 0; d_passed := 0; d_failed := 0 |}.

Definition all_tests_of (r : execution_results) : list test :=
  match r with
  | Flat tests => tests
  | Structured baseline ai => baseline ++ ai
  end.

Definition time_of (t : test) : Q := or_default (execution_time_seconds t) 0.

(** [sorted(all_tests, key=...)]: a stable sort, ascending. *)
Fixpoint insert_by_time (t : test) (l : list test) : list test :=
  match l with
  | [] => [t]
  | y :: ys =>
      if qlt (time_of y) (time_of t)
      then y :: insert_by_time t ys
      else t :: l
  end.

Definition sorted_by_time (l : list test) : list test :=
  fold_right insert_by_time [] l.

Definition timing_of (t : test) : timing :=
  {| t_test_id := or_default (test_id t) "Unknown"; t_time := time_of t |}.

Definition qsum (l : list Q) : Q := fold_left Qplus l 0.

Definition _calculate_statistics (rep : report) : stats :=
  let s := summary rep in
  let all_tests := all_tests_of (results rep) in
  let sorted := sorted_by_time all_tests in
  let total_time := qsum (map time_of all_tests) in
  {| st_overview :=
       {| total_tests := or_default (s_total_tests s) 0%Z;
          passed := or_default (s_passed s) 0%Z;
          failed := or_default (s_failed s) 0%Z;
          pass_rate := or_default (s_pass_rate_percentage s) 0;
          execution_duration := or_default (s_total_execution_time_seconds s) 0 |};
     by_module := dimension module_key all_tests;
     by_category := dimension category_key all_tests;
     by_priority := dimension priority_key all_tests;
     slowest_tests :=
       map timing_of (skipn (List.length sorted - 3) sorted);
     fastest_tests := map timing_of (firstn 3 sorted);
     average_execution_time :=
       match all_tests with
       | [] => 0
       | _ => round2 (total_time / inject_Z (Z.of_nat (List.length all_tests)))
       end;
     total_execution_time :=
       match all_tests with [] => 0 | _ => round2 total_time end;
     dist_baseline :=
       match results rep with
       | Flat _ => zero_distribution
       | Structured baseline _ => fold_left distribute baseline zero_distribution
       end;
     dist_ai_generated :=
       match results rep with
       | Flat tests => fold_left distribute tests zero_distribution
       | Structured _ ai => fold_left distribute ai zero_distribution
       end |}.

(** A plain rendering of a number as a fraction, to run the insights on
    concrete inputs; the results below hold for any rendering. *)
Definition show_fraction (x : Q) : string :=
  str_of_Z (Qnum x) ++ "/" ++ str_of_Z (Zpos (Qden x)).

(** The sum of the [total] counters of a dimension. *)
Definition sum_totals (d : list (string * bucket)) : Z :=
  zsum (map (fun kv => b_total (snd kv)) d).

(** The sample of [create_sample_execution_report]: its summary says 15
    tests, its results hold six. *)
Definition sample_test (id name st md cat pr : string) (time : Q)
  (reason : option string) : test :=
  {| test_id := Some id; test_name := Some name; module_name := Some md;
     category := Some cat; priority := Some pr; status := Some st;
     execution_time_seconds := Some time; failure_reason := reason |}.

Definition sample_execution_report : report :=
  {| execution_id := Some "EXEC_20240115_140230_ABC123";
     summary :=
       {| s_total_tests := Some 15%Z; s_passed := Some 11%Z;
          s_failed := Some 4%Z; s_pass_rate_percentage := None;
          s_total_execution_time_seconds := Some 67.5 |};
     results :=
       Structured
         [sample_test "FP-001" "Full Payment" "PASSED" "Payments & Rewards"
            "Happy Path" "high" 3.2 None;
          sample_test "SEC-001" "OTP Verification" "FAILED" "Security"
            "Security" "high" 7.8 (Some "OTP timeout");
          sample_test "VAL-001" "Input Validation" "PASSED" "Validation"
            "Negative Path" "medium" 2.1 None]
         [sample_test "AI-SEC-001" "Session Timeout" "FAILED" "Security"
            "Security" "high" 8.5 (Some "Session not invalidated");
          sample_test "AI-PAY-001" "Concurrent Payments" "FAILED"
            "Payments & Rewards" "Edge Case" "medium" 6.3
            (Some "Race condition detected");
          sample_test "AI-SEC-002" "Brute Force Protection" "FAILED" "Security"
            "Security" "high" 9.2 (Some "No rate limiting")] |}.

(** The sum of the [total] counters before the rates are added. *)
Definition count_totals (d : list (string * counts)) : Z :=
  zsum (map (fun kv => c_total (snd kv)) d).

(** The sample report with the summary an executor run would write. *)
Definition consistent_sample : report :=
  {| execution_id := execution_id sample_execution_report;
     summary :=
       {| s_total_tests := Some 6%Z; s_passed := Some 2%Z; s_failed := Some 4%Z;
          s_pass_rate_percentage := Some (33.33)%Q;
          s_total_execution_time_seconds := Some (37.1)%Q |};
     results := results sample_execution_report |}.

(** ** [_generate_fallback_insights] *)

Record insights : Type := {
  i_summary : string;
  critical_issue : string;
  recommendations : list string
}.

Definition continue_monitoring : string :=
  "Continue monitoring test stability and address intermittent failures".

(** One turn of the loop that looks for the worst module. *)
Definition worst_step (acc : option string * Q) (kv : string * bucket)
  : option string * Q :=
  if qlt (snd acc) (failure_rate (snd kv)) && (1 <? b_failed (snd kv))%Z
  then (Some (fst kv), failure_rate (snd kv))
  else acc.

Definition worst (st : stats) : option string * Q :=
  fold_left worst_step (by_module st) (None, 0).

(** [if worst_module:] is false on [None] and on the empty name. *)
Definition module_set (m : option string) : bool :=
  match m with Some name => negb (name =? "") | None => false end.

Section Insights.

(** [str(x)] and [f"{x:.1f}"] of a float, and [json.loads], whose
    [None] is a reply it rejects. *)
Variable num_str : Q -> string.
Variable fmt_1f : Q -> string.
Variable json_loads : string -> option value.

Definition module_recommendation (st : stats) : list string :=
  if module_set (fst (worst st)) && qlt 30 (snd (worst st))
  then ["Prioritize fixing " ++ or_default (fst (worst st)) ""
        ++ " module - it has the highest failure rate at "
        ++ num_str (snd (worst st)) ++ "%"]
  else [].

Definition performance_recommendation (st : stats) : list string :=
  match slowest_tests st with
  | [] => []
  | slowest :: _ =>
      if qlt 5.0 (t_time slowest)
      then ["Optimize test " ++ t_test_id slowest ++ " which takes "
            ++ num_str (t_time slowest) ++ "s to execute"]
      else []
  end.

Definition distribution_recommendation (st : stats) : list string :=
  let ai_tests := dist_ai_generated st in
  if (0 <? d_total ai_tests)%Z
  then
    let ai_failure_rate :=
      inject_Z (d_failed ai_tests) / inject_Z (d_total ai_tests) * 100 in
    if qlt 20 ai_failure_rate
    then ["Review AI-generated tests - " ++ fmt_1f ai_failure_rate
          ++ "% failure rate suggests they may need refinement"]
    else []
  else [].

Definition security_recommendation (st : stats) : list string :=
  if existsb (fun kv => (fst kv =? "Security") && qlt 25 (failure_rate (snd kv)))
             (by_category st)
  then ["Conduct security review - multiple security tests are failing"]
  else [].

(** The recommendations tied to a threshold, in the order the code
    appends them. *)
Definition specific_recommendations (st : stats) : list string :=
  module_recommendation st ++ performance_recommendation st
  ++ distribution_recommendation st ++ security_recommendation st.

Definition _generate_fallback_insights (st : stats) : insights :=
  let specific := specific_recommendations st in
  let recs :=
    if (List.length specific <? 3)%nat
    then (specific ++ [continue_monitoring])%list
    else specific in
  {| i_summary :=
       "Test execution completed with " ++ num_str (pass_rate (st_overview st))
       ++ "% pass rate across " ++ str_of_Z (total_tests (st_overview st))
       ++ " tests. " ++ str_of_Z (failed (st_overview st))
       ++ " tests failed, requiring immediate attention. ";
     critical_issue :=
       if module_set (fst (worst st))
       then or_default (fst (worst st)) "" ++ " module showing "
            ++ num_str (snd (worst st)) ++ "% failure rate"
       else "No significant failure patterns detected";
     recommendations := firstn 5 recs |}.

(** The insights as the dict the method returns. *)
Definition insights_value (i : insights) : value :=
  VDict [("summary", VStr (i_summary i));
         ("critical_issue", VStr (critical_issue i));
         ("recommendations", VList (map VStr (recommendations i)))].

(** ** [_generate_ai_insights] *)

(** The text handed to [json.loads]: the first fenced block if there is
    one, the whole reply otherwise. *)
Definition json_part (result_str : string) : string :=
  if contains "```json" result_str
  then nth 0 (split "```" (nth 1 (split "```json" result_str) "")) ""
  else if contains "```" result_str
  then nth 0 (split "```" (nth 1 (split "```" result_str) "")) ""
  else result_str.

(** [kickoff] is what [crew.kickoff()] did: it returned a reply or it
    raised; building the agent, the task and the crew is taken to
    succeed.  A reply that [json.loads] accepts is returned as it is. *)
Definition _generate_ai_insights (kickoff : outcome string) (st : stats) : value :=
  match kickoff with
  | Raised _ => insights_value (_generate_fallback_insights st)
  | Returned result_str =>
      match json_loads (strip (json_part result_str)) with
      | Some parsed => parsed
      | None => insights_value (_generate_fallback_insights st)
      end
  end.

(** The collaborator failed: the call raised, or [json.loads] rejects
    the part of the reply handed to it. *)
Definition declined (kickoff : outcome string) : Prop :=
  match kickoff with
  | Raised _ => True
  | Returned result_str => json_loads (strip (json_part result_str)) = None
  end.

(** [ai_insights.get("recommendations", [])] of [analyze]. *)
Definition analysis_recommendations (kickoff : outcome string) (st : stats)
  : outcome value :=
  match _generate_ai_insights kickoff st with
  | VDict d => Returned (get_or "recommendations" (VList []) d)
  | _ => Raised "AttributeError"
  end.

End Insights.

End Stats.

(* ================================================================== *)
(** * The pipeline: [orchestrator.py] and the [execute] of its agents *)
(* ================================================================== *)

(** The controller and its four stages run in a world of files and leave
    a trace of what was invoked and written.  A file holds a text or the
    object that was dumped into it as JSON; reading a dump back gives
    the object.  What the outside answers during a run (the clock, the
    crews, the simulated test runs) is gathered in an [env].  Paths are
    those of a POSIX system. *)

Module Pipeline.
Import Py.

Inductive stage : Type := GapAnalysis | Generation | Execution | Analysis.

Record analysis_summary : Type := {
  analysis_id : string;
  report_source : string;
  analyzed_at : string;
  analyzed_execution_id : string;
  statistics : Stats.stats;
  ai_insights : value;
  recommendations : value
}.

Inductive content : Type :=
| Text (s : string)
| Dumped (v : value)
| DumpedReport (r : Stats.report)
| DumpedAnalysis (a : analysis_summary).

Inductive event : Type :=
| Invoked (s : stage)
| Wrote (path : string).

Record world : Type := {
  files : list (string * content);
  trace : list event
}.

(** What [executor.execute] and [result_analyzer.analyze] return: a
    dict with an [error], or their report. *)
Inductive execution_report : Type :=
| ExecutionError (error : string)
| ExecutionReport (r : Stats.report).

Inductive analysis_result : Type :=
| AnalysisError (error : string)
| AnalysisSummary (a : analysis_summary).

Record pipeline_result : Type := {
  r_gap_analysis : value;
  r_generated_tests : value;
  r_execution_report : option execution_report;
  r_analysis_summary : option analysis_result
}.

Record config : Type := {
  baseline_tests_path : option string;
  app_model_path : option string;
  output_dir : option string;
  validate_tests : option bool
}.

(** The inputs the controller gives to the generator. *)
Record generator_inputs : Type := {
  in_gap_analysis : value;
  in_app_model_path : string;
  in_validate_tests : bool;
  in_output_file : string
}.

(** The answers of the outside during one run: the clock, formatted as
    the code formats it at each reading, and the collaborators, which
    return or raise. *)
Record env : Type := {
  now_gap_analysis : string;
  now_generated_tests : string;
  now_metadata : string;
  now_execution : string;
  now_analysis : string;
  analysis_crew : string -> string -> outcome value;
  generation_crew : value -> string -> outcome string;
  validation_crew : value -> outcome string;
  single_test : value -> outcome Stats.test;
  insight_crew : Stats.stats -> outcome string
}.

(** ** Programs on the world *)

Definition prog (A : Type) : Type := world -> outcome A * world.

Definition ret (A : Type) (a : A) : prog A := fun w => (Returned a, w).

Definition raise {A : Type} (exn : string) : prog A := fun w => (Raised exn, w).

Definition lift (A : Type) (o : outcome A) : prog A := fun w => (o, w).

(** What was written before an exception stays written. *)
Definition and_then (A B : Type) (m : prog A) (f : A -> prog B) : prog B :=
  fun w =>
    match m w with
    | (Returned a, w') => f a w'
    | (Raised exn, w') => (Raised exn, w')
    end.

(** The world after an event is logged, and after a file is created or
    replaced by [write_text] or [json.dump]. *)
Definition logged (ev : event) (w : world) : world :=
  {| files := files w; trace := trace w ++ [ev] |}.

Definition written (path : string) (c : content) (w : world) : world :=
  {| files := set path c (files w); trace := trace w ++ [Wrote path] |}.

Definition invoke (s : stage) : prog unit :=
  fun w => (Returned tt, logged (Invoked s) w).

Definition write_file (path : string) (c : content) : prog unit :=
  fun w => (Returned tt, written path c w).

Definition read_file (path : string) : prog (option content) :=
  fun w => (Returned (get path (files w)), w).

(** [Path(p).exists()]. *)
Definition path_exists (path : string) : prog bool :=
  fun w => (Returned (has path (files w)), w).

(** A program that leaves the file at [path] as it found it. *)
Definition leaves (path : string) (A : Type) (m : prog A) : Prop :=
  forall w, get path (files (snd (m w))) = get path (files w).

(** [dir / name], for a normalised [dir]. *)
Definition joinpath (dir name : string) : string :=
  if dir =? "." then name
  else if dir =? "/" then "/" ++ name
  else dir ++ "/" ++ name.

(** The name of an artifact: [{kind}_{timestamp}.json] in [dir]. *)
Definition artifact_path (dir kind timestamp : string) : string :=
  joinpath dir (kind ++ "_" ++ timestamp ++ ".json").

Definition error_dict (message : string) : value :=
  VDict [("error", VStr message)].

(** [s.endswith(suffix)]. *)
Definition endswith (s suffix : string) : bool :=
  String.prefix (srev suffix) (srev s).

(** The values [len] accepts. *)
Definition py_len (v : value) : outcome nat :=
  match v with
  | VStr s => Returned (String.length s)
  | VList l => Returned (List.length l)
  | VDict d => Returned (List.length d)
  | _ => Raised "TypeError"
  end.

End Pipeline.

Notation "x <~ m ;; f" := (Pipeline.and_then m (fun x => f))
  (at level 61, m at next level, right associativity).

Module Orchestrator.
Import Py Pipeline.
Local Open Scope Q_scope.

(** ** What the controller prints, as far as it can raise *)

(** [scenario.get("priority", "unknown")] followed by [priority.upper()]
    and by the use of the priority as a key. *)
Definition priority_printable (scenario : value) : bool :=
  match scenario with
  | VDict d =>
      match get "priority" d with
      | None | Some (VStr _) => true
      | Some _ => false
      end
  | _ => false
  end.

(** [len(scenarios)] and the loop over [scenarios]. *)
Definition scenarios_printable (scenarios : value) : bool :=
  match scenarios with
  | VList l => forallb priority_printable l
  | VDict [] => true
  | VStr s => s =? ""
  | _ => false
  end.

(** The block after the gap analysis is saved. *)
Definition log_gap_analysis (gap_analysis : value) : outcome unit :=
  present <- py_in "gap_analysis_report" gap_analysis ;;
  if present then
    match gap_analysis with
    | VDict d =>
        match get "gap_analysis_report" d with
        | Some (VDict report) =>
            if scenarios_printable (get_or "missing_scenarios" (VList []) report)
            then Returned tt else Raised "TypeError"
        | _ => Returned tt
        end
    | _ => Raised "TypeError"
    end
  else Returned tt.

(** [if k in summary: ... summary[k].items()]. *)
Definition breakdown_printable (k : string) (summary : value) : bool :=
  match summary with
  | VDict d =>
      match get k d with
      | None | Some (VDict _) => true
      | Some _ => false
      end
  | VList l => negb (existsb (value_eqb_str k) l)
  | VStr s => negb (contains k s)
  | _ => false
  end.

(** The block after the generator has returned. *)
Definition log_generated_tests (generated_tests : value) : outcome unit :=
  present <- py_in "generated_tests" generated_tests ;;
  if present then
    match generated_tests with
    | VDict d =>
        _ <- py_len (get_or "generated_tests" VNone d) ;;
        match get "test_summary" d with
        | None => Returned tt
        | Some summary =>
            if breakdown_printable "by_priority" summary
               && breakdown_printable "by_type" summary
            then Returned tt else Raised "TypeError"
        end
    | _ => Raised "TypeError"
    end
  else Returned tt.

(** ** [TestGeneratorAgent], outside the world *)

(** [_create_test_generation_task] reads [missing_scenarios] and, of
    each scenario, [module] and [scenario]; the number of scenarios is
    what the metadata later reports. *)
Definition scenario_described (s : value) : bool :=
  match s with
  | VDict d => has "module" d && has "scenario" d
  | _ => false
  end.

Definition missing_scenarios (gap_data : value) : outcome nat :=
  match gap_data with
  | VDict d =>
      match get_or "missing_scenarios" (VList []) d with
      | VList l =>
          if forallb scenario_described l then Returned (List.length l)
          else Raised "KeyError"
      | VDict [] => Returned O
      | VStr s => if s =? "" then Returned O else Raised "TypeError"
      | _ => Raised "TypeError"
      end
  | _ => Raised "AttributeError"
  end.

(** [final_tests_dict] with its [metadata]. *)
Definition with_metadata (generated_at : string) (based_on_gaps : nat)
  (final_tests : value) : value :=
  let final_tests_dict :=
    match final_tests with
    | VDict d => d
    | VList l => [("generated_tests", VList l)]
    | _ => [("generated_tests", VList [])]
    end in
  VDict (set "metadata"
           (VDict [("generated_at", VStr generated_at);
                   ("based_on_gaps", VInt (Z.of_nat based_on_gaps));
                   ("agent", VStr "ai-test-generator");
                   ("version", VStr "1.0.0")])
           final_tests_dict).

(** ** [TestExecutorAgent], outside the world *)

Definition count_passed (results : list Stats.test) : Z :=
  Z.of_nat (List.length (filter (Stats.status_is "PASSED") results)).

(** The report and its summary, from the results of the tests. *)
Definition report_of (execution_id : string) (results : list Stats.test)
  : Stats.report :=
  let total := Z.of_nat (List.length results) in
  let passed := count_passed results in
  let total_duration := Stats.qsum (map Stats.time_of results) in
  {| Stats.execution_id := Some execution_id;
     Stats.summary :=
       {| Stats.s_total_tests := Some total;
          Stats.s_passed := Some passed;
          Stats.s_failed := Some (total - passed)%Z;
          Stats.s_pass_rate_percentage :=
            Some (round_digits 2
                    (if (0 <? total)%Z
                     then inject_Z passed / inject_Z total * 100 else 0));
          Stats.s_total_execution_time_seconds :=
            Some (round_digits 2 total_duration) |};
     Stats.results := Stats.Flat results |}.

Section Agents.

(** [json.loads]; the text of a file that holds a dump; the two float
    formats of the insights; and the answers of the outside. *)
Variable json_loads : string -> option value.
Variable dumps : content -> string.
Variable num_str : Q -> string.
Variable fmt_1f : Q -> string.
Variable e : env.

Definition text_of (c : content) : string :=
  match c with
  | Text s => s
  | other => dumps other
  end.

(** An empty file; a dump is never empty. *)
Definition is_blank (c : content) : bool :=
  match c with
  | Text s => s =? ""
  | _ => false
  end.

(** [json.loads] of what a file holds. *)
Definition loads_content (c : content) : option value :=
  match c with
  | Dumped v => Some v
  | other => json_loads (text_of other)
  end.

(** ** [TestAnalyzerAgent.execute] *)

Definition analyzer_execute (baseline_tests_path app_model_path : string)
  : prog value :=
  baseline_tests <~ read_file baseline_tests_path ;;
  app_model <~ read_file app_model_path ;;
  match baseline_tests, app_model with
  | Some b, Some a =>
      if is_blank b || is_blank a
      then ret (error_dict "Failed to load source files. Cannot perform analysis.")
      else lift (analysis_crew e (text_of b) (text_of a))
  | _, _ =>
      ret (error_dict "Failed to load source files. Cannot perform analysis.")
  end.

(** ** [TestGeneratorAgent.execute] *)

Definition _parse_gap_analysis (gap_analysis : value) : value :=
  match match gap_analysis with
        | VStr s => json_loads s
        | other => Some other
        end with
  | None => error_dict "Invalid gap analysis format"
  | Some g =>
      if negb (truthy g) then error_dict "No gap analysis provided"
      else
        match g with
        | VDict d =>
            match get "gap_analysis_report" d with
            | Some report => report
            | None => g
            end
        | _ => error_dict "Invalid format"
        end
  end.

(** The gap analysis given as the path of a [.json] file is loaded. *)
Definition resolve_gap_analysis (gap_analysis : value) : prog value :=
  match gap_analysis with
  | VStr s =>
      if endswith s ".json" then
        c <~ read_file s ;;
        match c with
        | None => ret (VDict [])
        | Some c =>
            if is_blank c then ret (VDict [])
            else match loads_content c with
                 | Some v => ret v
                 | None => raise "JSONDecodeError"
                 end
        end
      else ret gap_analysis
  | _ => ret gap_analysis
  end.

(** The result of the validation crew, or the tests as they were. *)
Definition validated (generated_tests : value) (validation_result : string)
  : value :=
  match json_loads (strip (Stats.json_part validation_result)) with
  | Some (VDict d) => VDict d
  | Some (VList l) => VDict [("generated_tests", VList l)]
  | Some _ => VDict [("generated_tests", VList [])]
  | None => generated_tests
  end.

Definition generator_execute (inputs : generator_inputs) : prog value :=
  gap_analysis <~ resolve_gap_analysis (in_gap_analysis inputs) ;;
  let gap_data := _parse_gap_analysis gap_analysis in
  failed <~ lift (py_in "error" gap_data) ;;
  if failed then ret gap_data
  else
    app_model <~ read_file (in_app_model_path inputs) ;;
    match app_model with
    | None => ret (error_dict "Failed to load application model")
    | Some model =>
        if is_blank model
        then ret (error_dict "Failed to load application model")
        else
          based_on_gaps <~ lift (missing_scenarios gap_data) ;;
          generation_result <~ lift (generation_crew e gap_data (text_of model)) ;;
          let generated_tests := Generator.recover json_loads generation_result in
          final_tests <~
            (if in_validate_tests inputs
             then validation_result <~ lift (validation_crew e generated_tests) ;;
                  ret (validated generated_tests validation_result)
             else ret generated_tests) ;;
          let final_tests_dict :=
            with_metadata (now_metadata e) based_on_gaps final_tests in
          _ <~ (if in_output_file inputs =? "" then ret tt
                else write_file (in_output_file inputs) (Dumped final_tests_dict)) ;;
          ret final_tests_dict
    end.

(** ** [TestExecutorAgent.execute] *)

(** The loop over the test cases; [single_test] is
    [_execute_single_test] with its random draws. *)
Fixpoint run_tests (test_cases : list value) : outcome (list Stats.test) :=
  match test_cases with
  | [] => Returned []
  | test_case :: rest =>
      result <- single_test e test_case ;;
      results <- run_tests rest ;;
      Returned (result :: results)
  end.

Definition executor_execute (test_cases_path output_dir : string)
  : prog execution_report :=
  test_content <~ read_file test_cases_path ;;
  match test_content with
  | None =>
      ret (ExecutionError ("Failed to load test cases from " ++ test_cases_path))
  | Some c =>
      if is_blank c
      then ret (ExecutionError ("Failed to load test cases from " ++ test_cases_path))
      else
        match loads_content c with
        | None => ret (ExecutionError "Invalid JSON in test cases file")
        | Some (VDict test_data) =>
            let test_cases :=
              get_or "enhanced_test_cases"
                     (get_or "generated_tests" (VList []) test_data) test_data in
            if negb (truthy test_cases)
            then ret (ExecutionError "No test cases found in the input file")
            else
              match test_cases with
              | VList l =>
                  results <~ lift (run_tests l) ;;
                  let execution_id := "EXEC_" ++ now_execution e in
                  let report := report_of execution_id results in
                  _ <~ write_file
                         (artifact_path output_dir "execution_report" execution_id)
                         (DumpedReport report) ;;
                  ret (ExecutionReport report)
              | _ => raise "TypeError"
              end
        | Some _ => raise "AttributeError"
        end
  end.

(** ** [ResultAnalyzerAgent.analyze] *)

(** The controller calls [analyze] on the report it has just dumped; a
    file that holds anything else counts as a report that cannot be
    loaded. *)
Definition analyze (execution_report_path : string) : prog analysis_result :=
  loaded <~ read_file execution_report_path ;;
  match loaded with
  | Some (DumpedReport execution_report) =>
      let stats := Stats._calculate_statistics execution_report in
      let insights :=
        Stats._generate_ai_insights num_str fmt_1f json_loads
          (insight_crew e stats) stats in
      recs <~ lift (match insights with
                    | VDict d => Returned (get_or "recommendations" (VList []) d)
                    | _ => Raised "AttributeError"
                    end) ;;
      let summary :=
        {| analysis_id := "ANALYSIS_" ++ now_analysis e;
           report_source := execution_report_path;
           analyzed_at := now_analysis e;
           analyzed_execution_id :=
             Stats.or_default (Stats.execution_id execution_report) "Unknown";
           statistics := stats;
           ai_insights := insights;
           recommendations := recs |} in
      _ <~ write_file
             (artifact_path "data/output" "analysis_summary" (now_analysis e))
             (DumpedAnalysis summary) ;;
      (* _log_analysis_summary slices the recommendations *)
      match recs with
      | VList _ | VStr _ => ret (AnalysisSummary summary)
      | _ => raise "TypeError"
      end
  | _ => ret (AnalysisError "Failed to load report")
  end.

(** ** [TestSuiteOrchestrator.run_pipeline] *)

(** [config[key]]. *)
Definition required (key : string) (v : option string) : prog string :=
  match v with
  | Some s => ret s
  | None => raise ("KeyError: " ++ key)
  end.

Definition run_pipeline (cfg : config) : prog pipeline_result :=
  baseline <~ required "baseline_tests_path" (baseline_tests_path cfg) ;;
  app_model <~ required "app_model_path" (app_model_path cfg) ;;
  (* Step 1 *)
  _ <~ invoke GapAnalysis ;;
  gap_analysis <~ analyzer_execute baseline app_model ;;
  let dir := Stats.or_default (output_dir cfg) "src/data/output" in
  let gap_analysis_file :=
    artifact_path dir "gap_analysis" (now_gap_analysis e) in
  _ <~ write_file gap_analysis_file (Dumped gap_analysis) ;;
  _ <~ lift (log_gap_analysis gap_analysis) ;;
  (* Step 2 *)
  let generator_inputs :=
    {| in_gap_analysis := gap_analysis;
       in_app_model_path := app_model;
       in_validate_tests := Stats.or_default (validate_tests cfg) true;
       in_output_file :=
         artifact_path dir "generated_tests" (now_generated_tests e) |} in
  _ <~ invoke Generation ;;
  generated_tests <~ generator_execute generator_inputs ;;
  _ <~ lift (log_generated_tests generated_tests) ;;
  (* Step 3 *)
  let generated_tests_file := in_output_file generator_inputs in
  present <~ path_exists generated_tests_file ;;
  execution_report <~
    (if present
     then _ <~ invoke Execution ;;
          report <~ executor_execute generated_tests_file dir ;;
          ret (Some report)
     else ret None) ;;
  (* Step 4 *)
  still_present <~ path_exists generated_tests_file ;;
  analysis_summary <~
    (if still_present then
       match execution_report with
       | Some (ExecutionReport report) =>
           let execution_report_file :=
             artifact_path dir "execution_report"
               (or_empty (Stats.execution_id report)) in
           _ <~ write_file execution_report_file (DumpedReport report) ;;
           _ <~ invoke Analysis ;;
           result <~ analyze execution_report_file ;;
           _ <~ lift (match result with
                      | AnalysisSummary a =>
                          match ai_insights a with
                          | VDict d =>
                              _ <- py_len (get_or "recommendations" (VList []) d) ;;
                              Returned tt
                          | _ => Raised "AttributeError"
                          end
                      | AnalysisError _ => Returned tt
                      end) ;;
           ret (Some result)
       | Some (ExecutionError _) => ret None
       | None => raise "UnboundLocalError"
       end
     else ret None) ;;
  (* Step 5, the dashboard, is launched inside a try that swallows every
     exception: it changes neither the files nor the result. *)
  at_return <~ path_exists generated_tests_file ;;
  ret {| r_gap_analysis := gap_analysis;
         r_generated_tests := generated_tests;
         r_execution_report := if at_return then execution_report else None;
         r_analysis_summary := analysis_summary |}.

End Agents.

(** ** Concrete runs *)

(** A stand-in for the text of a dump, for the runs below, in which no
    dump is read as text. *)
Definition dump_text (_ : content) : string := "{}".

Definition sample_gaps (note : string) : value :=
  VDict
    [("gap_analysis_report",
      VDict
        [("summary", VStr note);
         ("missing_scenarios",
          VList
            [VDict [("module", VStr "Login System");
                    ("scenario", VStr "Test invalid login attempts");
                    ("priority", VStr "high")]])])].

Definition passing_test (test_case : value) : outcome Stats.test :=
  Returned
    {| Stats.test_id := Some "TC-AI-001"; Stats.test_name := Some "scenario";
       Stats.module_name := Some "Banking System";
       Stats.category := None; Stats.priority := Some "medium";
       Stats.status := Some "PASSED";
       Stats.execution_time_seconds := Some 1.5;
       Stats.failure_reason := None |}.

(** Every reading of the clock falls in the second [second]; the gap
    analysis crew answers with [note]; the generation crew answers with
    a text that holds no test, every simulated test passes, and the
    insight crew cannot be reached. *)
Definition sample_env (second note : string) : env :=
  {| now_gap_analysis := second;
     now_generated_tests := second;
     now_metadata := second;
     now_execution := second;
     now_analysis := second;
     analysis_crew := fun _ _ => Returned (sample_gaps note);
     generation_crew := fun _ _ => Returned ("No tests for: " ++ note);
     validation_crew := fun _ => Raised "ConnectionError";
     single_test := passing_test;
     insight_crew := fun _ => Raised "ConnectionError" |}.

Definition sample_config : config :=
  {| baseline_tests_path := Some "data/baseline.json";
     app_model_path := Some "data/scenario.md";
     output_dir := Some "out";
     validate_tests := Some false |}.

(** A world without the source files, and one with them. *)
Definition bare_world : world := {| files := []; trace := [] |}.

Definition ready_world : world :=
  {| files := [("data/baseline.json", Text "[]");
               ("data/scenario.md", Text "# FinClusive")];
     trace := [] |}.

(** [run_pipeline] with the reference reader and renderings. *)
Definition sample_run (second note : string) : prog pipeline_result :=
  run_pipeline Json.loads dump_text Stats.show_fraction Stats.show_fraction
    (sample_env second note) sample_config.

End Orchestrator.

(* ================================================================== *)
(** * What the statistics owe *)
(* ================================================================== *)

Module StatsSpec.
Import Py Stats.
Local Open Scope Q_scope.

(** The sum of the [failed] counters of a dimension. *)
Definition sum_failed (d : list (string * bucket)) : Z :=
  zsum (map (fun kv => b_failed (snd kv)) d).

(** The same sum before the rates are added. *)
Definition count_failed (d : list (string * counts)) : Z :=
  zsum (map (fun kv => c_failed (snd kv)) d).

(** The number of tests whose status is [s]. *)
Definition with_status (s : string) (l : list test) : Z :=
  Z.of_nat (List.length (filter (status_is s) l)).

(** The distribution of a list of tests: all of them, the passed ones,
    and the others. *)
Definition distribution_of (l : list test) : distribution :=
  {| d_total := Z.of_nat (List.length l);
     d_passed := with_status "PASSED" l;
     d_failed := Z.of_nat (List.length l) - with_status "PASSED" l |}.

(** The tests that fall under the key [k], and those of them that
    failed. *)
Definition under (key : test -> string) (k : string) (t : test) : bool :=
  key t =? k.

Definition failed_under (key : test -> string) (k : string) (t : test) : bool :=
  (key t =? k) && status_is "FAILED" t.

(** What the bucket [b] kept under [k] owes: it counts the tests under
    [k] and the failed ones among them, it is not empty, and its rate is
    a percentage, within a hundredth of that of its failed tests. *)
Record counted (key : test -> string) (all_tests : list test)
  (k : string) (b : bucket) : Prop := {
  counted_total :
    b_total b = Z.of_nat (List.length (filter (under key k) all_tests));
  counted_failed :
    b_failed b = Z.of_nat (List.length (filter (failed_under key k) all_tests));
  counted_some : (1 <= b_total b)%Z;
  counted_bounds : (0 <= b_failed b <= b_total b)%Z;
  counted_rate :
    inject_Z (b_failed b) / inject_Z (b_total b) * 100 - 0.01 <= failure_rate b
    /\ failure_rate b <= inject_Z (b_failed b) / inject_Z (b_total b) * 100 + 0.01;
  counted_percentage : 0 <= failure_rate b /\ failure_rate b <= 100
}.

(** Ascending order of the timings. *)
Definition quicker (a b : timing) : Prop := t_time a <= t_time b.

End StatsSpec.

(* ================================================================== *)
(** * What a run owes *)
(* ================================================================== *)

Module PipelineSpec.
Import Py Pipeline.

(** The stages a trace shows, in the order they were invoked. *)
Definition stages_of (t : list event) : list stage :=
  flat_map (fun ev => match ev with Invoked s => [s] | Wrote _ => [] end) t.

(** The order of the pipeline. *)
Definition pipeline_stages : list stage :=
  [GapAnalysis; Generation; Execution; Analysis].

(** A program that invokes no stage. *)
Definition silent (A : Type) (m : prog A) : Prop :=
  forall w, stages_of (trace (snd (m w))) = stages_of (trace w).

(** A program that removes no file. *)
Definition keeps_files (A : Type) (m : prog A) : Prop :=
  forall w path, has path (files w) = true ->
                 has path (files (snd (m w))) = true.

End PipelineSpec.

(* ================================================================== *)
(** * Further concrete inputs *)
(* ================================================================== *)

Module Samples.
Import Py Pipeline Orchestrator.
Local Open Scope Q_scope.

(** A world in which the generator has left a file with one test. *)
Definition one_test : value :=
  VDict [("test_id", VStr "TC-AI-001"); ("module", VStr "Banking System");
         ("priority", VStr "medium")].

Definition tests_world : world :=
  {| files := [("out/generated_tests_20250101_120000.json",
                Dumped (VDict [("generated_tests", VList [one_test])]))];
     trace := [] |}.

(** The result [passing_test] reports for any test case. *)
Definition passed_result : Stats.test :=
  {| Stats.test_id := Some "TC-AI-001"; Stats.test_name := Some "scenario";
     Stats.module_name := Some "Banking System";
     Stats.category := None; Stats.priority := Some "medium";
     Stats.status := Some "PASSED";
     Stats.execution_time_seconds := Some 1.5;
     Stats.failure_reason := None |}.


End Samples.

(* ================================================================== *)
(** * What the matcher and the scans owe *)
(* ================================================================== *)

Module ReSpec.
Import Py Re.

(** Every character of [s] satisfies [p]. *)
Fixpoint all_chars (p : ascii -> bool) (s : string) : bool :=
  match s with
  | EmptyString => true
  | String c r => p c && all_chars p r
  end.

(** The number of occurrences of [c] in [s]. *)
Fixpoint count_char (c : ascii) (s : string) : nat :=
  match s with
  | EmptyString => O
  | String c' r => ((if Ascii.eqb c' c then 1 else 0) + count_char c r)%nat
  end.

(** [matched r s g s' g']: the pattern [r] matches a prefix of [s] and
    leaves [s']; the text of the group goes from [g] to [g']. *)
Inductive matched : regex -> string -> option string -> string -> option string
                    -> Prop :=
| matched_eps (s : string) (g : option string) : matched Eps s g s g
| matched_chr (c : ascii) (s : string) (g : option string) :
    matched (Chr c) (String c s) g s g
| matched_class (p : ascii -> bool) (c : ascii) (s : string) (g : option string) :
    p c = true -> matched (Class p) (String c s) g s g
| matched_seq (r1 r2 : regex) (s s1 s2 : string) (g g1 g2 : option string) :
    matched r1 s g s1 g1 -> matched r2 s1 g1 s2 g2 ->
    matched (Seq r1 r2) s g s2 g2
| matched_star_stop (r : regex) (s : string) (g : option string) :
    matched (Star r) s g s g
| matched_star_more (r : regex) (s s1 s2 : string) (g g1 g2 : option string) :
    matched r s g s1 g1 -> matched (Star r) s1 g1 s2 g2 ->
    matched (Star r) s g s2 g2
| matched_group (r : regex) (s s1 : string) (g g1 : option string) :
    matched r s g s1 g1 ->
    matched (Group r) s g s1
      (Some (take (String.length s - String.length s1) s)).

(** [l[:10] if l else ...] has at most ten items, ten when [l] is
    empty. *)
Definition capped (l : list string) : nat :=
  match l with
  | [] => 10
  | _ => Nat.min 10 (List.length l)
  end.

(** [if test_ids or modules or test_scenarios]. *)
Definition any_found (test_ids modules test_scenarios : list string) : bool :=
  match test_ids, modules, test_scenarios with
  | [], [], [] => false
  | _, _, _ => true
  end.

(** The text kept under [k] in a record, when it is one. *)
Definition text_at (k : string) (record : value) : option string :=
  match record with
  | VDict d => match get k d with Some (VStr s) => Some s | _ => None end
  | _ => None
  end.

(** The record has a test identifier that starts with [TC-]. *)
Definition id_is_tc (record : value) : bool :=
  match text_at "test_id" record with
  | Some id => String.prefix "TC-" id
  | None => false
  end.

(** The record keeps under [k] a text that is not empty and holds no
    double quote. *)
Definition clean_at (k : string) (record : value) : bool :=
  match text_at k record with
  | Some v => negb (v =? "") && all_chars not_quote v
  | None => false
  end.

End ReSpec.

(* ================================================================== *)
(** * The whole of [analyze_results] *)
(* ================================================================== *)

(** [analyze_results] after its basic metrics: the average time, the
    results by module, the failures, the recommendations and the
    failure analysis, and the error result that every exception inside
    the function ends in.  The text of an exception is not modelled: an
    error result carries the class of the exception.  [ErrorAnalyzer]
    belongs to a package that is not part of these sources; its answer
    is a parameter. *)

Module Results.
Import Py Analyze.
Local Open Scope Q_scope.

(** What iterating over [results] yields, for the values [len]
    accepts. *)
Definition sized (results : value) : outcome (list value) :=
  match results with
  | VList l => Returned l
  | VDict d => Returned (map (fun kv => VStr (fst kv)) d)
  | VStr s => Returned (map (fun c => VStr (String c "")) (list_ascii_of_string s))
  | _ => Raised "TypeError"
  end.

(** [r.get(...)] needs every item to be a dict. *)
Fixpoint as_records (items : list value) : outcome (list dict) :=
  match items with
  | [] => Returned []
  | VDict d :: rest =>
      records <- as_records rest ;;
      Returned (d :: records)
  | _ :: _ => Raised "AttributeError"
  end.

(** [r[k]]. *)
Definition item (k : string) (r : dict) : outcome value :=
  match get k r with
  | Some v => Returned v
  | None => Raised "KeyError"
  end.

(** The running total of [sum]: an [int] as long as only integers and
    booleans were added, a [float] from the first float on. *)
Inductive total : Type :=
| IntTotal (z : Z)
| FloatTotal (x : Q).

(** The least integer that is too large for a float: the middle
    between the largest float and [2^1024], which rounds upwards. *)
Definition float_limit : Z := 2 ^ 1024 - 2 ^ 970.

(** [float(z)], as the addition of an [int] and a [float] converts. *)
Definition float_of_int (z : Z) : outcome Q :=
  if (Z.abs z <? float_limit)%Z then Returned (inject_Z z)
  else Raised "OverflowError".

(** [acc + v]. *)
Definition plus (acc : total) (v : value) : outcome total :=
  match acc, v with
  | IntTotal a, VInt z => Returned (IntTotal (a + z))
  | IntTotal a, VBool b => Returned (IntTotal (a + (if b then 1 else 0)))
  | IntTotal a, VFloat x =>
      a' <- float_of_int a ;;
      Returned (FloatTotal (a' + x))
  | FloatTotal a, VInt z =>
      z' <- float_of_int z ;;
      Returned (FloatTotal (a + z'))
  | FloatTotal a, VBool b => Returned (FloatTotal (a + (if b then 1 else 0)))
  | FloatTotal a, VFloat x => Returned (FloatTotal (a + x))
  | _, _ => Raised "TypeError"
  end.

(** [sum(r["execution_time"] for r in results)], from [acc]. *)
Fixpoint sum_times (acc : total) (results : list dict) : outcome total :=
  match results with
  | [] => Returned acc
  | r :: rest =>
      v <- item "execution_time" r ;;
      acc' <- plus acc v ;;
      sum_times acc' rest
  end.

(** [total / n] for [n > 0]: the quotient of two integers is rounded
    to a float, and raises when it is too large for one. *)
Definition average (t : total) (n : Z) : outcome Q :=
  match t with
  | IntTotal z =>
      if (Z.abs z <? n * float_limit)%Z then Returned (inject_Z z / inject_Z n)
      else Raised "OverflowError"
  | FloatTotal x => Returned (x / inject_Z n)
  end.

(** [[r[k] for r in results]]. *)
Fixpoint column (k : string) (results : list dict) : outcome (list value) :=
  match results with
  | [] => Returned []
  | r :: rest =>
      v <- item k r ;;
      vs <- column k rest ;;
      Returned (v :: vs)
  end.

(** The values that can be keys, and [==] between them. *)
Definition hashable (v : value) : bool :=
  match v with
  | VList _ | VDict _ => false
  | _ => true
  end.

Definition key_number (v : value) : option Q :=
  match v with
  | VBool b => Some (if b then 1 else 0)
  | VInt z => Some (inject_Z z)
  | VFloat x => Some x
  | _ => None
  end.

Definition key_eqb (a b : value) : bool :=
  match a, b with
  | VNone, VNone => true
  | VStr s, VStr t => s =? t
  | _, _ =>
      match key_number a, key_number b with
      | Some x, Some y => Qeq_bool x y
      | _, _ => false
      end
  end.

(** The keys of [Counter(l)]: the values of [l], each kept where it
    first occurs. *)
Definition distinct (l : list value) : list value :=
  fold_left (fun seen k => if existsb (key_eqb k) seen then seen
                           else (seen ++ [k])%list) l [].

(** [r["module"] == module], for records that all have a module. *)
Definition in_module (module : value) (r : dict) : bool :=
  match get "module" r with
  | Some m => key_eqb m module
  | None => false
  end.

Record module_stats : Type := {
  m_total : Z;
  m_passed : Z;
  m_failed : Z;
  m_skipped : Z;
  m_pass_rate : Q
}.

(** The body of the loop over the modules. *)
Definition stats_of_module (results : list dict) (module : value) : module_stats :=
  let module_tests := filter (in_module module) results in
  let module_skipped := count_status "SKIPPED" module_tests in
  let module_executed :=
    (Z.of_nat (List.length module_tests) - module_skipped)%Z in
  let module_passed := count_status "PASS" module_tests in
  {| m_total := Z.of_nat (List.length module_tests);
     m_passed := module_passed;
     m_failed := Z.max (module_executed - module_passed) 0;
     m_skipped := module_skipped;
     m_pass_rate :=
       if (0 <? module_executed)%Z
       then (inject_Z module_passed / inject_Z module_executed) * 100
       else 0 |}.

Record failure : Type := {
  f_test_id : value;
  f_name : value;
  f_module : value;
  f_details : value
}.

(** The comprehension that builds [failure_details]. *)
Fixpoint details_of_failures (failures : list dict) : outcome (list failure) :=
  match failures with
  | [] => Returned []
  | f :: rest =>
      test_id <- item "test_id" f ;;
      name <- item "name" f ;;
      module <- item "module" f ;;
      details <- item "failure_details" f ;;
      others <- details_of_failures rest ;;
      Returned ({| f_test_id := test_id; f_name := name; f_module := module;
                   f_details := details |} :: others)
  end.

(** The three forms of [failure_analysis]: the answer of
    [ErrorAnalyzer], the replacement when it raises, and the one for a
    run without failures. *)
Inductive failure_analysis : Type :=
| Analyzed (answer : value)
| AnalysisFailed (failures : list failure)
| AllPassing.

Record analysis : Type := {
  summary : overview;
  avg_execution_time : Q;
  module_results : list (value * module_stats);
  failures : list failure;
  recommendations : list string;
  analysis_of_failures : failure_analysis;
  timestamp : string
}.

Inductive analysis_result : Type :=
| Analysis (a : analysis)
| ErrorAnalysis (error : string) (timestamp : string).

Definition overall_recommendation : string :=
  "Overall pass rate is below 90%. Investigate failing tests before proceeding.".

Section Analysis.

(** [json.loads]; [str(module)] for a module that is not a text;
    [f"{x:.1f}"]; the answer of [ErrorAnalyzer.analyze_failures]; and
    the clock. *)
Variable json_loads : string -> option value.
Variable str_of : value -> string.
Variable fmt_1f : Q -> string.
Variable error_analyzer :
  list dict -> list (value * module_stats) -> outcome value.
Variable now : string.

Definition module_text (module : value) : string :=
  match module with
  | VStr s => s
  | other => str_of other
  end.

Definition module_recommendation (entry : value * module_stats) : list string :=
  if qlt (m_pass_rate (snd entry)) 75
  then ["Module '" ++ module_text (fst entry) ++ "' has a low pass rate of "
        ++ fmt_1f (m_pass_rate (snd entry)) ++ "%. Prioritize fixing these tests."]
  else [].

(** The body of the [try]. *)
Definition analyze_loaded (loaded : value) : outcome analysis :=
  items <- sized loaded ;;
  results <- as_records items ;;
  let metrics := basic_metrics results in
  avg <-
    (if (0 <? total_tests metrics)%Z
     then total_time <- sum_times (IntTotal 0) results ;;
          average total_time (total_tests metrics)
     else Returned 0) ;;
  modules <- column "module" results ;;
  if negb (forallb hashable modules) then Raised "TypeError"
  else
    let module_results :=
      map (fun module => (module, stats_of_module results module))
          (distinct modules) in
    let failed := filter (status_is "FAIL") results in
    failure_details <- details_of_failures failed ;;
    let recommendations :=
      ((if qlt (pass_rate metrics) 90 then [overall_recommendation] else [])
       ++ flat_map module_recommendation module_results)%list in
    let failure_analysis :=
      match failed with
      | [] => AllPassing
      | _ =>
          match error_analyzer failed module_results with
          | Returned answer => Analyzed answer
          | Raised _ => AnalysisFailed failure_details
          end
      end in
    Returned {| summary := metrics;
                avg_execution_time := avg;
                module_results := module_results;
                failures := failure_details;
                recommendations := recommendations;
                analysis_of_failures := failure_analysis;
                timestamp := now |}.

Definition analyze_results (raw_results_str : string) : analysis_result :=
  match json_loads raw_results_str with
  | None => ErrorAnalysis "JSONDecodeError" now
  | Some loaded =>
      match analyze_loaded loaded with
      | Returned a => Analysis a
      | Raised exn => ErrorAnalysis exn now
      end
  end.

End Analysis.

(** The values that [sum] can add: numbers and booleans. *)
Definition is_number (v : value) : bool :=
  match v with
  | VInt _ | VFloat _ | VBool _ => true
  | _ => false
  end.

(** The records the analysis goes through: every one has a number as
    its time and a module that can be a key, and the failed ones have
    what the list of failures shows of them. *)
Definition complete (r : dict) : bool :=
  match get "execution_time" r with
  | Some v => is_number v
  | None => false
  end
  && match get "module" r with
     | Some m => hashable m
     | None => false
     end
  && (negb (status_is "FAIL" r)
      || (has "test_id" r && has "name" r && has "failure_details" r)).

Definition analysable (loaded : value) : bool :=
  match sized loaded with
  | Returned items =>
      match as_records items with
      | Returned results => forallb complete results
      | Raised _ => false
      end
  | Raised _ => false
  end.

(** The size of a time that is an integer: a boolean counts as the
    integer it is.  The integer times of a run are moderate when their
    sizes add up to less than [float_limit]: no total of them is then
    too large for a float. *)
Definition int_size (r : dict) : Z :=
  match get "execution_time" r with
  | Some (VInt z) => Z.abs z
  | Some (VBool _) => 1
  | _ => 0
  end.

Definition moderate (loaded : value) : bool :=
  match sized loaded with
  | Returned items =>
      match as_records items with
      | Returned results => (zsum (map int_size results) <? float_limit)%Z
      | Raised _ => true
      end
  | Raised _ => true
  end.

(** A record whose status is none of the three. *)
Definition other_status (r : dict) : bool :=
  negb (status_is "PASS" r || status_is "FAIL" r || status_is "SKIPPED" r).

(** A stand-in for [ErrorAnalyzer], which cannot be imported. *)
Definition no_analyzer (_ : list dict) (_ : list (value * module_stats))
  : outcome value := Raised "ModuleNotFoundError".

(** A record of the shape [parse_junit_to_results] emits, and a run
    of three tests in two modules. *)
Definition record_of (module status : string) : dict :=
  [("test_id", VStr "t"); ("name", VStr "n"); ("module", VStr module);
   ("status", VStr status); ("execution_time", VFloat 0.5);
   ("timestamp", VStr ""); ("failure_details", VStr "")].

Definition sample_results : value :=
  VList [VDict (record_of "login" "PASS"); VDict (record_of "login" "FAIL");
         VDict (record_of "pay" "SKIPPED")].

End Results.

(* ================================================================== *)
(** * The reply of the crew: [TestAnalyzerAgent.execute], lines 136-237 *)
(* ================================================================== *)

Module GapReply.
Import Py Pipeline.

(** [s.find(sub)] and [s.rfind(sub)]: [-1] when [sub] does not occur. *)
Definition py_find (sub s : string) : Z :=
  match find sub s with
  | Some i => Z.of_nat i
  | None => (-1)%Z
  end.

Fixpoint rfind (sub s : string) : option nat :=
  match s with
  | EmptyString => if String.prefix sub s then Some 0%nat else None
  | String _ r =>
      match rfind sub r with
      | Some i => Some (S i)
      | None => if String.prefix sub s then Some 0%nat else None
      end
  end.

Definition py_rfind (sub s : string) : Z :=
  match rfind sub s with
  | Some i => Z.of_nat i
  | None => (-1)%Z
  end.

(** [s.find(sub, start)]. *)
Definition py_find_from (sub s : string) (start : Z) : Z :=
  let len := Z.of_nat (String.length s) in
  let from := if (start <? 0)%Z then Z.max (start + len) 0 else start in
  if (len <? from)%Z then (-1)%Z
  else match find sub (drop (Z.to_nat from) s) with
       | Some i => (from + Z.of_nat i)%Z
       | None => (-1)%Z
       end.

(** [s[a:b]]: an index below zero counts from the end, and both are
    brought into the text. *)
Definition bound (len i : Z) : Z :=
  if (i <? 0)%Z then Z.max (i + len) 0 else Z.min i len.

Definition slice (a b : Z) (s : string) : string :=
  let len := Z.of_nat (String.length s) in
  take (Z.to_nat (bound len b - bound len a)) (drop (Z.to_nat (bound len a)) s).

(** [s.count(sub)] for a non-empty [sub]: the occurrences that do not
    overlap, from the left; [skip] as in [split_aux]. *)
Fixpoint count_aux (sub : string) (skip : nat) (s : string) : nat :=
  match s with
  | EmptyString => O
  | String _ r =>
      match skip with
      | S k => count_aux sub k r
      | O =>
          if String.prefix sub s
          then S (count_aux sub (String.length sub - 1) r)
          else count_aux sub 0 r
      end
  end.

Definition count (sub s : string) : Z := Z.of_nat (count_aux sub 0 s).

(** The four extraction methods, lines 143-167. *)
Definition json_content (result_text : string) : option string :=
  if contains "```json" result_text then
    let json_start := (py_find "```json" result_text + 7)%Z in
    let json_end := py_find_from "```" result_text json_start in
    if (json_start <? json_end)%Z
    then Some (strip (slice json_start json_end result_text))
    else None
  else if contains "```" result_text && (2 <=? count "```" result_text)%Z then
    let first_block := (py_find "```" result_text + 3)%Z in
    let second_block := py_find_from "```" result_text first_block in
    if (first_block <? second_block)%Z
    then Some (strip (slice first_block second_block result_text))
    else None
  else if contains "{" result_text && contains "}" result_text then
    let start := py_find "{" result_text in
    let end_ := (py_rfind "}" result_text + 1)%Z in
    Some (slice start end_ result_text)
  else if startswith result_text "{" && endswith result_text "}" then
    Some result_text
  else None.

Definition scenario (module scenario priority reason category test_type : string)
  : value :=
  VDict [("module", VStr module); ("scenario", VStr scenario);
         ("priority", VStr priority); ("reason", VStr reason);
         ("category", VStr category); ("test_type", VStr test_type)].

(** The fallback response, lines 182-237. *)
Definition fallback (result : string) : value :=
  VDict
    [("gap_analysis_report",
      VDict
        [("summary",
          VStr "Fallback analysis due to JSON parsing issues - comprehensive testing gaps identified");
         ("missing_scenarios",
          VList
            [scenario "User Authentication"
                      "Test login with invalid credentials and account lockout"
                      "critical"
                      "Security vulnerability - brute force protection"
                      "security_tests" "security";
             scenario "Payment Processing"
                      "Test payment gateway timeout handling"
                      "high" "Financial transaction integrity"
                      "api_tests" "functional";
             scenario "Transaction Management"
                      "Test concurrent transaction processing"
                      "high" "Data consistency and race conditions"
                      "performance_tests" "performance";
             scenario "User Interface"
                      "Test responsive design across devices"
                      "medium" "User experience and accessibility"
                      "ui_tests" "functional";
             scenario "Data Validation"
                      "Test boundary value analysis for transaction amounts"
                      "high" "Input validation and edge case handling"
                      "data_driven_tests" "functional"]);
         ("category_coverage",
          VDict [("ui_tests", VInt 8); ("api_tests", VInt 12);
                 ("security_tests", VInt 10); ("performance_tests", VInt 6);
                 ("data_driven_tests", VInt 8)]);
         ("testing_mandate",
          VStr "Generate comprehensive test cases covering UI, API, security, performance, and data validation scenarios for banking application");
         ("raw_analysis", VStr (take 1000 result))])].

Section Parse.

Variable json_loads : string -> option value.

(** Lines 136-237, from [str(result)]: the parsed content, or the
    fallback when there is no content or it is not JSON. *)
Definition parsed_result (result : string) : value :=
  let result_text := strip result in
  match json_content result_text with
  | Some content =>
      if content =? "" then fallback result
      else match json_loads content with
           | Some parsed => parsed
           | None => fallback result
           end
  | None => fallback result
  end.

End Parse.

(** A character other than the backtick, and other than a brace. *)
Definition no_tick (c : ascii) : bool := negb (Ascii.eqb c "`"%char).
Definition no_open (c : ascii) : bool := negb (Ascii.eqb c "{"%char).
Definition no_close (c : ascii) : bool := negb (Ascii.eqb c "}"%char).

End GapReply.

(* ================================================================== *)
(** * Part II: properties *)
(* ================================================================== *)

(* ------------------------------------------------------------------ *)
(** ** Sums and comparisons *)
(* ------------------------------------------------------------------ *)

Module PyFacts.
Import Py.

Lemma zsum_from (l : list Z) (a : Z) :
  fold_left Z.add l a = (a + zsum l)%Z.
Proof.
  unfold zsum. revert a.
  induction l as [|x l IH]; intro a; simpl.
  - lia.
  - rewrite IH, (IH x). lia.
Qed.

Lemma zsum_cons (x : Z) (l : list Z) : zsum (x :: l) = (x + zsum l)%Z.
Proof. unfold zsum at 1. simpl. apply zsum_from. Qed.

Lemma qlt_true (a b : Q) : qlt a b = true -> a < b.
Proof.
  unfold qlt. intro H. apply negb_true_iff in H.
  apply Qnot_le_lt. intro Hle. apply Qle_bool_iff in Hle. congruence.
Qed.

Lemma qlt_false (a b : Q) : qlt a b = false -> b <= a.
Proof.
  unfold qlt. intro H. apply negb_false_iff in H.
  apply Qle_bool_iff. exact H.
Qed.

End PyFacts.

(* ------------------------------------------------------------------ *)
(** ** Basic metrics of [analyze_results] *)
(* ------------------------------------------------------------------ *)

Module AnalyzeFacts.
Import Py PyFacts Analyze.

Lemma zsum_ones (A : Type) (l : list A) :
  zsum (map (fun _ => 1%Z) l) = Z.of_nat (List.length l).
Proof.
  induction l as [|x l IH].
  - reflexivity.
  - unfold zsum in *. cbn [map fold_left List.length].
    rewrite zsum_from. unfold zsum. rewrite IH. lia.
Qed.

Lemma count_status_length (s : string) (results : list dict) :
  count_status s results
  = Z.of_nat (List.length (filter (status_is s) results)).
Proof. unfold count_status. apply zsum_ones. Qed.

Lemma status_exclusive (r : dict) :
  status_is "SKIPPED" r = true -> status_is "PASS" r = false.
Proof.
  unfold status_is. destruct (get "status" r) as [[| | | |t| |]|]; try discriminate.
  intro H. apply String.eqb_eq in H. subst t. reflexivity.
Qed.

(** Passed and skipped records are disjoint, so together they are at
    most all the records. *)
Lemma passed_skipped_le (results : list dict) :
  (List.length (filter (status_is "PASS") results)
   + List.length (filter (status_is "SKIPPED") results)
   <= List.length results)%nat.
Proof.
  induction results as [|r l IH]; simpl.
  - lia.
  - destruct (status_is "SKIPPED" r) eqn:Hs.
    + rewrite (status_exclusive r Hs). simpl. lia.
    + destruct (status_is "PASS" r); simpl; lia.
Qed.

Lemma count_nonneg (s : string) (results : list dict) :
  (0 <= count_status s results)%Z.
Proof. rewrite count_status_length. lia. Qed.

Lemma passed_le_executed (results : list dict) :
  (passed_tests (basic_metrics results)
   <= executed_tests (basic_metrics results))%Z.
Proof.
  simpl. rewrite !count_status_length.
  pose proof (passed_skipped_le results). lia.
Qed.

Lemma rate_bounds (p e : Z) :
  (0 <= p <= e)%Z -> (0 < e)%Z ->
  0 <= (inject_Z p / inject_Z e) * 100 /\
  (inject_Z p / inject_Z e) * 100 <= 100.
Proof.
  intros Hp He.
  assert (Hq : 0 < inject_Z e) by (unfold Qlt; simpl; lia).
  assert (H0 : 0 <= inject_Z p / inject_Z e).
  { apply Qle_shift_div_l; [exact Hq|].
    unfold Qle; simpl. lia. }
  assert (H1 : inject_Z p / inject_Z e <= 1).
  { apply Qle_shift_div_r; [exact Hq|].
    rewrite Qmult_1_l. unfold Qle; simpl; lia. }
  split.
  - apply Qmult_le_0_compat; [exact H0 | unfold Qle; simpl; lia].
  - setoid_replace 100 with (1 * 100) at 2 by reflexivity.
    apply Qmult_le_compat_r; [exact H1 | unfold Qle; simpl; lia].
Qed.

Lemma three_way_split (results : list dict) :
  Forall (fun r => status_is "PASS" r = true \/ status_is "FAIL" r = true
                   \/ status_is "SKIPPED" r = true) results ->
  (count_status "PASS" results + count_status "FAIL" results
   + count_status "SKIPPED" results = Z.of_nat (List.length results))%Z.
Proof.
  rewrite !count_status_length.
  induction 1 as [|r l Hr _ IH]; simpl.
  - reflexivity.
  - assert (Hx : forall a b, a <> b -> status_is a r = true ->
                             status_is b r = false).
    { intros a b Hab. unfold status_is.
      destruct (get "status" r) as [[| | | |t| |]|]; try discriminate.
      intro H. apply String.eqb_eq in H. subst t.
      apply String.eqb_neq. exact Hab. }
    destruct Hr as [H|[H|H]]; rewrite H.
    + rewrite (Hx "PASS" "FAIL"), (Hx "PASS" "SKIPPED") by (discriminate || exact H).
      simpl List.length. lia.
    + rewrite (Hx "FAIL" "PASS"), (Hx "FAIL" "SKIPPED") by (discriminate || exact H).
      simpl List.length. lia.
    + rewrite (Hx "SKIPPED" "PASS"), (Hx "SKIPPED" "FAIL") by (discriminate || exact H).
      simpl List.length. lia.
Qed.

(** C3.  For every list of result records the basic metrics satisfy
    executed = total - skipped and passed + failed = executed, the pass
    rate lies between 0 and 100, and it is 0 when nothing was executed. *)
Theorem overview_invariants (results : list dict) :
  executed_tests (basic_metrics results)
  = (total_tests (basic_metrics results)
     - skipped_tests (basic_metrics results))%Z /\
  (passed_tests (basic_metrics results) + failed_tests (basic_metrics results)
   = executed_tests (basic_metrics results))%Z /\
  0 <= pass_rate (basic_metrics results) /\
  pass_rate (basic_metrics results) <= 100 /\
  (executed_tests (basic_metrics results) = 0%Z ->
   pass_rate (basic_metrics results) == 0).
Proof.
  pose proof (passed_le_executed results) as Hle.
  pose proof (count_nonneg "PASS" results) as Hp.
  cbn [basic_metrics executed_tests total_tests skipped_tests passed_tests
       failed_tests pass_rate] in *.
  set (e := (Z.of_nat (List.length results) - count_status "SKIPPED" results)%Z) in *.
  set (p := count_status "PASS" results) in *.
  assert (He : (0 <= e)%Z) by lia.
  split; [reflexivity|]. split.
  - destruct (0 <=? e)%Z eqn:E; [lia|]. apply Z.leb_gt in E. lia.
  - destruct (0 <? e)%Z eqn:E.
    + apply Z.ltb_lt in E.
      destruct (rate_bounds (p:=p) (e:=e)) as [H0 H1]; [lia|exact E|].
      split; [exact H0|]. split; [exact H1|]. intro; lia.
    + split; [unfold Qle; simpl; lia|].
      split; [unfold Qle; simpl; lia|]. intro; reflexivity.
Qed.

Lemma overview_invariants_witness :
  executed_tests (basic_metrics [with_status "SKIPPED"]) = 0%Z /\
  pass_rate (basic_metrics [with_status "SKIPPED"]) == 0.
Proof.
  split; [reflexivity|].
  apply (overview_invariants [with_status "SKIPPED"]). reflexivity.
Defined.

(** C7, as stated, fails: for ten records with two failures and one
    skip the pass rate is 700/9, which is not 77.78; lines 37-43 do not
    round. *)
Lemma pass_rate_not_rounded :
  ~ (pass_rate (basic_metrics ten_records) == 77.78).
Proof. vm_compute. discriminate. Qed.

(** C7, amended.  Ten records, exactly two of them failed and exactly one
    skipped, the others passed: total 10, skipped 1, executed 9, passed 7,
    failed 2, and the pass rate is the unrounded 700/9, which lies
    strictly between 77.77 and 77.78. *)
Theorem ten_records_overview (results : list dict) :
  List.length results = 10%nat ->
  Forall (fun r => status_is "PASS" r = true \/ status_is "FAIL" r = true
                   \/ status_is "SKIPPED" r = true) results ->
  count_status "FAIL" results = 2%Z ->
  count_status "SKIPPED" results = 1%Z ->
  total_tests (basic_metrics results) = 10%Z /\
  skipped_tests (basic_metrics results) = 1%Z /\
  executed_tests (basic_metrics results) = 9%Z /\
  passed_tests (basic_metrics results) = 7%Z /\
  failed_tests (basic_metrics results) = 2%Z /\
  pass_rate (basic_metrics results) == 700 # 9 /\
  77.77 < pass_rate (basic_metrics results) /\
  pass_rate (basic_metrics results) < 77.78.
Proof.
  intros Hlen Hall Hf Hs.
  pose proof (three_way_split Hall) as H3.
  rewrite Hlen, Hf, Hs in H3.
  assert (Hp : count_status "PASS" results = 7%Z) by lia.
  cbn [basic_metrics executed_tests total_tests skipped_tests passed_tests
       failed_tests pass_rate].
  rewrite Hlen, Hs, Hp.
  repeat split; reflexivity.
Qed.

Lemma ten_records_overview_witness :
  pass_rate (basic_metrics ten_records) == 700 # 9.
Proof.
  apply (ten_records_overview (results := ten_records)).
  - reflexivity.
  - unfold ten_records. simpl.
    repeat (constructor; [vm_compute; tauto|]). constructor.
  - reflexivity.
  - reflexivity.
Defined.

End AnalyzeFacts.

(* ------------------------------------------------------------------ *)
(** ** The simulated executor *)
(* ------------------------------------------------------------------ *)

Module ExecutorFacts.
Import Py PyFacts Executor.
Local Open Scope Q_scope.

(** [max(0.1, min(0.95, x))] lies between its two bounds. *)
Lemma clamp_bounds (x : Q) :
  0.1 <= py_max 0.1 (py_min 0.95 x) /\ py_max 0.1 (py_min 0.95 x) <= 0.95.
Proof.
  unfold py_max, py_min.
  destruct (qlt x 0.95) eqn:Hx.
  - apply qlt_true in Hx.
    destruct (qlt 0.1 x) eqn:Hy.
    + apply qlt_true in Hy. split; apply Qlt_le_weak; assumption.
    + split; [apply Qle_refl | unfold Qle; simpl; lia].
  - destruct (qlt 0.1 0.95) eqn:Hy.
    + split; [unfold Qle; simpl; lia | apply Qle_refl].
    + discriminate Hy.
Qed.

Lemma both_results_possible (p : Q) :
  0.1 <= p -> p <= 0.95 ->
  test_passed 0 p = true /\ test_passed 0.95 p = false.
Proof.
  intros Hlo Hhi. unfold test_passed, qlt. split.
  - apply negb_true_iff. destruct (Qle_bool p 0) eqn:E; [|reflexivity].
    apply Qle_bool_iff in E.
    assert (H : 0.1 <= 0) by (eapply Qle_trans; eassumption).
    unfold Qle in H; simpl in H; lia.
  - apply negb_false_iff. apply Qle_bool_iff. exact Hhi.
Qed.

(** C10.  Whatever the priority and the test type of a record, the
    computed pass probability lies between 0.1 and 0.95, so that a draw
    of 0 passes and a draw of 0.95 fails: neither result is certain.
    The call raises only on a record whose priority cannot be hashed or
    whose test type is not a string. *)
Theorem pass_probability_clamped (test_case : dict) :
  match _calculate_pass_probability test_case with
  | Returned p =>
      0.1 <= p /\ p <= 0.95 /\
      test_passed 0 p = true /\ test_passed 0.95 p = false /\
      ill_typed test_case = false
  | Raised _ => ill_typed test_case = true
  end.
Proof.
  unfold _calculate_pass_probability, ill_typed, priority_adjusted.
  assert (Hgo : forall base,
    match
      (match get_or "test_type" (VStr "") test_case with
       | VStr test_type =>
           Returned (py_max 0.1 (py_min 0.95 (type_adjusted base test_type)))
       | _ => Raised "AttributeError"
       end) with
    | Returned p =>
        0.1 <= p /\ p <= 0.95 /\
        test_passed 0 p = true /\ test_passed 0.95 p = false /\
        match get_or "test_type" (VStr "") test_case with
        | VStr _ => false
        | _ => true
        end = false
    | Raised _ =>
        match get_or "test_type" (VStr "") test_case with
        | VStr _ => false
        | _ => true
        end = true
    end).
  { intro base.
    destruct (get_or "test_type" (VStr "") test_case); try reflexivity.
    destruct (clamp_bounds (type_adjusted base s)) as [Hlo Hhi].
    destruct (both_results_possible Hlo Hhi) as [Hp Hf].
    repeat split; assumption. }
  destruct (get_or "priority" (VStr "medium") test_case) as [| | | |p| |];
    cbn [bind]; try apply Hgo; try reflexivity.
  destruct (get p priority_modifiers); cbn [bind]; apply Hgo.
Qed.

End ExecutorFacts.

(* ------------------------------------------------------------------ *)
(** ** Statistics and insights *)
(* ------------------------------------------------------------------ *)

Module StatsFacts.
Import Py PyFacts Stats.
Local Open Scope Z_scope.

Lemma count_totals_set (k : string) (v : counts) (d : list (string * counts)) :
  count_totals (set k v d)
  = count_totals d - c_total (get_or k zero_counts d) + c_total v.
Proof.
  unfold count_totals, get_or.
  induction d as [|[k' v'] d IH]; cbn [set get map snd].
  - rewrite zsum_cons. unfold zsum. cbn. lia.
  - destruct (k' =? k)%string; cbn [map snd].
    + rewrite !zsum_cons. lia.
    + rewrite !zsum_cons, IH. lia.
Qed.

Lemma count_totals_add_total (k : string) (d : list (string * counts)) :
  count_totals (add_total k d) = count_totals d + 1.
Proof. unfold add_total. rewrite count_totals_set. cbn. lia. Qed.

Lemma count_totals_add_failed (k : string) (d : list (string * counts)) :
  count_totals (add_failed k d) = count_totals d.
Proof. unfold add_failed. rewrite count_totals_set. cbn. lia. Qed.

Lemma count_totals_tally (key : test -> string) (d : list (string * counts))
  (t : test) :
  count_totals (tally key d t) = count_totals d + 1.
Proof.
  unfold tally. destruct (status_is "FAILED" t).
  - rewrite count_totals_add_failed. apply count_totals_add_total.
  - apply count_totals_add_total.
Qed.

Lemma count_totals_fold (key : test -> string) (l : list test)
  (d : list (string * counts)) :
  count_totals (fold_left (tally key) l d)
  = count_totals d + Z.of_nat (List.length l).
Proof.
  revert d. induction l as [|t l IH]; intro d.
  - cbn [fold_left List.length]. lia.
  - cbn [fold_left List.length]. rewrite IH, count_totals_tally. lia.
Qed.

Lemma sum_totals_with_rate (d : list (string * counts)) :
  sum_totals (map (fun kv => (fst kv, with_rate (snd kv))) d) = count_totals d.
Proof.
  unfold sum_totals, count_totals. rewrite map_map. reflexivity.
Qed.

(** Every test is counted once in each dimension, whatever the key. *)
Lemma dimension_total (key : test -> string) (l : list test) :
  sum_totals (dimension key l) = Z.of_nat (List.length l).
Proof.
  unfold dimension. rewrite sum_totals_with_rate, count_totals_fold.
  reflexivity.
Qed.

(** C4, as stated, fails on the sample report of the module itself: its
    summary announces 15 tests, its results hold six, and the overview
    copies the summary. *)
Lemma sample_totals_differ :
  sum_totals (by_priority (_calculate_statistics sample_execution_report)) = 6
  /\ total_tests (st_overview (_calculate_statistics sample_execution_report)) = 15.
Proof. split; reflexivity. Qed.

(** C4, amended.  The [total] counters of the priority buckets add up
    to the number of entries of [execution_results]; they add up to the
    overview's total exactly when the summary of the report announces
    that number. *)
Theorem priority_totals (rep : report) :
  sum_totals (by_priority (_calculate_statistics rep))
  = Z.of_nat (List.length (all_tests_of (results rep))) /\
  (s_total_tests (summary rep)
   = Some (Z.of_nat (List.length (all_tests_of (results rep)))) ->
   sum_totals (by_priority (_calculate_statistics rep))
   = total_tests (st_overview (_calculate_statistics rep))).
Proof.
  assert (H : sum_totals (by_priority (_calculate_statistics rep))
              = Z.of_nat (List.length (all_tests_of (results rep)))).
  { cbn [_calculate_statistics by_priority]. apply dimension_total. }
  split; [exact H|].
  intro Hs. rewrite H.
  cbn [_calculate_statistics st_overview total_tests]. rewrite Hs. reflexivity.
Qed.

Lemma priority_totals_witness :
  sum_totals (by_priority (_calculate_statistics consistent_sample))
  = total_tests (st_overview (_calculate_statistics consistent_sample)).
Proof.
  apply (priority_totals consistent_sample). reflexivity.
Defined.

Section InsightsFacts.
Variable num_str : Q -> string.
Variable fmt_1f : Q -> string.
Variable json_loads : string -> option value.

Lemma fallback_recommendations_nonempty (st : stats) :
  recommendations (_generate_fallback_insights num_str fmt_1f st) <> [].
Proof.
  cbn [_generate_fallback_insights recommendations].
  destruct (List.length (specific_recommendations num_str fmt_1f st) <? 3)%nat eqn:E.
  - destruct (specific_recommendations num_str fmt_1f st); discriminate.
  - apply Nat.ltb_ge in E.
    destruct (specific_recommendations num_str fmt_1f st); [cbn in E; lia|discriminate].
Qed.

Lemma generic_when_few (st : stats) :
  (List.length (specific_recommendations num_str fmt_1f st) < 3)%nat ->
  recommendations (_generate_fallback_insights num_str fmt_1f st)
  = (specific_recommendations num_str fmt_1f st ++ [continue_monitoring])%list.
Proof.
  intro H. cbn [_generate_fallback_insights recommendations].
  apply Nat.ltb_lt in H. rewrite H. apply Nat.ltb_lt in H.
  apply firstn_all2. rewrite length_app. cbn [List.length]. lia.
Qed.

(** C2, amended.  When the collaborator raises, or when [json.loads]
    rejects its reply, the insights are those of the rule-based
    generator and the recommendations of the analysis are its list,
    which is never empty; with fewer than three specific recommendations
    it ends with the generic one, and with none it is the generic one
    alone. *)
Theorem fallback_on_failure (kickoff : outcome string) (st : stats) :
  declined json_loads kickoff ->
  _generate_ai_insights num_str fmt_1f json_loads kickoff st
  = insights_value (_generate_fallback_insights num_str fmt_1f st) /\
  analysis_recommendations num_str fmt_1f json_loads kickoff st
  = Returned (VList (map VStr
      (recommendations (_generate_fallback_insights num_str fmt_1f st)))) /\
  recommendations (_generate_fallback_insights num_str fmt_1f st) <> [] /\
  ((List.length (specific_recommendations num_str fmt_1f st) < 3)%nat ->
   In continue_monitoring
      (recommendations (_generate_fallback_insights num_str fmt_1f st))) /\
  (specific_recommendations num_str fmt_1f st = [] ->
   recommendations (_generate_fallback_insights num_str fmt_1f st)
   = [continue_monitoring]).
Proof.
  intro Hd.
  assert (Hfb : _generate_ai_insights num_str fmt_1f json_loads kickoff st
                = insights_value (_generate_fallback_insights num_str fmt_1f st)).
  { unfold _generate_ai_insights. destruct kickoff as [reply|exn].
    - cbn in Hd. rewrite Hd. reflexivity.
    - reflexivity. }
  split; [exact Hfb|]. split.
  { unfold analysis_recommendations. rewrite Hfb. reflexivity. }
  split; [apply fallback_recommendations_nonempty|]. split.
  - intro H. rewrite (generic_when_few st H).
    apply in_or_app. right. left. reflexivity.
  - intro H. rewrite generic_when_few; rewrite H; [reflexivity|cbn; lia].
Qed.

End InsightsFacts.

(** C2, as stated, fails: a reply that is valid JSON but not an
    advisory object is returned as it is, the rule-based generator is
    not consulted and the analysis has no recommendation. *)
Lemma unvalidated_reply_kept :
  _generate_ai_insights show_fraction show_fraction Json.loads
    (Returned "{}") (_calculate_statistics sample_execution_report)
  = VDict [] /\
  analysis_recommendations show_fraction show_fraction Json.loads
    (Returned "{}") (_calculate_statistics sample_execution_report)
  = Returned (VList []).
Proof. split; vm_compute; reflexivity. Qed.

Lemma fallback_on_failure_witness :
  analysis_recommendations show_fraction show_fraction Json.loads
    (Returned "I could not analyse the statistics.")
    (_calculate_statistics consistent_sample)
  = Returned (VList (map VStr
      (recommendations (_generate_fallback_insights show_fraction show_fraction
         (_calculate_statistics consistent_sample))))).
Proof.
  assert (H : declined Json.loads
                (Returned "I could not analyse the statistics."))
    by (vm_compute; reflexivity).
  exact (proj1 (proj2 (fallback_on_failure show_fraction show_fraction
                         Json.loads _ (_calculate_statistics consistent_sample)
                         H))).
Defined.

End StatsFacts.

(* ------------------------------------------------------------------ *)
(** ** The JUnit normalizer *)
(* ------------------------------------------------------------------ *)

Module JunitFacts.
Import Py Junit.

Lemma find_child_none (t : string) (e : element) :
  find_child t e = None <-> ~ has_child t e.
Proof.
  unfold find_child, has_child. split.
  - intros Hn [c [Hin Ht]].
    pose proof (find_none _ _ Hn c Hin) as Hc. cbn in Hc.
    rewrite Ht, String.eqb_refl in Hc. discriminate.
  - intro Hno. destruct (List.find _ _) as [c|] eqn:E; [|reflexivity].
    apply find_some in E. destruct E as [Hin Ht].
    apply String.eqb_eq in Ht. exfalso. apply Hno. exists c. tauto.
Qed.

Lemma find_child_some (t : string) (e c : element) :
  find_child t e = Some c -> has_child t e.
Proof.
  unfold find_child, has_child. intro E.
  apply find_some in E. destruct E as [Hin Ht].
  apply String.eqb_eq in Ht. exists c. tauto.
Qed.

Lemma results_from_length (clock : nat -> string) (cases : list element)
  (i : nat) :
  List.length (results_from clock i cases) = List.length cases.
Proof.
  revert i. induction cases as [|c l IH]; intro i; cbn.
  - reflexivity.
  - rewrite IH. reflexivity.
Qed.

Lemma results_from_nth (clock : nat -> string) (cases : list element)
  (i k : nat) (case : element) :
  nth_error cases k = Some case ->
  nth_error (results_from clock i cases) k
  = Some (case_result (clock (i + k)%nat) case).
Proof.
  revert i k. induction cases as [|c l IH]; intros i k H.
  - destruct k; discriminate.
  - destruct k as [|k]; cbn in *.
    + injection H as ->. rewrite Nat.add_0_r. reflexivity.
    + rewrite (IH (S i) k H). do 3 f_equal. lia.
Qed.

Lemma get_or_some (A : Type) (k : string) (d : A) (l : list (string * A)) (v : A) :
  get k l = Some v -> get_or k d l = v.
Proof. unfold get_or. intros ->. reflexivity. Qed.

Lemma get_or_none (A : Type) (k : string) (d : A) (l : list (string * A)) :
  get k l = None -> get_or k d l = d.
Proof. unfold get_or. intros ->. reflexivity. Qed.

(** The record built for a case is the one the contract describes. *)
Lemma case_result_normalized (now : string) (case : element) :
  normalized case (case_result now case).
Proof.
  unfold case_result.
  destruct (find_child "failure" case) as [f|] eqn:Ef;
    [|destruct (find_child "error" case) as [e|] eqn:Ee;
      [|destruct (find_child "skipped" case) as [k|] eqn:Ek]].
  all: constructor; cbn [status failure_details test_id execution_time];
    try (rewrite String.eqb_refl).
  all: try (intros; reflexivity).
  all: try (intros; congruence).
  all: try (intros f0 Hf [Ht|Ht]; rewrite Ef in Hf; injection Hf as <-;
            unfold details_of; rewrite Ht; reflexivity).
  all: try (intros f0 body Hf Ht Hne; rewrite Ef in Hf; injection Hf as <-;
            unfold details_of; rewrite Ht;
            destruct (body =? "")%string eqn:E;
            [apply String.eqb_eq in E; contradiction | reflexivity]).
  all: try (intros e0 _ He [Ht|Ht]; rewrite Ee in He; injection He as <-;
            unfold details_of; rewrite Ht; reflexivity).
  all: try (intros e0 body _ He Ht Hne; rewrite Ee in He; injection He as <-;
            unfold details_of; rewrite Ht;
            destruct (body =? "")%string eqn:E;
            [apply String.eqb_eq in E; contradiction | reflexivity]).
  all: try (intros scope Hs Hne; rewrite (get_or_some _ "" _ Hs);
            destruct (scope =? "")%string eqn:E;
            [apply String.eqb_eq in E; contradiction | reflexivity]).
  all: try (intros Hc; rewrite Hc; reflexivity).
  all: try (intros Hm; unfold exec_time_of; rewrite (get_or_none _ "0" _ Hm);
            vm_compute; reflexivity).
  all: try (intros ts Hs Hp; unfold exec_time_of; rewrite (get_or_some _ "0" _ Hs), Hp;
            vm_compute; reflexivity).
  all: try (apply find_child_none in Ef).
  all: try (apply find_child_none in Ee).
  all: try (apply find_child_none in Ek).
  all: try (apply find_child_some in Ef).
  all: try (apply find_child_some in Ee).
  all: try (apply find_child_some in Ek).
  all: try (intros; tauto).
Qed.

(** [findall(".//t")] sees every element with tag [t] but the root. *)
Lemma findall_below_count (t : string) :
  forall e : element,
    count_elements t e
    = ((if (tag e =? t)%string then 1 else 0)
       + List.length (findall_below t e))%nat.
Proof.
  fix IH 1. intros [tg a tx cs].
  unfold findall_below. cbn [count_elements descendants tag].
  f_equal.
  induction cs as [|c r IHr].
  - reflexivity.
  - rewrite IHr, (IH c).
    rewrite filter_app, length_app. cbn [filter].
    unfold findall_below.
    destruct (tag c =? t)%string; cbn [List.length]; lia.
Qed.

(** C6.  The normalizer returns one record for each [testcase] element
    of the report, in document order: as many as the report, whose root
    is a suite, has such elements.  Each record is the one the contract
    describes: failed when a failure or error sub-element is present,
    and then its reason is the message of that element followed, on a
    new line, by its body when it has one; skipped when only a skipped
    sub-element is; passed otherwise; named scope::name when a class
    name is given and name alone otherwise; with a duration of 0.0 when
    the time is missing or unreadable. *)
Theorem normalizer_records (clock : nat -> string) (root : element) :
  List.length (parse_junit_to_results clock root)
  = List.length (findall_below "testcase" root) /\
  (tag root <> "testcase" ->
   List.length (parse_junit_to_results clock root)
   = count_elements "testcase" root) /\
  forall (i : nat) (case : element),
    nth_error (findall_below "testcase" root) i = Some case ->
    exists r, nth_error (parse_junit_to_results clock root) i = Some r
              /\ normalized case r.
Proof.
  unfold parse_junit_to_results. split; [|split].
  - apply results_from_length.
  - intro Hroot. rewrite results_from_length, findall_below_count.
    apply String.eqb_neq in Hroot. rewrite Hroot. reflexivity.
  - intros i case H.
    exists (case_result (clock (0 + i)%nat) case). split.
    + apply results_from_nth. exact H.
    + apply case_result_normalized.
Qed.

Lemma normalizer_records_witness :
  List.length (parse_junit_to_results fixed_clock sample_report) = 6%nat /\
  (exists r, nth_error (parse_junit_to_results fixed_clock sample_report) 2
             = Some r /\ normalized error_case r) /\
  exists r, nth_error (parse_junit_to_results fixed_clock sample_report) 1
            = Some r /\
            failure_details r = "assert 1 == 2" ++ newline ++ "trace".
Proof.
  split; [|split].
  - rewrite (proj1 (proj2 (normalizer_records fixed_clock sample_report))).
    + reflexivity.
    + discriminate.
  - apply (proj2 (proj2 (normalizer_records fixed_clock sample_report)) 2%nat).
    reflexivity.
  - destruct (proj2 (proj2 (normalizer_records fixed_clock sample_report)) 1%nat
                _ eq_refl) as [r [Hr Hn]].
    exists r. split; [exact Hr|].
    rewrite (@norm_failure_body _ _ Hn
               (leaf "failure" [("message", " assert 1 == 2 ")] (Some " trace "))
               " trace " eq_refl eq_refl); [reflexivity|discriminate].
Defined.

End JunitFacts.

(* ------------------------------------------------------------------ *)
(** ** The generator's recovery chain *)
(* ------------------------------------------------------------------ *)

Module GeneratorFacts.
Import Py Re Generator.

Lemma max_tests_bounds (a b c : list string) :
  (10 <= max_tests a b c <= 30)%nat.
Proof. unfold max_tests. lia. Qed.

(** Field harvesting yields [max_tests] records, whatever the content. *)
Lemma harvest_records (content : string) :
  records_of (_extract_structured_data content)
  = map (harvested_test (findall (field_pattern "test_id") content)
                        (findall (field_pattern "module") content)
                        (findall (field_pattern "scenario") content)
                        (findall (field_pattern "priority") content))
        (seq 0 (max_tests (findall (field_pattern "test_id") content)
                          (findall (field_pattern "module") content)
                          (findall (field_pattern "scenario") content))).
Proof.
  unfold _extract_structured_data.
  set (ids := findall (field_pattern "test_id") content).
  set (mods := findall (field_pattern "module") content).
  set (scens := findall (field_pattern "scenario") content).
  set (prios := findall (field_pattern "priority") content).
  pose proof (max_tests_bounds ids mods scens) as Hb.
  destruct (max_tests ids mods scens) as [|n]; [lia|].
  reflexivity.
Qed.

Lemma harvest_is_dict (content : string) :
  exists d, _extract_structured_data content = VDict d
            /\ has "generated_tests" d = true.
Proof.
  unfold _extract_structured_data.
  set (ids := findall (field_pattern "test_id") content).
  set (mods := findall (field_pattern "module") content).
  set (scens := findall (field_pattern "scenario") content).
  pose proof (max_tests_bounds ids mods scens) as Hb.
  destruct (max_tests ids mods scens) as [|n]; [lia|].
  eexists. split; reflexivity.
Qed.

Lemma harvest_count (content : string) :
  List.length (records_of (_extract_structured_data content))
  = max_tests (findall (field_pattern "test_id") content)
              (findall (field_pattern "module") content)
              (findall (field_pattern "scenario") content).
Proof. rewrite harvest_records, length_map, length_seq. reflexivity. Qed.

Lemma template_tests_length : List.length template_tests = 30%nat.
Proof. reflexivity. Qed.

Lemma firstn_nonempty (A : Type) (n : nat) (l : list A) :
  l <> [] -> (1 <= List.length (firstn (S n) l) <= S n)%nat.
Proof.
  intro H. destruct l as [|x l]; [contradiction|].
  split; [cbn; lia|]. apply firstn_le_length.
Qed.

(** The synthetic fallback yields between one and thirty records. *)
Lemma fallback_records (failed_content : string) :
  (1 <= List.length (records_of (_create_fallback_tests failed_content)) <= 30)%nat.
Proof.
  unfold _create_fallback_tests. cbn [records_of get String.eqb].
  change (get "generated_tests" _) with
    (Some (VList (firstn 30
       match tests_from_patterns failed_content with
       | [] => template_tests
       | v :: l => v :: l
       end))).
  cbn beta iota.
  apply firstn_nonempty.
  destruct (tests_from_patterns failed_content); [|discriminate].
  intro H. apply (f_equal (@List.length value)) in H.
  rewrite template_tests_length in H. discriminate.
Qed.

Lemma fallback_is_dict (failed_content : string) :
  exists d, _create_fallback_tests failed_content = VDict d
            /\ has "generated_tests" d = true.
Proof. eexists. split; reflexivity. Qed.

Section ChainFacts.
Variable json_loads : string -> option value.

(** A value that is a dict with its own [generated_tests] passes the
    structure check unchanged. *)
Lemma structured_own (json_content : string) (d : dict) :
  has "generated_tests" d = true ->
  structured json_content (VDict d) = VDict d.
Proof. intro H. unfold structured. rewrite H. reflexivity. Qed.

(** A truthy value comes out of the structure check with a
    [generated_tests] entry, and with a record unless it was passed on. *)
Lemma structured_truthy (json_content : string) (v : value) :
  truthy v = true ->
  (exists d, structured json_content v = VDict d
             /\ has "generated_tests" d = true) /\
  (if passed_on v
   then structured json_content v
        = match v with
          | VDict _ => v
          | _ => VDict [("generated_tests", VList [])]
          end
   else (1 <= List.length (records_of (structured json_content v)))%nat).
Proof.
  intro Ht. unfold passed_on. rewrite Ht. cbn [andb].
  destruct v as [| b | z | x | s | l | d]; try discriminate Ht;
    try (split; [eexists; split; reflexivity | reflexivity]).
  - (* a list *)
    split; [eexists; split; reflexivity|].
    destruct l as [|a l]; [discriminate Ht|]. cbn. lia.
  - (* a dict *)
    destruct (has "generated_tests" d) eqn:Hg.
    + rewrite (structured_own json_content d Hg).
      split; [exists d; tauto | reflexivity].
    + unfold structured. rewrite Hg.
      destruct (List.find looks_like_tests d) as [[k w]|] eqn:Hf.
      * split; [eexists; split; reflexivity|].
        apply find_some in Hf. destruct Hf as [_ Hl].
        unfold looks_like_tests in Hl. cbn [snd] in *.
        destruct w as [| | | | |[|a l]|]; try discriminate Hl.
        cbn. lia.
      * split; [apply fallback_is_dict | apply fallback_records].
Qed.

Lemma fallback_structured (json_content : string) :
  structured json_content (_create_fallback_tests json_content)
  = _create_fallback_tests json_content.
Proof. reflexivity. Qed.

Lemma harvest_structured (json_content : string) :
  structured json_content (_extract_structured_data json_content)
  = _extract_structured_data json_content.
Proof.
  destruct (harvest_is_dict json_content) as [d [-> Hd]].
  apply structured_own. exact Hd.
Qed.

Lemma harvest_truthy (json_content : string) :
  truthy (_extract_structured_data json_content) = true.
Proof.
  destruct (harvest_is_dict json_content) as [d [-> Hd]].
  destruct d; [discriminate Hd | reflexivity].
Qed.

(** When neither parse succeeds the chain returns the harvest. *)
Lemma recover_unparsed (generation_result : string) :
  parsed json_loads (prepared generation_result) = None ->
  recover json_loads generation_result
  = _extract_structured_data (prepared generation_result).
Proof.
  intro Hp. unfold recover, strategy3. rewrite Hp.
  rewrite harvest_truthy. apply harvest_structured.
Qed.

(** C1, as stated, fails: a reply that is a JSON object with an empty
    [generated_tests] list is returned with no record at all. *)
Lemma empty_batch_kept :
  records_of (recover Json.loads empty_batch) = [].
Proof. vm_compute. reflexivity. Qed.

(** C1, amended.  For every reply the chain returns an object with a
    [generated_tests] entry.  When the prepared text does not parse,
    directly or after repair, field harvesting gives between 10 and 30
    records.  When it parses, the result holds at least one record
    unless the parsed value is passed on: a truthy object with its own
    [generated_tests], returned as it is, or a truthy scalar, replaced
    by an empty list. *)
Theorem recovery_records (generation_result : string) :
  (exists d, recover json_loads generation_result = VDict d
             /\ has "generated_tests" d = true) /\
  match parsed json_loads (prepared generation_result) with
  | None =>
      (10 <= List.length (records_of (recover json_loads generation_result))
       <= 30)%nat
  | Some v =>
      if passed_on v
      then recover json_loads generation_result
           = match v with
             | VDict _ => v
             | _ => VDict [("generated_tests", VList [])]
             end
      else (1 <= List.length
                   (records_of (recover json_loads generation_result)))%nat
  end.
Proof.
  destruct (parsed json_loads (prepared generation_result)) as [v|] eqn:Hp.
  - unfold recover, strategy3. rewrite Hp.
    destruct (truthy v) eqn:Ht.
    + apply structured_truthy. exact Ht.
    + rewrite fallback_structured.
      split; [apply fallback_is_dict|].
      unfold passed_on. rewrite Ht. cbn [andb].
      apply fallback_records.
  - rewrite (recover_unparsed _ Hp).
    split; [apply harvest_is_dict|].
    rewrite harvest_count. apply max_tests_bounds.
Qed.

End ChainFacts.

(** C5, as stated, fails: a text without object syntax and with three
    occurrences of each field is harvested into ten records, not three. *)
Lemma three_fields_give_ten :
  Json.loads (prepared three_fields) = None /\
  List.length (findall (field_pattern "test_id") (prepared three_fields)) = 3%nat /\
  List.length (findall (field_pattern "module") (prepared three_fields)) = 3%nat /\
  List.length (findall (field_pattern "scenario") (prepared three_fields)) = 3%nat /\
  List.length (records_of (recover Json.loads three_fields)) = 10%nat.
Proof. repeat split; vm_compute; reflexivity. Qed.

Lemma nth_error_map_seq (A : Type) (f : nat -> A) (n i : nat) :
  (i < n)%nat -> nth_error (map f (seq 0 n)) i = Some (f i).
Proof.
  intro H. rewrite nth_error_map, nth_error_seq.
  destruct (Nat.ltb_spec i n) as [_|Hge]; [reflexivity|lia].
Qed.

Lemma item_or_inside (l : list string) (i : nat) (default : string) :
  (i < List.length l)%nat ->
  option_map VStr (nth_error l i) = Some (VStr (item_or l i default)).
Proof.
  intro H. unfold item_or. rewrite (nth_error_nth' l default H). reflexivity.
Qed.

Lemma item_or_outside (l : list string) (i : nat) (default : string) :
  (List.length l <= i)%nat -> item_or l i default = default.
Proof. intro H. unfold item_or. apply nth_overflow. exact H. Qed.

(** C5, amended.  When the prepared text does not parse, directly or
    after repair, the chain returns the field harvest, which holds
    min(30, max(ids, modules, scenarios, 10)) records.  With three
    occurrences of each field it holds exactly ten: the first three
    carry the harvested values, the other seven the synthesized
    defaults. *)
Theorem harvest_three (json_loads : string -> option value) (text : string) :
  parsed json_loads (prepared text) = None ->
  List.length (findall (field_pattern "test_id") (prepared text)) = 3%nat ->
  List.length (findall (field_pattern "module") (prepared text)) = 3%nat ->
  List.length (findall (field_pattern "scenario") (prepared text)) = 3%nat ->
  List.length (records_of (recover json_loads text)) = 10%nat /\
  (forall i, (i < 3)%nat ->
     exists d,
       nth_error (records_of (recover json_loads text)) i = Some (VDict d)
       /\ get "test_id" d
          = option_map VStr
              (nth_error (findall (field_pattern "test_id") (prepared text)) i)
       /\ get "module" d
          = option_map VStr
              (nth_error (findall (field_pattern "module") (prepared text)) i)
       /\ get "scenario" d
          = option_map VStr
              (nth_error (findall (field_pattern "scenario") (prepared text)) i)) /\
  (forall i, (3 <= i < 10)%nat ->
     exists d,
       nth_error (records_of (recover json_loads text)) i = Some (VDict d)
       /\ get "test_id" d = Some (VStr ("TC-AI-" ++ fmt_03d (i + 1)))
       /\ get "module" d = Some (VStr "Banking System")
       /\ get "scenario" d
          = Some (VStr ("Banking test scenario " ++ str_of_nat (i + 1)))).
Proof.
  intros Hp Hi Hm Hs.
  rewrite (recover_unparsed json_loads text Hp).
  set (content := prepared text) in *.
  assert (Hmax : max_tests (findall (field_pattern "test_id") content)
                           (findall (field_pattern "module") content)
                           (findall (field_pattern "scenario") content) = 10%nat).
  { unfold max_tests. rewrite Hi, Hm, Hs. reflexivity. }
  rewrite harvest_records, Hmax.
  split; [rewrite length_map, length_seq; reflexivity|].
  split.
  - intros i Hlt. eexists. split.
    + rewrite nth_error_map_seq by lia. unfold harvested_test. reflexivity.
    + cbn [get String.eqb Ascii.eqb Bool.eqb].
      repeat split; symmetry; apply item_or_inside; lia.
  - intros i [Hge Hlt]. eexists. split.
    + rewrite nth_error_map_seq by lia. unfold harvested_test. reflexivity.
    + cbn [get String.eqb Ascii.eqb Bool.eqb].
      repeat split; do 2 f_equal; apply item_or_outside; lia.
Qed.

Lemma harvest_three_witness :
  List.length (records_of (recover Json.loads three_fields)) = 10%nat.
Proof.
  apply (harvest_three Json.loads three_fields); vm_compute; reflexivity.
Defined.

End GeneratorFacts.

(* ------------------------------------------------------------------ *)
(** ** The pipeline *)
(* ------------------------------------------------------------------ *)

Module PipelineFacts.
Import Py Pipeline Orchestrator.

(** *** Texts and paths *)

Lemma append_cancel_l (s a b : string) : s ++ a = s ++ b -> a = b.
Proof.
  induction s as [|c s IH]; cbn; intro H.
  - exact H.
  - injection H as H. auto.
Qed.

Lemma append_length (s t : string) :
  String.length (s ++ t) = (String.length s + String.length t)%nat.
Proof. induction s as [|c s IH]; cbn; [reflexivity | rewrite IH; reflexivity]. Qed.

Lemma append_cancel_r (x : string) :
  forall a b : string, a ++ x = b ++ x -> a = b.
Proof.
  induction a as [|c a IH]; intros [|d b] H; cbn in H.
  - reflexivity.
  - apply (f_equal String.length) in H. cbn in H.
    rewrite append_length in H. lia.
  - apply (f_equal String.length) in H. cbn in H.
    rewrite append_length in H. lia.
  - injection H as -> H. f_equal. apply IH. exact H.
Qed.

Lemma joinpath_inj (dir a b : string) :
  joinpath dir a = joinpath dir b -> a = b.
Proof.
  unfold joinpath.
  destruct (dir =? "."); [auto|].
  destruct (dir =? "/"); intro H.
  - apply append_cancel_l in H. exact H.
  - apply append_cancel_l in H. apply append_cancel_l in H. exact H.
Qed.

(** Within a directory and a kind, the name tells the timestamp. *)
Lemma artifact_path_inj (dir kind t1 t2 : string) :
  artifact_path dir kind t1 = artifact_path dir kind t2 -> t1 = t2.
Proof.
  unfold artifact_path. intro H.
  apply joinpath_inj in H.
  apply append_cancel_l in H. apply append_cancel_l in H.
  apply append_cancel_r in H. exact H.
Qed.

Lemma generated_not_gap (dir t1 t2 : string) :
  artifact_path dir "generated_tests" t1 <> artifact_path dir "gap_analysis" t2.
Proof.
  unfold artifact_path. intro H. apply joinpath_inj in H. discriminate H.
Qed.

Lemma report_not_gap (dir t1 t2 : string) :
  artifact_path dir "execution_report" t1 <> artifact_path dir "gap_analysis" t2.
Proof.
  unfold artifact_path. intro H. apply joinpath_inj in H. discriminate H.
Qed.

(** *** Files *)

Lemma get_set_same (A : Type) (k : string) (v : A) (d : list (string * A)) :
  get k (set k v d) = Some v.
Proof.
  induction d as [|[k' v'] d IH]; cbn.
  - rewrite String.eqb_refl. reflexivity.
  - destruct (k' =? k) eqn:E; cbn; rewrite E; [reflexivity | exact IH].
Qed.

Lemma get_set_other (A : Type) (k k' : string) (v : A) (d : list (string * A)) :
  k' <> k -> get k' (set k v d) = get k' d.
Proof.
  intro Hne. induction d as [|[k0 v0] d IH]; cbn.
  - destruct (k =? k') eqn:E; [|reflexivity].
    apply String.eqb_eq in E. congruence.
  - destruct (k0 =? k) eqn:E; cbn.
    + apply String.eqb_eq in E. subst k0.
      destruct (k =? k') eqn:E'; [|reflexivity].
      apply String.eqb_eq in E'. congruence.
    + rewrite IH. reflexivity.
Qed.

Lemma has_set_other (A : Type) (k k' : string) (v : A) (d : list (string * A)) :
  k' <> k -> has k' (set k v d) = has k' d.
Proof. intro H. unfold has. rewrite (get_set_other _ _ H). reflexivity. Qed.

(** Replacing a file does not add one. *)
Lemma set_existing_length (A : Type) (k : string) (v : A) (d : list (string * A)) :
  has k d = true -> List.length (set k v d) = List.length d.
Proof.
  unfold has. induction d as [|[k' v'] d IH]; cbn.
  - discriminate.
  - destruct (k' =? k); cbn; [reflexivity|].
    intro H. rewrite IH; [reflexivity | exact H].
Qed.

(** *** The stages and the world *)

Section StageFacts.
Variable json_loads : string -> option value.
Variable dumps : content -> string.
Variable num_str : Q -> string.
Variable fmt_1f : Q -> string.
Variable e : env.

(** The analyzer only reads. *)
Lemma analyzer_world (baseline app : string) (w : world) :
  snd (analyzer_execute dumps e baseline app w) = w.
Proof.
  unfold analyzer_execute, and_then, read_file, ret, lift. cbn.
  destruct (get baseline (files w)) as [b|]; [|reflexivity].
  destruct (get app (files w)) as [a|]; [|reflexivity].
  destruct (is_blank b || is_blank a); reflexivity.
Qed.

(** The generator writes once, at the very end, a dict that carries its
    metadata; in every other case it leaves the world as it found it. *)
Lemma generator_world (inputs : generator_inputs) (w : world) :
  snd (generator_execute json_loads dumps e inputs w) = w \/
  exists d,
    generator_execute json_loads dumps e inputs w
    = (Returned (VDict d),
       written (in_output_file inputs) (Dumped (VDict d)) w)
    /\ has "metadata" d = true.
Proof.
  unfold generator_execute, resolve_gap_analysis, and_then, read_file, ret,
    lift, raise, write_file.
  repeat match goal with
         | |- context [match ?x with _ => _ end] =>
             lazymatch x with
             | context [match _ with _ => _ end] => fail
             | _ => destruct x eqn:?
             end
         | |- _ => progress cbn [fst snd]
         end;
    try (left; reflexivity).
  all: right; unfold with_metadata; eexists; split; [reflexivity|].
  all: unfold has; rewrite get_set_same; reflexivity.
Qed.

Lemma error_dict_no_metadata (msg : string) (d : dict) :
  has "metadata" d = true -> VDict d <> error_dict msg.
Proof. intros H E. injection E as ->. discriminate H. Qed.

(** A generator that raises, or that returns an error result, has
    written nothing. *)
Lemma generator_failed_world (inputs : generator_inputs) (w : world) :
  (forall exn, fst (generator_execute json_loads dumps e inputs w) = Raised exn ->
               snd (generator_execute json_loads dumps e inputs w) = w) /\
  (forall msg, fst (generator_execute json_loads dumps e inputs w)
               = Returned (error_dict msg) ->
               snd (generator_execute json_loads dumps e inputs w) = w).
Proof.
  destruct (generator_world inputs w) as [H|[d [H Hm]]].
  - split; intros; exact H.
  - rewrite H. cbn [fst snd]. split.
    + intros exn E. discriminate E.
    + intros msg E. exfalso.
      apply (@error_dict_no_metadata msg d Hm). congruence.
Qed.

(** The executor writes its report when it has one; an error result or
    an exception leaves the world as it was. *)
Lemma executor_world (test_cases_path dir : string) (w : world) :
  snd (executor_execute json_loads dumps e test_cases_path dir w) = w \/
  exists report,
    fst (executor_execute json_loads dumps e test_cases_path dir w)
    = Returned (ExecutionReport report).
Proof.
  unfold executor_execute, and_then, read_file, ret, lift, raise, write_file.
  repeat match goal with
         | |- context [match ?x with _ => _ end] =>
             lazymatch x with
             | context [match _ with _ => _ end] => fail
             | _ => destruct x eqn:?
             end
         | |- _ => progress cbn [fst snd]
         end;
    try (left; reflexivity).
  all: right; eexists; reflexivity.
Qed.

Lemma executor_failed_world (test_cases_path dir : string) (w : world) :
  (forall exn,
     fst (executor_execute json_loads dumps e test_cases_path dir w) = Raised exn ->
     snd (executor_execute json_loads dumps e test_cases_path dir w) = w) /\
  (forall msg,
     fst (executor_execute json_loads dumps e test_cases_path dir w)
     = Returned (ExecutionError msg) ->
     snd (executor_execute json_loads dumps e test_cases_path dir w) = w).
Proof.
  destruct (executor_world test_cases_path dir w) as [H|[r H]].
  - split; intros; exact H.
  - rewrite H. split; intros; discriminate.
Qed.

(** Running a program step by step. *)
Lemma bind_returned (A B : Type) (m : prog A) (f : A -> prog B)
  (w w' : world) (a : A) :
  m w = (Returned a, w') -> and_then m f w = f a w'.
Proof. intro H. unfold and_then. rewrite H. reflexivity. Qed.

Lemma bind_raised (A B : Type) (m : prog A) (f : A -> prog B)
  (w w' : world) (exn : string) :
  m w = (Raised exn, w') -> and_then m f w = (Raised exn, w').
Proof. intro H. unfold and_then. rewrite H. reflexivity. Qed.

Lemma run_of (A : Type) (m : prog A) (w w' : world) (o : outcome A) :
  fst (m w) = o -> snd (m w) = w' -> m w = (o, w').
Proof. intros <- <-. apply surjective_pairing. Qed.

End StageFacts.

(** *** Failing stages *)

Ltac run_step :=
  first [ erewrite bind_returned by reflexivity
        | erewrite bind_returned by eassumption ].

Section StageFailure.
Variable json_loads : string -> option value.
Variable dumps : content -> string.
Variable num_str : Q -> string.
Variable fmt_1f : Q -> string.
Variable e : env.
Variable cfg : config.
Variable w : world.
Variable baseline : string.
Variable app_model : string.
Hypothesis Hbaseline : baseline_tests_path cfg = Some baseline.
Hypothesis Happ : app_model_path cfg = Some app_model.

Let dir : string := Stats.or_default (output_dir cfg) "src/data/output".
Let gap_file : string := artifact_path dir "gap_analysis" (now_gap_analysis e).
Let tests_file : string :=
  artifact_path dir "generated_tests" (now_generated_tests e).
Let inputs (gap_analysis : value) : generator_inputs :=
  {| in_gap_analysis := gap_analysis;
     in_app_model_path := app_model;
     in_validate_tests := Stats.or_default (validate_tests cfg) true;
     in_output_file := tests_file |}.
Let at_analysis : world := logged (Invoked GapAnalysis) w.
Let at_generation (gap_analysis : value) : world :=
  logged (Invoked Generation) (written gap_file (Dumped gap_analysis) at_analysis).

Lemma tests_file_after_gap (gap_analysis : value) :
  has tests_file (files (at_generation gap_analysis)) = has tests_file (files w).
Proof.
  unfold at_generation, at_analysis, logged, written. cbn [files].
  apply has_set_other. apply generated_not_gap.
Qed.

(** The start of a run whose gap analysis returns. *)
Lemma run_to_generation (gap_analysis : value) :
  fst (analyzer_execute dumps e baseline app_model at_analysis)
  = Returned gap_analysis ->
  log_gap_analysis gap_analysis = Returned tt ->
  run_pipeline json_loads dumps num_str fmt_1f e cfg w
  = and_then (generator_execute json_loads dumps e (inputs gap_analysis))
      (fun generated_tests =>
         _ <~ lift (log_generated_tests generated_tests) ;;
         present <~ path_exists tests_file ;;
         execution_report <~
           (if present
            then _ <~ invoke Execution ;;
                 report <~ executor_execute json_loads dumps e tests_file dir ;;
                 ret (Some report)
            else ret None) ;;
         still_present <~ path_exists tests_file ;;
         analysis_summary <~
           (if still_present then
              match execution_report with
              | Some (ExecutionReport report) =>
                  _ <~ write_file
                         (artifact_path dir "execution_report"
                            (or_empty (Stats.execution_id report)))
                         (DumpedReport report) ;;
                  _ <~ invoke Analysis ;;
                  result <~ analyze json_loads num_str fmt_1f e
                              (artifact_path dir "execution_report"
                                 (or_empty (Stats.execution_id report))) ;;
                  _ <~ lift (match result with
                             | AnalysisSummary a =>
                                 match ai_insights a with
                                 | VDict d =>
                                     _ <- py_len (get_or "recommendations" (VList []) d) ;;
                                     Returned tt
                                 | _ => Raised "AttributeError"
                                 end
                             | AnalysisError _ => Returned tt
                             end) ;;
                  ret (Some result)
              | Some (ExecutionError _) => ret None
              | None => raise "UnboundLocalError"
              end
            else ret None) ;;
         at_return <~ path_exists tests_file ;;
         ret {| r_gap_analysis := gap_analysis;
                r_generated_tests := generated_tests;
                r_execution_report := if at_return then execution_report else None;
                r_analysis_summary := analysis_summary |})
      (at_generation gap_analysis).
Proof.
  intros Hgap Hlog.
  pose proof (run_of _ _ Hgap (analyzer_world dumps e baseline app_model at_analysis))
    as Hrun.
  unfold run_pipeline. rewrite Hbaseline, Happ. unfold required.
  do 3 run_step.
  run_step.
  run_step.
  rewrite Hlog. run_step. run_step.
  reflexivity.
Qed.

(** The generator hands an error result back at once. *)
Lemma generator_on_error (msg : string) (w0 : world) :
  generator_execute json_loads dumps e (inputs (error_dict msg)) w0
  = (Returned (error_dict msg), w0).
Proof. reflexivity. Qed.

(** The rest of a run whose generator has returned an error result, or
    has written nothing, and left no file for the executor. *)
Lemma run_without_tests (gap_analysis generated_tests : value) (w0 : world) :
  fst (analyzer_execute dumps e baseline app_model at_analysis)
  = Returned gap_analysis ->
  log_gap_analysis gap_analysis = Returned tt ->
  generator_execute json_loads dumps e (inputs gap_analysis)
    (at_generation gap_analysis)
  = (Returned generated_tests, w0) ->
  log_generated_tests generated_tests = Returned tt ->
  has tests_file (files w0) = false ->
  run_pipeline json_loads dumps num_str fmt_1f e cfg w
  = (Returned {| r_gap_analysis := gap_analysis;
                 r_generated_tests := generated_tests;
                 r_execution_report := None;
                 r_analysis_summary := None |}, w0).
Proof.
  intros Hgap Hlog Hgen Hlog2 Hnone.
  rewrite (run_to_generation Hgap Hlog).
  run_step. rewrite Hlog2. run_step.
  unfold path_exists, and_then, ret.
  repeat first [rewrite Hnone | progress cbv beta iota].
  reflexivity.
Qed.

(** C8, amended.  A stage that raises ends the run at once: nothing
    further is invoked, the files written so far stay, no result set is
    returned.  A gap analysis that returns an error result is persisted
    and handed to the generator, which the controller still invokes and
    which returns that error at once, without consulting its crew and
    without writing; a generator that returns an error result has
    written nothing.  In both cases, when no file bears the name of the
    generated tests, neither execution nor analysis is invoked and the
    run returns the gap analysis and the generator's result alone.  An
    execution that returns an error result or raises keeps the analysis
    from being invoked. *)
Theorem stage_failure_halts :
  (* the gap analysis raises *)
  (forall exn,
     fst (analyzer_execute dumps e baseline app_model at_analysis) = Raised exn ->
     run_pipeline json_loads dumps num_str fmt_1f e cfg w
     = (Raised exn, at_analysis)) /\
  (* the gap analysis returns an error result *)
  (forall msg,
     fst (analyzer_execute dumps e baseline app_model at_analysis)
     = Returned (error_dict msg) ->
     has tests_file (files w) = false ->
     run_pipeline json_loads dumps num_str fmt_1f e cfg w
     = (Returned {| r_gap_analysis := error_dict msg;
                    r_generated_tests := error_dict msg;
                    r_execution_report := None;
                    r_analysis_summary := None |},
        at_generation (error_dict msg))) /\
  (* the generation raises *)
  (forall gap_analysis exn,
     fst (analyzer_execute dumps e baseline app_model at_analysis)
     = Returned gap_analysis ->
     log_gap_analysis gap_analysis = Returned tt ->
     fst (generator_execute json_loads dumps e (inputs gap_analysis)
            (at_generation gap_analysis)) = Raised exn ->
     run_pipeline json_loads dumps num_str fmt_1f e cfg w
     = (Raised exn, at_generation gap_analysis)) /\
  (* the generation returns an error result *)
  (forall gap_analysis msg,
     fst (analyzer_execute dumps e baseline app_model at_analysis)
     = Returned gap_analysis ->
     log_gap_analysis gap_analysis = Returned tt ->
     fst (generator_execute json_loads dumps e (inputs gap_analysis)
            (at_generation gap_analysis)) = Returned (error_dict msg) ->
     has tests_file (files w) = false ->
     run_pipeline json_loads dumps num_str fmt_1f e cfg w
     = (Returned {| r_gap_analysis := gap_analysis;
                    r_generated_tests := error_dict msg;
                    r_execution_report := None;
                    r_analysis_summary := None |},
        at_generation gap_analysis)) /\
  (* the execution returns an error result, or raises *)
  (forall gap_analysis generated_tests w0,
     fst (analyzer_execute dumps e baseline app_model at_analysis)
     = Returned gap_analysis ->
     log_gap_analysis gap_analysis = Returned tt ->
     generator_execute json_loads dumps e (inputs gap_analysis)
       (at_generation gap_analysis)
     = (Returned generated_tests, w0) ->
     log_generated_tests generated_tests = Returned tt ->
     has tests_file (files w0) = true ->
     (forall msg,
        fst (executor_execute json_loads dumps e tests_file dir
               (logged (Invoked Execution) w0))
        = Returned (ExecutionError msg) ->
        run_pipeline json_loads dumps num_str fmt_1f e cfg w
        = (Returned {| r_gap_analysis := gap_analysis;
                       r_generated_tests := generated_tests;
                       r_execution_report := Some (ExecutionError msg);
                       r_analysis_summary := None |},
           logged (Invoked Execution) w0)) /\
     (forall exn,
        fst (executor_execute json_loads dumps e tests_file dir
               (logged (Invoked Execution) w0))
        = Raised exn ->
        run_pipeline json_loads dumps num_str fmt_1f e cfg w
        = (Raised exn, logged (Invoked Execution) w0))).
Proof.
  split; [|split; [|split; [|split]]].
  - intros exn Hgap.
    pose proof (run_of _ _ Hgap
                  (analyzer_world dumps e baseline app_model at_analysis)) as Hrun.
    unfold run_pipeline. rewrite Hbaseline, Happ. unfold required.
    do 3 run_step. erewrite bind_raised by exact Hrun. reflexivity.
  - intros msg Hgap Hnone.
    apply (run_without_tests Hgap).
    + reflexivity.
    + apply generator_on_error.
    + reflexivity.
    + rewrite tests_file_after_gap. exact Hnone.
  - intros gap_analysis exn Hgap Hlog Hgen.
    rewrite (run_to_generation Hgap Hlog).
    apply bind_raised. apply run_of; [exact Hgen|].
    apply (proj1 (generator_failed_world json_loads dumps e _ _) exn Hgen).
  - intros gap_analysis msg Hgap Hlog Hgen Hnone.
    apply (run_without_tests Hgap Hlog).
    + apply run_of; [exact Hgen|].
      apply (proj2 (generator_failed_world json_loads dumps e _ _) msg Hgen).
    + reflexivity.
    + rewrite tests_file_after_gap. exact Hnone.
  - intros gap_analysis generated_tests w0 Hgap Hlog Hgen Hlog2 Hsome.
    assert (Hstart :
      forall (k : option execution_report -> prog pipeline_result),
        and_then (path_exists tests_file) (fun present =>
          and_then (if present
                    then _ <~ invoke Execution ;;
                         report <~ executor_execute json_loads dumps e tests_file dir ;;
                         ret (Some report)
                    else ret None) k) w0
        = and_then (executor_execute json_loads dumps e tests_file dir)
            (fun report => k (Some report)) (logged (Invoked Execution) w0)).
    { intro k. unfold path_exists. unfold and_then at 1. rewrite Hsome.
      unfold and_then at 1. unfold and_then at 1. unfold invoke.
      unfold and_then.
      destruct (executor_execute json_loads dumps e tests_file dir
                  (logged (Invoked Execution) w0)) as [[r|x] w'];
        reflexivity. }
    split.
    + intros msg Hexec.
      rewrite (run_to_generation Hgap Hlog).
      run_step. rewrite Hlog2. run_step.
      rewrite Hstart.
      erewrite bind_returned
        by (apply run_of; [exact Hexec|];
            apply (proj2 (executor_failed_world json_loads dumps e _ _ _) msg Hexec)).
      unfold path_exists, and_then, ret, logged.
      repeat first [rewrite Hsome | progress cbn [files] | progress cbv beta iota].
      reflexivity.
    + intros exn Hexec.
      rewrite (run_to_generation Hgap Hlog).
      run_step. rewrite Hlog2. run_step.
      rewrite Hstart.
      apply bind_raised. apply run_of; [exact Hexec|].
      apply (proj1 (executor_failed_world json_loads dumps e _ _ _) exn Hexec).
Qed.

End StageFailure.

(** *** Files that a program leaves alone *)

Section Frames.
Variable path : string.

Lemma leaves_ret (A : Type) (a : A) : leaves path (ret a).
Proof. intro w. reflexivity. Qed.

Lemma leaves_raise (A : Type) (exn : string) : leaves path (@raise A exn).
Proof. intro w. reflexivity. Qed.

Lemma leaves_lift (A : Type) (o : outcome A) : leaves path (lift o).
Proof. intro w. reflexivity. Qed.

Lemma leaves_invoke (s : stage) : leaves path (invoke s).
Proof. intro w. reflexivity. Qed.

Lemma leaves_read (p : string) : leaves path (read_file p).
Proof. intro w. reflexivity. Qed.

Lemma leaves_exists (p : string) : leaves path (path_exists p).
Proof. intro w. reflexivity. Qed.

Lemma leaves_write (p : string) (c : content) :
  p <> path -> leaves path (write_file p c).
Proof.
  intros Hne w. unfold write_file, written. cbn [snd files].
  apply get_set_other. congruence.
Qed.

Lemma leaves_bind (A B : Type) (m : prog A) (f : A -> prog B) :
  leaves path m -> (forall a, leaves path (f a)) -> leaves path (and_then m f).
Proof.
  intros Hm Hf w. unfold and_then.
  specialize (Hm w). destruct (m w) as [[a|exn] w']; cbn [snd] in *.
  - rewrite (Hf a w'). exact Hm.
  - exact Hm.
Qed.

End Frames.

Ltac frame :=
  repeat first
    [ apply leaves_ret | apply leaves_raise | apply leaves_lift
    | apply leaves_invoke | apply leaves_read | apply leaves_exists
    | apply leaves_bind; [|intro]
    | apply leaves_write
    | match goal with
      | |- leaves _ (if ?b then _ else _) => destruct b
      | |- leaves _ (match ?x with _ => _ end) => destruct x
      end ].

Section StageFrames.
Variable json_loads : string -> option value.
Variable dumps : content -> string.
Variable num_str : Q -> string.
Variable fmt_1f : Q -> string.
Variable e : env.
Variable path : string.

Lemma leaves_analyzer (baseline app : string) :
  leaves path (analyzer_execute dumps e baseline app).
Proof. unfold analyzer_execute. frame. Qed.

Lemma leaves_generator (inputs : generator_inputs) :
  in_output_file inputs <> path ->
  leaves path (generator_execute json_loads dumps e inputs).
Proof.
  intro Hne. unfold generator_execute, resolve_gap_analysis. frame; exact Hne.
Qed.

Lemma leaves_executor (test_cases_path dir : string) :
  (forall id, artifact_path dir "execution_report" id <> path) ->
  leaves path (executor_execute json_loads dumps e test_cases_path dir).
Proof.
  intro Hne. unfold executor_execute. frame; apply Hne.
Qed.

Lemma leaves_analyze (execution_report_path : string) :
  artifact_path "data/output" "analysis_summary" (now_analysis e) <> path ->
  leaves path (analyze json_loads num_str fmt_1f e execution_report_path).
Proof.
  intro Hne. unfold analyze. frame; exact Hne.
Qed.

End StageFrames.

(** *** What a run persists *)

Ltac frame_stages :=
  repeat first
    [ apply leaves_analyzer | apply leaves_generator | apply leaves_executor
    | apply leaves_analyze
    | apply leaves_ret | apply leaves_raise | apply leaves_lift
    | apply leaves_invoke | apply leaves_read | apply leaves_exists
    | apply leaves_bind; [|intro]
    | apply leaves_write
    | match goal with
      | |- leaves _ (if ?b then _ else _) => destruct b
      | |- leaves _ (match ?x with _ => _ end) => destruct x
      end ].

Section Persistence.
Variable json_loads : string -> option value.
Variable dumps : content -> string.
Variable num_str : Q -> string.
Variable fmt_1f : Q -> string.
Variable e : env.
Variable cfg : config.
Variable baseline : string.
Variable app_model : string.
Hypothesis Hbaseline : baseline_tests_path cfg = Some baseline.
Hypothesis Happ : app_model_path cfg = Some app_model.

Let dir : string := Stats.or_default (output_dir cfg) "src/data/output".
Let gap_file : string := artifact_path dir "gap_analysis" (now_gap_analysis e).
Let analysis_file : string :=
  artifact_path "data/output" "analysis_summary" (now_analysis e).

(** A run leaves alone every file that is neither its gap analysis nor
    its analysis summary and is not named like generated tests or an
    execution report. *)
Lemma run_leaves (path : string) :
  gap_file <> path ->
  analysis_file <> path ->
  (forall t, artifact_path dir "generated_tests" t <> path) ->
  (forall t, artifact_path dir "execution_report" t <> path) ->
  leaves path (run_pipeline json_loads dumps num_str fmt_1f e cfg).
Proof.
  intros Hgap Hana Htests Hrep. clear Hbaseline Happ.
  unfold run_pipeline, required.
  frame_stages; cbn [in_output_file]; intros;
    first [exact Hgap | exact Hana | apply Htests | apply Hrep].
Qed.

(** After a run whose gap analysis returned, the file named for the
    second of that run holds that gap analysis, whatever it held before
    and however the run ended. *)
Lemma gap_analysis_persisted (w : world) (gap_analysis : value) :
  fst (analyzer_execute dumps e baseline app_model (logged (Invoked GapAnalysis) w))
  = Returned gap_analysis ->
  analysis_file <> gap_file ->
  get gap_file (files (snd (run_pipeline json_loads dumps num_str fmt_1f e cfg w)))
  = Some (Dumped gap_analysis).
Proof.
  intros Hgap Hana.
  pose proof (run_of _ _ Hgap
                (analyzer_world dumps e baseline app_model
                   (logged (Invoked GapAnalysis) w))) as Hrun.
  unfold run_pipeline. rewrite Hbaseline, Happ. unfold required.
  do 3 run_step. run_step. run_step.
  match goal with
  | |- get ?p (files (snd (?m ?w0))) = _ =>
      assert (HR : leaves p m);
      [ frame_stages; cbn [in_output_file]; intros;
        first [ exact Hana | apply generated_not_gap | apply report_not_gap ]
      | rewrite (HR w0) ]
  end.
  unfold written. cbn [files]. apply get_set_same.
Qed.

End Persistence.

(** C9, as stated, fails: two runs within one second name their gap
    analysis alike, and the second run replaces what the first had
    persisted. *)
Lemma same_second_overwrites :
  get "out/gap_analysis_20250101_120000.json"
      (files (snd (sample_run "20250101_120000" "first" ready_world)))
  = Some (Dumped (sample_gaps "first")) /\
  get "out/gap_analysis_20250101_120000.json"
      (files (snd (sample_run "20250101_120000" "second"
                     (snd (sample_run "20250101_120000" "first" ready_world)))))
  = Some (Dumped (sample_gaps "second")) /\
  List.length
    (files (snd (sample_run "20250101_120000" "second"
                   (snd (sample_run "20250101_120000" "first" ready_world)))))
  = List.length (files (snd (sample_run "20250101_120000" "first" ready_world))).
Proof. repeat split; vm_compute; reflexivity. Qed.

(** C9, amended.  An artifact is named [{kind}_{timestamp}.json], with
    the second as its timestamp, and is written by replacing.  Of two
    runs whose gap analyses return, and whose analysis summary (kept
    under [data/output]) never bears a gap-analysis name of the output
    directory, the second leaves its gap analysis under the name made
    from its second: when both fall in the same second that name is the
    one the first run used, and what the first run had persisted is
    replaced; when they fall in different seconds the names differ and
    both gap analyses are kept. *)
Theorem same_second_replaces
  (json_loads : string -> option value) (dumps : content -> string)
  (num_str fmt_1f : Q -> string) (e1 e2 : env) (cfg : config) (w : world)
  (baseline app_model : string) (gap1 gap2 : value) :
  baseline_tests_path cfg = Some baseline ->
  app_model_path cfg = Some app_model ->
  fst (analyzer_execute dumps e1 baseline app_model
         (logged (Invoked GapAnalysis) w))
  = Returned gap1 ->
  fst (analyzer_execute dumps e2 baseline app_model
         (logged (Invoked GapAnalysis)
            (snd (run_pipeline json_loads dumps num_str fmt_1f e1 cfg w))))
  = Returned gap2 ->
  (forall t,
     artifact_path "data/output" "analysis_summary" (now_analysis e1)
     <> artifact_path (Stats.or_default (output_dir cfg) "src/data/output")
          "gap_analysis" t) ->
  (forall t,
     artifact_path "data/output" "analysis_summary" (now_analysis e2)
     <> artifact_path (Stats.or_default (output_dir cfg) "src/data/output")
          "gap_analysis" t) ->
  get (artifact_path (Stats.or_default (output_dir cfg) "src/data/output")
         "gap_analysis" (now_gap_analysis e1))
      (files (snd (run_pipeline json_loads dumps num_str fmt_1f e1 cfg w)))
  = Some (Dumped gap1) /\
  get (artifact_path (Stats.or_default (output_dir cfg) "src/data/output")
         "gap_analysis" (now_gap_analysis e2))
      (files (snd (run_pipeline json_loads dumps num_str fmt_1f e2 cfg
                     (snd (run_pipeline json_loads dumps num_str fmt_1f e1 cfg w)))))
  = Some (Dumped gap2) /\
  (artifact_path (Stats.or_default (output_dir cfg) "src/data/output")
     "gap_analysis" (now_gap_analysis e1)
   = artifact_path (Stats.or_default (output_dir cfg) "src/data/output")
       "gap_analysis" (now_gap_analysis e2)
   <-> now_gap_analysis e1 = now_gap_analysis e2) /\
  (now_gap_analysis e1 <> now_gap_analysis e2 ->
   get (artifact_path (Stats.or_default (output_dir cfg) "src/data/output")
          "gap_analysis" (now_gap_analysis e1))
       (files (snd (run_pipeline json_loads dumps num_str fmt_1f e2 cfg
                      (snd (run_pipeline json_loads dumps num_str fmt_1f e1 cfg w)))))
   = Some (Dumped gap1)).
Proof.
  intros Hb Ha Hgap1 Hgap2 Hapart1 Hapart2.
  assert (H1 :
    get (artifact_path (Stats.or_default (output_dir cfg) "src/data/output")
           "gap_analysis" (now_gap_analysis e1))
        (files (snd (run_pipeline json_loads dumps num_str fmt_1f e1 cfg w)))
    = Some (Dumped gap1)).
  { eapply gap_analysis_persisted; eauto. }
  split; [exact H1|]. split.
  { eapply gap_analysis_persisted; eauto. }
  split.
  { split; [apply artifact_path_inj | intros ->; reflexivity]. }
  intro Hdiff.
  rewrite (@run_leaves json_loads dumps num_str fmt_1f e2 cfg).
  - exact H1.
  - intro E. apply artifact_path_inj in E. congruence.
  - apply Hapart2.
  - intro t. apply generated_not_gap.
  - intro t. apply report_not_gap.
Qed.

Lemma same_second_replaces_witness :
  get (artifact_path (Stats.or_default (output_dir sample_config) "src/data/output")
         "gap_analysis" (now_gap_analysis (sample_env "20250101_120000" "second")))
      (files (snd (sample_run "20250101_120000" "second"
                     (snd (sample_run "20250101_120000" "first" ready_world)))))
  = Some (Dumped (sample_gaps "second")).
Proof.
  assert (Hb : baseline_tests_path sample_config = Some "data/baseline.json")
    by reflexivity.
  assert (Ha : app_model_path sample_config = Some "data/scenario.md")
    by reflexivity.
  assert (H1 : fst (analyzer_execute dump_text (sample_env "20250101_120000" "first")
                      "data/baseline.json" "data/scenario.md"
                      (logged (Invoked GapAnalysis) ready_world))
               = Returned (sample_gaps "first"))
    by (vm_compute; reflexivity).
  assert (H2 : fst (analyzer_execute dump_text (sample_env "20250101_120000" "second")
                      "data/baseline.json" "data/scenario.md"
                      (logged (Invoked GapAnalysis)
                         (snd (run_pipeline Json.loads dump_text
                                 Stats.show_fraction Stats.show_fraction
                                 (sample_env "20250101_120000" "first")
                                 sample_config ready_world))))
               = Returned (sample_gaps "second"))
    by (vm_compute; reflexivity).
  assert (H3 : forall (note t : string),
             artifact_path "data/output" "analysis_summary"
               (now_analysis (sample_env "20250101_120000" note))
             <> artifact_path
                  (Stats.or_default (output_dir sample_config) "src/data/output")
                  "gap_analysis" t)
    by (intros note t H; discriminate H).
  exact (proj1 (proj2 (same_second_replaces Json.loads dump_text
                         Stats.show_fraction Stats.show_fraction
                         (sample_env "20250101_120000" "first")
                         (sample_env "20250101_120000" "second")
                         sample_config ready_world Hb Ha H1 H2
                         (H3 "first") (H3 "second")))).
Defined.

(** C8, as stated, fails: the gap analysis returns an error result, for
    want of its source files, and the controller invokes the generator
    all the same. *)
Lemma generation_invoked_after_failed_gap_analysis :
  fst (analyzer_execute dump_text (sample_env "20250101_120000" "first")
         "data/baseline.json" "data/scenario.md"
         (logged (Invoked GapAnalysis) bare_world))
  = Returned (error_dict "Failed to load source files. Cannot perform analysis.")
  /\ trace (snd (sample_run "20250101_120000" "first" bare_world))
     = [Invoked GapAnalysis; Wrote "out/gap_analysis_20250101_120000.json";
        Invoked Generation].
Proof. split; vm_compute; reflexivity. Qed.

Lemma stage_failure_halts_witness :
  run_pipeline Json.loads dump_text Stats.show_fraction Stats.show_fraction
    (sample_env "20250101_120000" "first") sample_config bare_world
  = (Returned
       {| r_gap_analysis :=
            error_dict "Failed to load source files. Cannot perform analysis.";
          r_generated_tests :=
            error_dict "Failed to load source files. Cannot perform analysis.";
          r_execution_report := None;
          r_analysis_summary := None |},
     logged (Invoked Generation)
       (written
          (artifact_path
             (Stats.or_default (output_dir sample_config) "src/data/output")
             "gap_analysis"
             (now_gap_analysis (sample_env "20250101_120000" "first")))
          (Dumped (error_dict
                     "Failed to load source files. Cannot perform analysis."))
          (logged (Invoked GapAnalysis) bare_world))).
Proof.
  assert (Hb : baseline_tests_path sample_config = Some "data/baseline.json")
    by reflexivity.
  assert (Ha : app_model_path sample_config = Some "data/scenario.md")
    by reflexivity.
  assert (H1 : fst (analyzer_execute dump_text (sample_env "20250101_120000" "first")
                      "data/baseline.json" "data/scenario.md"
                      (logged (Invoked GapAnalysis) bare_world))
               = Returned (error_dict
                    "Failed to load source files. Cannot perform analysis."))
    by (vm_compute; reflexivity).
  assert (H2 : has (artifact_path
                      (Stats.or_default (output_dir sample_config) "src/data/output")
                      "generated_tests"
                      (now_generated_tests (sample_env "20250101_120000" "first")))
                   (files bare_world) = false)
    by reflexivity.
  exact (proj1 (proj2 (stage_failure_halts Json.loads dump_text
                         Stats.show_fraction Stats.show_fraction
                         (sample_env "20250101_120000" "first")
                         sample_config bare_world Hb Ha))
           _ H1 H2).
Defined.

End PipelineFacts.

Module ExecutorRange.
Import Py PyFacts Executor.
Local Open Scope Q_scope.

Lemma modifier_cases (p : string) :
  get p priority_modifiers = None \/
  exists m, get p priority_modifiers = Some m /\
            (pass_rate_mod m = -0.1 \/ pass_rate_mod m = -0.05
             \/ pass_rate_mod m = 0.0 \/ pass_rate_mod m = 0.05).
Proof.
  unfold priority_modifiers. cbn [get].
  destruct ("critical" =? p)%string; [right; eexists; split; [reflexivity|cbn; tauto]|].
  destruct ("high" =? p)%string; [right; eexists; split; [reflexivity|cbn; tauto]|].
  destruct ("medium" =? p)%string; [right; eexists; split; [reflexivity|cbn; tauto]|].
  destruct ("low" =? p)%string; [right; eexists; split; [reflexivity|cbn; tauto]|].
  left; reflexivity.
Qed.

Lemma base_cases (priority : value) (b : Q) :
  priority_adjusted pass_rate priority = Returned b ->
  b = pass_rate \/ b = pass_rate + -0.1 \/ b = pass_rate + -0.05
  \/ b = pass_rate + 0.0 \/ b = pass_rate + 0.05.
Proof.
  unfold priority_adjusted.
  destruct priority as [| | | |p| |]; try (intro H; injection H as <-; tauto);
    try discriminate.
  destruct (modifier_cases p) as [-> | [m [-> Hm]]].
  - intro H; injection H as <-; tauto.
  - intro H; injection H as <-.
    destruct Hm as [->|[->|[->| ->]]]; tauto.
Qed.

Lemma adjusted_in_range (b : Q) (test_type : string) :
  b = pass_rate \/ b = pass_rate + -0.1 \/ b = pass_rate + -0.05
  \/ b = pass_rate + 0.0 \/ b = pass_rate + 0.05 ->
  0.5 <= type_adjusted b test_type /\ type_adjusted b test_type <= 0.95.
Proof.
  unfold type_adjusted, pass_rate.
  intros [->|[->|[->|[->| ->]]]];
    destruct (contains "security" (lower test_type));
    destruct (contains "validation" (lower test_type));
    destruct (contains "functional" (lower test_type));
    split; unfold Qle; cbn; lia.
Qed.

(** X1.  Whatever the priority and the test type, the pass probability
    lies between 0.5 and 0.95: no simulated test is less likely to pass
    than to fail, and the lower bound 0.1 of the final clamp is never
    what is returned. *)
Theorem pass_probability_range (test_case : dict) (p : Q) :
  _calculate_pass_probability test_case = Returned p ->
  0.5 <= p /\ p <= 0.95.
Proof.
  unfold _calculate_pass_probability.
  destruct (priority_adjusted pass_rate
              (get_or "priority" (VStr "medium") test_case)) as [b|exn] eqn:Hb;
    cbn [bind]; [|discriminate].
  destruct (get_or "test_type" (VStr "") test_case) as [| | | |t| |];
    try discriminate.
  intro H. injection H as <-.
  destruct (adjusted_in_range t (base_cases _ Hb)) as [Hlo Hhi].
  unfold py_max, py_min.
  destruct (qlt (type_adjusted b t) 0.95) eqn:Hx.
  - destruct (qlt 0.1 (type_adjusted b t)) eqn:Hy; [split; assumption|].
    apply qlt_false in Hy. exfalso.
    assert (H : 0.5 <= 0.1) by (eapply Qle_trans; eassumption).
    unfold Qle in H. cbn in H. lia.
  - destruct (qlt 0.1 0.95) eqn:Hy; [|discriminate Hy].
    split; [unfold Qle; cbn; lia|apply Qle_refl].
Qed.

Lemma pass_probability_range_witness :
  0.5 <= py_max 0.1 (py_min 0.95
                       (type_adjusted (pass_rate + -0.1) "Security validation")).
Proof.
  assert (H : _calculate_pass_probability
                [("priority", VStr "critical");
                 ("test_type", VStr "Security validation")]
              = Returned (py_max 0.1 (py_min 0.95
                   (type_adjusted (pass_rate + -0.1) "Security validation"))))
    by (vm_compute; reflexivity).
  exact (proj1 (pass_probability_range _ H)).
Defined.

End ExecutorRange.

(* ------------------------------------------------------------------ *)
(** ** Rounding *)
(* ------------------------------------------------------------------ *)

Module RoundFacts.
Import Py PyFacts.
Local Open Scope Q_scope.

(** Rounding to the nearest integer stays between the integers that
    frame the number. *)
Lemma round_half_even_between (x : Q) (lo hi : Z) :
  inject_Z lo <= x -> x <= inject_Z hi ->
  (lo <= round_half_even x <= hi)%Z.
Proof.
  destruct x as [n d]. unfold Qle, round_half_even. cbn [Qnum Qden inject_Z].
  rewrite !Z.mul_1_r. intros Hlo Hhi.
  assert (Hd : (0 < Z.pos d)%Z) by lia.
  pose proof (Z.div_mod n (Z.pos d) ltac:(lia)) as Hdm.
  pose proof (Z.mod_pos_bound n (Z.pos d) Hd) as Hm.
  set (f := (n / Z.pos d)%Z) in *.
  assert (Hr : (n - f * Z.pos d = n mod Z.pos d)%Z) by lia.
  rewrite Hr.
  assert (Hf_lo : (lo <= f)%Z) by (apply Z.div_le_lower_bound; lia).
  assert (Hf_hi : (f <= hi)%Z) by nia.
  destruct (2 * (n mod Z.pos d) <? Z.pos d)%Z eqn:E1; [lia|].
  apply Z.ltb_ge in E1.
  assert (Hlt : (f < hi)%Z) by nia.
  destruct (Z.pos d <? 2 * (n mod Z.pos d))%Z; [lia|].
  destruct (Z.even f); lia.
Qed.

(** [round(x, n)] of a number between two integers stays between them. *)
Lemma round_digits_between (n : nat) (x : Q) (lo hi : Z) :
  inject_Z lo <= x -> x <= inject_Z hi ->
  inject_Z lo <= round_digits n x /\ round_digits n x <= inject_Z hi.
Proof.
  intros Hlo Hhi. unfold round_digits. rewrite Qred_correct.
  set (p := (10 ^ Z.of_nat n)%Z).
  assert (Hp : (0 < p)%Z) by (apply Z.pow_pos_nonneg; lia).
  assert (Hq : 0 < inject_Z p) by (unfold Qlt; cbn; lia).
  assert (Hb : (lo * p <= round_half_even (x * inject_Z p) <= hi * p)%Z).
  { apply round_half_even_between.
    - rewrite inject_Z_mult. apply Qmult_le_compat_r; [exact Hlo|].
      apply Qlt_le_weak. exact Hq.
    - rewrite inject_Z_mult. apply Qmult_le_compat_r; [exact Hhi|].
      apply Qlt_le_weak. exact Hq. }
  split.
  - apply Qle_shift_div_l; [exact Hq|].
    rewrite <- inject_Z_mult. rewrite <- Zle_Qle. lia.
  - apply Qle_shift_div_r; [exact Hq|].
    rewrite <- inject_Z_mult. rewrite <- Zle_Qle. lia.
Qed.

(** Rounding to the nearest integer moves a number by a half at
    most. *)
Lemma round_half_even_near (x : Q) :
  x - (1 # 2) <= inject_Z (round_half_even x) /\
  inject_Z (round_half_even x) <= x + (1 # 2).
Proof.
  destruct x as [n d]. unfold round_half_even. cbn [Qnum Qden].
  assert (Hd : (0 < Z.pos d)%Z) by lia.
  pose proof (Z.div_mod n (Z.pos d) ltac:(lia)) as Hdm.
  pose proof (Z.mod_pos_bound n (Z.pos d) Hd) as Hm.
  set (f := (n / Z.pos d)%Z) in *.
  assert (Hr : (n - f * Z.pos d = n mod Z.pos d)%Z) by lia.
  rewrite Hr.
  assert (Hgoal : forall r : Z,
            (2 * (r * Z.pos d - n) <= Z.pos d)%Z ->
            (2 * (n - r * Z.pos d) <= Z.pos d)%Z ->
            (n # d) - (1 # 2) <= inject_Z r /\ inject_Z r <= (n # d) + (1 # 2)).
  { intros r H1 H2. unfold Qle, Qminus, Qplus, Qopp, inject_Z.
    cbn [Qnum Qden]. split; lia. }
  destruct (2 * (n mod Z.pos d) <? Z.pos d)%Z eqn:E1.
  - apply Z.ltb_lt in E1. apply Hgoal; lia.
  - apply Z.ltb_ge in E1.
    destruct (Z.pos d <? 2 * (n mod Z.pos d))%Z eqn:E2.
    + apply Z.ltb_lt in E2. apply Hgoal; lia.
    + apply Z.ltb_ge in E2. destruct (Z.even f); apply Hgoal; lia.
Qed.

(** [round(x, 2)] moves a number by less than a hundredth. *)
Lemma round2_near (x : Q) :
  x - 0.01 <= round_digits 2 x /\ round_digits 2 x <= x + 0.01.
Proof.
  unfold round_digits. rewrite Qred_correct.
  change (10 ^ Z.of_nat 2)%Z with 100%Z.
  destruct (round_half_even_near (x * inject_Z 100)) as [Hlo Hhi].
  assert (Hq : 0 < inject_Z 100) by reflexivity.
  split.
  - apply Qle_shift_div_l; [exact Hq|].
    eapply Qle_trans; [|exact Hlo].
    unfold Qle, Qminus, Qplus, Qopp, Qmult, inject_Z. destruct x as [n d].
    cbn [Qnum Qden]. lia.
  - apply Qle_shift_div_r; [exact Hq|].
    eapply Qle_trans; [exact Hhi|].
    unfold Qle, Qminus, Qplus, Qopp, Qmult, inject_Z. destruct x as [n d].
    cbn [Qnum Qden]. lia.
Qed.

End RoundFacts.

(* ------------------------------------------------------------------ *)
(** ** The buckets of the statistics *)
(* ------------------------------------------------------------------ *)

Module BucketFacts.
Import Py PyFacts Stats StatsSpec.
Local Open Scope Z_scope.

(** *** Dictionaries with distinct keys *)

Lemma keys_set (A : Type) (k : string) (v : A) (d : list (string * A)) :
  map fst (set k v d)
  = if has k d then map fst d else (map fst d ++ [k])%list.
Proof.
  unfold has. induction d as [|[k' v'] d IH]; cbn [set get map fst app].
  - reflexivity.
  - destruct (k' =? k)%string; cbn [map fst].
    + reflexivity.
    + rewrite IH. destruct (get k d); reflexivity.
Qed.

Lemma get_none_keys (A : Type) (k : string) (d : list (string * A)) :
  get k d = None -> ~ In k (map fst d).
Proof.
  induction d as [|[k' v'] d IH]; cbn [get map fst In].
  - tauto.
  - destruct (k' =? k)%string eqn:E; [discriminate|].
    apply String.eqb_neq in E. intros H [H'|H']; [contradiction | tauto].
Qed.

Lemma nodup_set (A : Type) (k : string) (v : A) (d : list (string * A)) :
  NoDup (map fst d) -> NoDup (map fst (set k v d)).
Proof.
  intro H. rewrite keys_set. unfold has.
  destruct (get k d) eqn:E; [exact H|].
  apply NoDup_app; [exact H | repeat constructor; cbn; tauto |].
  intros x Hx [<-|[]]. exact (get_none_keys _ _ E Hx).
Qed.

Lemma in_get (A : Type) (k : string) (v : A) (d : list (string * A)) :
  NoDup (map fst d) -> In (k, v) d -> get k d = Some v.
Proof.
  induction d as [|[k' v'] d IH]; cbn [get map fst In]; [tauto|].
  intros Hnd [H|H].
  - injection H as -> ->. rewrite String.eqb_refl. reflexivity.
  - inversion Hnd as [|? ? Hnot Hnd']; subst.
    destruct (k' =? k)%string eqn:E.
    + apply String.eqb_eq in E. subst k'. exfalso. apply Hnot.
      apply (in_map fst) in H. exact H.
    + apply IH; assumption.
Qed.

Lemma get_in (A : Type) (k : string) (v : A) (d : list (string * A)) :
  get k d = Some v -> In (k, v) d.
Proof.
  induction d as [|[k' v'] d IH]; cbn [get In]; [discriminate|].
  destruct (k' =? k)%string eqn:E.
  - apply String.eqb_eq in E. intro H. injection H as ->. left. congruence.
  - intro H. right. apply IH. exact H.
Qed.

(** *** One turn of the tally *)

Lemma get_or_set_same (A : Type) (k : string) (v dflt : A) (d : list (string * A)) :
  get_or k dflt (set k v d) = v.
Proof. unfold get_or. rewrite PipelineFacts.get_set_same. reflexivity. Qed.

Lemma get_or_set_other (A : Type) (k k' : string) (v dflt : A)
  (d : list (string * A)) :
  k' <> k -> get_or k' dflt (set k v d) = get_or k' dflt d.
Proof.
  intro H. unfold get_or. rewrite (PipelineFacts.get_set_other _ _ H).
  reflexivity.
Qed.

Lemma has_set_same (A : Type) (k : string) (v : A) (d : list (string * A)) :
  has k (set k v d) = true.
Proof. unfold has. rewrite PipelineFacts.get_set_same. reflexivity. Qed.

Lemma tally_counts (key : test -> string) (d : list (string * counts))
  (t : test) (k : string) :
  c_total (get_or k zero_counts (tally key d t))
  = c_total (get_or k zero_counts d) + (if under key k t then 1 else 0) /\
  c_failed (get_or k zero_counts (tally key d t))
  = c_failed (get_or k zero_counts d) + (if failed_under key k t then 1 else 0) /\
  has k (tally key d t) = has k d || under key k t.
Proof.
  unfold tally, add_total, add_failed, under, failed_under.
  destruct (key t =? k)%string eqn:E.
  - apply String.eqb_eq in E. subst k.
    destruct (status_is "FAILED" t); cbn [andb];
      rewrite ?get_or_set_same, ?has_set_same; cbn [c_total c_failed];
      rewrite ?orb_true_r; repeat split; lia.
  - apply String.eqb_neq in E.
    assert (E' : k <> key t) by congruence.
    destruct (status_is "FAILED" t); cbn [andb];
      rewrite ?(get_or_set_other _ _ _ E'), ?(PipelineFacts.has_set_other _ _ E');
      rewrite ?orb_false_r; repeat split; lia.
Qed.

Lemma fold_counts (key : test -> string) (l : list test) (k : string) :
  forall d : list (string * counts),
    c_total (get_or k zero_counts (fold_left (tally key) l d))
    = c_total (get_or k zero_counts d)
      + Z.of_nat (List.length (filter (under key k) l)) /\
    c_failed (get_or k zero_counts (fold_left (tally key) l d))
    = c_failed (get_or k zero_counts d)
      + Z.of_nat (List.length (filter (failed_under key k) l)) /\
    has k (fold_left (tally key) l d)
    = has k d || (0 <? List.length (filter (under key k) l))%nat.
Proof.
  induction l as [|t l IH]; intro d.
  - cbn [fold_left filter List.length]. rewrite orb_false_r.
    repeat split; lia.
  - cbn [fold_left filter].
    destruct (IH (tally key d t)) as [Ht [Hf Hh]].
    destruct (tally_counts key d t k) as [Ht1 [Hf1 Hh1]].
    rewrite Ht, Hf, Hh, Ht1, Hf1, Hh1.
    assert (Himp : failed_under key k t = true -> under key k t = true).
    { unfold failed_under, under. intro H. apply andb_true_iff in H. tauto. }
    destruct (under key k t) eqn:Eu; destruct (failed_under key k t) eqn:Ef;
      cbn [List.length];
      try (specialize (Himp eq_refl); discriminate).
    + cbn [Nat.ltb Nat.leb]. rewrite !orb_true_r. repeat split; lia.
    + cbn [Nat.ltb Nat.leb]. rewrite !orb_true_r. repeat split; lia.
    + rewrite orb_false_r. repeat split; lia.
Qed.

Lemma failed_le_under (key : test -> string) (k : string) (l : list test) :
  (List.length (filter (failed_under key k) l)
   <= List.length (filter (under key k) l))%nat.
Proof.
  induction l as [|t l IH]; cbn [filter List.length]; [lia|].
  unfold failed_under, under in *.
  destruct (key t =? k)%string; cbn [andb].
  - destruct (status_is "FAILED" t); cbn [List.length]; lia.
  - exact IH.
Qed.

Lemma nodup_fold (key : test -> string) (l : list test) :
  forall d : list (string * counts),
    NoDup (map fst d) -> NoDup (map fst (fold_left (tally key) l d)).
Proof.
  induction l as [|t l IH]; intros d Hd; cbn [fold_left]; [exact Hd|].
  apply IH. unfold tally, add_total, add_failed.
  destruct (status_is "FAILED" t); repeat apply nodup_set; exact Hd.
Qed.

Lemma keys_dimension (key : test -> string) (l : list test) :
  map fst (dimension key l) = map fst (fold_left (tally key) l []).
Proof. unfold dimension. rewrite map_map. reflexivity. Qed.

(** A bucket of a dimension is the bucket of the tests under its key. *)
Lemma dimension_counted (key : test -> string) (l : list test)
  (k : string) (b : bucket) :
  In (k, b) (dimension key l) -> counted key l k b.
Proof.
  unfold dimension. intro Hin.
  apply in_map_iff in Hin. destruct Hin as [[k' c] [E Hin]].
  cbn [fst snd] in E. injection E as -> <-.
  assert (Hget : get k (fold_left (tally key) l []) = Some c).
  { apply in_get; [|exact Hin]. apply nodup_fold. constructor. }
  destruct (fold_counts key l k []) as [Ht [Hf Hh]].
  unfold get_or, has in Ht, Hf, Hh. rewrite Hget in Ht, Hf, Hh.
  cbn [get c_total c_failed zero_counts orb] in Ht, Hf, Hh.
  symmetry in Hh. apply Nat.ltb_lt in Hh.
  pose proof (failed_le_under key k l) as Hle.
  assert (Hrate :
    (0 <= inject_Z (c_failed c) / inject_Z (c_total c) * 100
     /\ inject_Z (c_failed c) / inject_Z (c_total c) * 100 <= 100)%Q).
  { apply AnalyzeFacts.rate_bounds; lia. }
  assert (Hpos : (0 <? c_total c) = true) by (apply Z.ltb_lt; lia).
  constructor; unfold with_rate; cbn [b_total b_failed failure_rate].
  - lia.
  - lia.
  - lia.
  - lia.
  - rewrite Hpos. unfold round2. apply RoundFacts.round2_near.
  - rewrite Hpos. unfold round2.
    apply (RoundFacts.round_digits_between 2 (lo := 0) (hi := 100));
      apply Hrate.
Qed.

(** Every key that occurs has its bucket, once. *)
Lemma dimension_keys (key : test -> string) (l : list test) :
  NoDup (map fst (dimension key l)) /\
  forall k, In k (map fst (dimension key l)) <-> exists t, In t l /\ key t = k.
Proof.
  rewrite keys_dimension. split; [apply nodup_fold; constructor|].
  intro k.
  destruct (fold_counts key l k []) as [_ [_ Hh]].
  cbn [has get orb] in Hh.
  split.
  - intro Hin.
    assert (Hhas : has k (fold_left (tally key) l []) = true).
    { unfold has. destruct (get k _) eqn:E; [reflexivity|].
      exfalso. exact (get_none_keys _ _ E Hin). }
    rewrite Hhas in Hh. symmetry in Hh. apply Nat.ltb_lt in Hh.
    destruct (filter (under key k) l) as [|t r] eqn:Ef; [cbn in Hh; lia|].
    assert (Ht : In t (filter (under key k) l)) by (rewrite Ef; left; reflexivity).
    apply filter_In in Ht. destruct Ht as [Ht Hu].
    exists t. split; [exact Ht|]. apply String.eqb_eq. exact Hu.
  - intros [t [Ht Hk]].
    assert (Hu : In t (filter (under key k) l)).
    { apply filter_In. split; [exact Ht|]. apply String.eqb_eq. exact Hk. }
    assert (Hpos : (0 <? List.length (filter (under key k) l))%nat = true).
    { apply Nat.ltb_lt. destruct (filter (under key k) l); [contradiction|cbn; lia]. }
    rewrite Hpos in Hh. unfold has in Hh.
    destruct (get k (fold_left (tally key) l [])) as [c|] eqn:E; [|discriminate].
    apply get_in in E. apply (in_map fst) in E. exact E.
Qed.

(** *** The failed counters add up to the failed tests *)

Lemma count_failed_set (k : string) (v : counts) (d : list (string * counts)) :
  count_failed (set k v d)
  = count_failed d - c_failed (get_or k zero_counts d) + c_failed v.
Proof.
  unfold count_failed, get_or.
  induction d as [|[k' v'] d IH]; cbn [set get map snd].
  - rewrite zsum_cons. unfold zsum. cbn. lia.
  - destruct (k' =? k)%string; cbn [map snd].
    + rewrite !zsum_cons. lia.
    + rewrite !zsum_cons, IH. lia.
Qed.

Lemma count_failed_tally (key : test -> string) (d : list (string * counts))
  (t : test) :
  count_failed (tally key d t)
  = count_failed d + (if status_is "FAILED" t then 1 else 0).
Proof.
  unfold tally, add_total, add_failed.
  destruct (status_is "FAILED" t).
  - rewrite count_failed_set, get_or_set_same, count_failed_set.
    cbn [c_failed]. lia.
  - rewrite count_failed_set. cbn [c_failed]. lia.
Qed.

Lemma count_failed_fold (key : test -> string) (l : list test) :
  forall d : list (string * counts),
    count_failed (fold_left (tally key) l d)
    = count_failed d + with_status "FAILED" l.
Proof.
  unfold with_status.
  induction l as [|t l IH]; intro d; cbn [fold_left filter].
  - cbn. lia.
  - rewrite IH, count_failed_tally.
    destruct (status_is "FAILED" t); cbn [List.length]; lia.
Qed.

Lemma dimension_failed (key : test -> string) (l : list test) :
  sum_failed (dimension key l) = with_status "FAILED" l.
Proof.
  unfold sum_failed, dimension. rewrite map_map. cbn [snd b_failed with_rate].
  change (zsum (map (fun x : string * counts => c_failed (snd x))
                  (fold_left (tally key) l [])))
    with (count_failed (fold_left (tally key) l [])).
  rewrite count_failed_fold. reflexivity.
Qed.

(** *** The distribution *)

Lemma distribute_fold (l : list test) :
  forall d : distribution,
    fold_left distribute l d
    = {| d_total := d_total d + Z.of_nat (List.length l);
         d_passed := d_passed d + with_status "PASSED" l;
         d_failed := d_failed d
                     + (Z.of_nat (List.length l) - with_status "PASSED" l) |}.
Proof.
  unfold with_status.
  induction l as [|t l IH]; intros [n p f]; cbn [fold_left filter List.length].
  - cbn [d_total d_passed d_failed]. f_equal; lia.
  - rewrite IH. unfold distribute. cbn [d_total d_passed d_failed].
    destruct (status_is "PASSED" t); cbn [d_total d_passed d_failed List.length];
      f_equal; lia.
Qed.

Lemma distribute_all (l : list test) :
  fold_left distribute l zero_distribution = distribution_of l.
Proof. rewrite distribute_fold. unfold distribution_of. cbn. f_equal; lia. Qed.

Lemma failed_not_passed (l : list test) :
  with_status "FAILED" l <= Z.of_nat (List.length l) - with_status "PASSED" l.
Proof.
  unfold with_status.
  induction l as [|t l IH]; cbn [filter List.length]; [lia|].
  unfold status_is in *.
  destruct (status t) as [s|]; [|lia].
  destruct (s =? "FAILED")%string eqn:E.
  - apply String.eqb_eq in E. subst s. cbn [String.eqb Ascii.eqb Bool.eqb andb].
    cbn [List.length]. lia.
  - destruct (s =? "PASSED")%string; cbn [List.length]; lia.
Qed.

(** *** The statistics of a report *)

(** X2.  In the statistics of any report, the bucket kept for a module,
    a category or a priority counts the tests that carry that key (a
    missing module or category counts as [Unknown], a missing priority
    as [medium]) and, as failed, those of them whose status is [FAILED];
    no bucket is empty, and its failure rate lies between 0 and 100,
    within a hundredth of the percentage of its failed tests. *)
Theorem buckets_count_their_tests (rep : report) :
  (forall k b, In (k, b) (by_module (_calculate_statistics rep)) ->
               counted module_key (all_tests_of (results rep)) k b) /\
  (forall k b, In (k, b) (by_category (_calculate_statistics rep)) ->
               counted category_key (all_tests_of (results rep)) k b) /\
  (forall k b, In (k, b) (by_priority (_calculate_statistics rep)) ->
               counted priority_key (all_tests_of (results rep)) k b).
Proof.
  cbn [_calculate_statistics by_module by_category by_priority].
  split; [|split]; intros k b H; exact (dimension_counted _ _ _ _ H).
Qed.

(** X3.  Each dimension of the statistics holds one bucket for every
    key that occurs among the tests, and no other: the keys are
    distinct, and a key has a bucket exactly when some test carries
    it. *)
Theorem buckets_one_per_key (rep : report) :
  NoDup (map fst (by_module (_calculate_statistics rep))) /\
  NoDup (map fst (by_category (_calculate_statistics rep))) /\
  NoDup (map fst (by_priority (_calculate_statistics rep))) /\
  (forall k, In k (map fst (by_module (_calculate_statistics rep)))
             <-> exists t, In t (all_tests_of (results rep)) /\ module_key t = k) /\
  (forall k, In k (map fst (by_category (_calculate_statistics rep)))
             <-> exists t, In t (all_tests_of (results rep)) /\ category_key t = k) /\
  (forall k, In k (map fst (by_priority (_calculate_statistics rep)))
             <-> exists t, In t (all_tests_of (results rep)) /\ priority_key t = k).
Proof.
  cbn [_calculate_statistics by_module by_category by_priority].
  split; [apply dimension_keys|].
  split; [apply dimension_keys|].
  split; [apply dimension_keys|].
  split; [apply (proj2 (dimension_keys _ _))|].
  split; apply (proj2 (dimension_keys _ _)).
Qed.

(** X4.  The two distribution entries count the tests of their list:
    all of them, those whose status is [PASSED], and as failed every
    other one, whatever its status; a flat list of results is counted
    as generated tests.  The failed counters of the module buckets add
    up to the tests whose status is [FAILED], which are at most the
    failed tests of the two distribution entries together. *)
Theorem distribution_counts (rep : report) :
  match results rep with
  | Flat tests =>
      dist_baseline (_calculate_statistics rep) = zero_distribution /\
      dist_ai_generated (_calculate_statistics rep) = distribution_of tests
  | Structured baseline ai =>
      dist_baseline (_calculate_statistics rep) = distribution_of baseline /\
      dist_ai_generated (_calculate_statistics rep) = distribution_of ai
  end /\
  sum_failed (by_module (_calculate_statistics rep))
  = with_status "FAILED" (all_tests_of (results rep)) /\
  sum_failed (by_module (_calculate_statistics rep))
  <= d_failed (dist_baseline (_calculate_statistics rep))
     + d_failed (dist_ai_generated (_calculate_statistics rep)).
Proof.
  cbn [_calculate_statistics by_module dist_baseline dist_ai_generated].
  rewrite dimension_failed.
  destruct (results rep) as [tests|baseline ai]; cbn [all_tests_of].
  - rewrite distribute_all. repeat split.
    cbn [d_failed zero_distribution distribution_of].
    pose proof (failed_not_passed tests). lia.
  - rewrite !distribute_all. repeat split.
    cbn [d_failed distribution_of].
    pose proof (failed_not_passed baseline). pose proof (failed_not_passed ai).
    unfold with_status in *. rewrite filter_app, length_app. lia.
Qed.

End BucketFacts.

(* ------------------------------------------------------------------ *)
(** ** The timings of the statistics *)
(* ------------------------------------------------------------------ *)

Module TimingFacts.
Import Py PyFacts Stats StatsSpec.
Local Open Scope Q_scope.

Lemma insert_permutation (t : test) (l : list test) :
  Permutation (insert_by_time t l) (t :: l).
Proof.
  induction l as [|y ys IH]; cbn [insert_by_time].
  - apply Permutation_refl.
  - destruct (qlt (time_of y) (time_of t)).
    + eapply perm_trans; [apply perm_skip; exact IH | apply perm_swap].
    + apply Permutation_refl.
Qed.

Lemma sorted_permutation (l : list test) : Permutation (sorted_by_time l) l.
Proof.
  induction l as [|t l IH]; cbn [sorted_by_time fold_right].
  - apply perm_nil.
  - eapply perm_trans; [apply insert_permutation|].
    apply perm_skip. exact IH.
Qed.

Lemma insert_sorted (t : test) (l : list test) :
  StronglySorted (fun a b => time_of a <= time_of b) l ->
  StronglySorted (fun a b => time_of a <= time_of b) (insert_by_time t l).
Proof.
  induction 1 as [|y ys Hs IH Hy]; cbn [insert_by_time].
  - constructor; constructor.
  - destruct (qlt (time_of y) (time_of t)) eqn:E.
    + constructor; [exact IH|].
      apply qlt_true in E.
      eapply Permutation_Forall;
        [apply Permutation_sym; apply insert_permutation|].
      constructor; [apply Qlt_le_weak; exact E | exact Hy].
    + apply qlt_false in E.
      constructor; [constructor; assumption|].
      constructor; [exact E|].
      eapply Forall_impl; [|exact Hy].
      intros a Ha. cbn beta in *. eapply Qle_trans; eassumption.
Qed.

Lemma sorted_ascending (l : list test) :
  StronglySorted (fun a b => time_of a <= time_of b) (sorted_by_time l).
Proof.
  induction l as [|t l IH]; cbn [sorted_by_time fold_right].
  - constructor.
  - apply insert_sorted. exact IH.
Qed.

Lemma in_firstn (A : Type) (n : nat) (l : list A) (a : A) :
  In a (firstn n l) -> In a l.
Proof.
  intro H. rewrite <- (firstn_skipn n l). apply in_or_app. left. exact H.
Qed.

Lemma in_skipn (A : Type) (n : nat) (l : list A) (a : A) :
  In a (skipn n l) -> In a l.
Proof.
  intro H. rewrite <- (firstn_skipn n l). apply in_or_app. right. exact H.
Qed.

(** A sorted list, cut in two: what comes first is not slower than what
    comes after. *)
Lemma sorted_split (A : Type) (R : A -> A -> Prop) (l : list A) (n : nat) :
  StronglySorted R l ->
  forall a b, In a (firstn n l) -> In b (skipn n l) -> R a b.
Proof.
  intro Hs. revert n. induction Hs as [|x l Hs IH Hx]; intros n a b Ha Hb.
  - rewrite firstn_nil in Ha. contradiction.
  - destruct n as [|n]; [contradiction|].
    cbn [firstn skipn In] in Ha, Hb. destruct Ha as [<-|Ha].
    + rewrite Forall_forall in Hx. apply Hx.
      eapply in_skipn. exact Hb.
    + eapply IH; eassumption.
Qed.

Lemma sorted_firstn (A : Type) (R : A -> A -> Prop) (l : list A) (n : nat) :
  StronglySorted R l -> StronglySorted R (firstn n l).
Proof.
  intro Hs. revert n. induction Hs as [|x l Hs IH Hx]; intro n.
  - rewrite firstn_nil. constructor.
  - destruct n as [|n]; [constructor|]. cbn [firstn].
    constructor; [apply IH|].
    rewrite Forall_forall in *. intros y Hy. apply Hx.
    eapply in_firstn. exact Hy.
Qed.

Lemma sorted_skipn (A : Type) (R : A -> A -> Prop) (l : list A) (n : nat) :
  StronglySorted R l -> StronglySorted R (skipn n l).
Proof.
  intro Hs. revert n. induction Hs as [|x l Hs IH Hx]; intro n.
  - rewrite skipn_nil. constructor.
  - destruct n as [|n]; [constructor; assumption|]. cbn [skipn]. apply IH.
Qed.

Lemma sorted_map_timing (l : list test) :
  StronglySorted (fun a b => time_of a <= time_of b) l ->
  StronglySorted quicker (map timing_of l).
Proof.
  induction 1 as [|x l Hs IH Hx]; cbn [map]; constructor; [exact IH|].
  rewrite Forall_forall in *. intros y Hy.
  apply in_map_iff in Hy. destruct Hy as [t [<- Ht]].
  unfold quicker, timing_of. cbn [t_time]. apply Hx. exact Ht.
Qed.

Lemma in_split_at (A : Type) (n : nat) (l : list A) (a : A) :
  In a l -> In a (firstn n l) \/ In a (skipn n l).
Proof.
  intro H. rewrite <- (firstn_skipn n l) in H. apply in_app_or in H. exact H.
Qed.

Lemma timings_length (rep : report) :
  List.length (fastest_tests (_calculate_statistics rep))
  = Nat.min 3 (List.length (all_tests_of (results rep))) /\
  List.length (slowest_tests (_calculate_statistics rep))
  = Nat.min 3 (List.length (all_tests_of (results rep))).
Proof.
  cbn [_calculate_statistics fastest_tests slowest_tests].
  rewrite !length_map, length_firstn, length_skipn.
  rewrite (Permutation_length (sorted_permutation (all_tests_of (results rep)))).
  lia.
Qed.

Lemma slowest_sorted (rep : report) :
  StronglySorted quicker (slowest_tests (_calculate_statistics rep)).
Proof.
  cbn [_calculate_statistics slowest_tests].
  apply sorted_map_timing, sorted_skipn, sorted_ascending.
Qed.

(** X5.  The statistics list the three quickest and the three slowest
    tests (all of them when there are fewer), both in ascending order
    of time: a test that is not listed among the quickest takes at
    least as long as each of them, and one that is not listed among the
    slowest at most as long as each of them.  The first entry of the
    slowest tests is therefore the quickest of them. *)
Theorem timings_in_order (rep : report) :
  List.length (fastest_tests (_calculate_statistics rep))
  = Nat.min 3 (List.length (all_tests_of (results rep))) /\
  List.length (slowest_tests (_calculate_statistics rep))
  = Nat.min 3 (List.length (all_tests_of (results rep))) /\
  StronglySorted quicker (fastest_tests (_calculate_statistics rep)) /\
  StronglySorted quicker (slowest_tests (_calculate_statistics rep)) /\
  (forall f t,
     In f (fastest_tests (_calculate_statistics rep)) ->
     In t (all_tests_of (results rep)) ->
     In (timing_of t) (fastest_tests (_calculate_statistics rep))
     \/ t_time f <= time_of t) /\
  (forall s t,
     In s (slowest_tests (_calculate_statistics rep)) ->
     In t (all_tests_of (results rep)) ->
     In (timing_of t) (slowest_tests (_calculate_statistics rep))
     \/ time_of t <= t_time s).
Proof.
  split; [apply timings_length|]. split; [apply timings_length|].
  split; [|split; [apply slowest_sorted|]].
  - cbn [_calculate_statistics fastest_tests].
    apply sorted_map_timing, sorted_firstn, sorted_ascending.
  - cbn [_calculate_statistics fastest_tests slowest_tests].
    set (all := all_tests_of (results rep)).
    pose proof (sorted_ascending all) as Hs.
    pose proof (sorted_permutation all) as Hp.
    split.
    + intros f t Hf Ht.
      apply in_map_iff in Hf. destruct Hf as [f0 [<- Hf0]].
      apply (Permutation_in _ (Permutation_sym Hp)) in Ht.
      destruct (in_split_at 3 _ _ Ht) as [H|H].
      * left. apply in_map. exact H.
      * right. exact (sorted_split 3 Hs _ _ Hf0 H).
    + intros s0 t Hs0 Ht.
      apply in_map_iff in Hs0. destruct Hs0 as [s1 [<- Hs1]].
      apply (Permutation_in _ (Permutation_sym Hp)) in Ht.
      destruct (in_split_at (List.length (sorted_by_time all) - 3) _ _ Ht) as [H|H].
      * right. exact (sorted_split _ Hs _ _ H Hs1).
      * left. apply in_map. exact H.
Qed.

(** X6.  The rule-based insights recommend optimising a test exactly
    when there are tests and every one of the slowest tests listed by
    the statistics takes more than 5 seconds; the test they name is the
    first of that list, which is the quickest of the listed ones. *)
Theorem performance_threshold (num_str : Q -> string) (rep : report) :
  (performance_recommendation num_str (_calculate_statistics rep) <> [] <->
   all_tests_of (results rep) <> [] /\
   Forall (fun s => 5.0 < t_time s) (slowest_tests (_calculate_statistics rep))) /\
  (forall first rest,
     slowest_tests (_calculate_statistics rep) = first :: rest ->
     Forall (quicker first) rest /\
     (5.0 < t_time first ->
      performance_recommendation num_str (_calculate_statistics rep)
      = ["Optimize test " ++ t_test_id first ++ " which takes "
         ++ num_str (t_time first) ++ "s to execute"])).
Proof.
  pose proof (slowest_sorted rep) as Hs.
  pose proof (proj2 (timings_length rep)) as Hlen.
  unfold performance_recommendation.
  destruct (slowest_tests (_calculate_statistics rep)) as [|first rest] eqn:E.
  - split.
    + split; [intro H; contradiction|].
      intros [Hne _]. exfalso.
      destruct (all_tests_of (results rep)); [contradiction|].
      cbn in Hlen. discriminate.
    + intros first rest H. discriminate.
  - inversion Hs as [|? ? Hrest Hfirst]; subst.
    split.
    + split.
      * intro H. split.
        -- intro Hall. rewrite Hall in Hlen. cbn in Hlen. discriminate.
        -- destruct (qlt 5.0 (t_time first)) eqn:Hq; [|contradiction].
           apply qlt_true in Hq. constructor; [exact Hq|].
           eapply Forall_impl; [|exact Hfirst].
           intros a Ha. unfold quicker in Ha. cbn beta.
           eapply Qlt_le_trans; eassumption.
      * intros [_ Hall]. inversion Hall as [|? ? Hq _]; subst.
        unfold qlt.
        destruct (Qle_bool (t_time first) 5.0) eqn:Hb.
        -- apply Qle_bool_iff in Hb. exfalso.
           exact (Qlt_not_le _ _ Hq Hb).
        -- cbn. discriminate.
    + intros f r H. injection H as <- <-. split; [exact Hfirst|].
      intro Hq. unfold qlt.
      destruct (Qle_bool (t_time first) 5.0) eqn:Hb; [|reflexivity].
      apply Qle_bool_iff in Hb. exfalso. exact (Qlt_not_le _ _ Hq Hb).
Qed.

End TimingFacts.

(* ------------------------------------------------------------------ *)
(** ** The rule-based insights *)
(* ------------------------------------------------------------------ *)

Module InsightFacts.
Import Py PyFacts Stats StatsSpec.
Local Open Scope Q_scope.

(** The search for the worst module over any list of buckets. *)
Lemma worst_fold (l : list (string * bucket)) :
  forall acc : option string * Q,
    snd acc <= snd (fold_left worst_step l acc) /\
    (forall kv, In kv l -> (1 < b_failed (snd kv))%Z ->
                failure_rate (snd kv) <= snd (fold_left worst_step l acc)) /\
    (fold_left worst_step l acc = acc \/
     exists kv, In kv l /\
                fold_left worst_step l acc = (Some (fst kv), failure_rate (snd kv)) /\
                (1 < b_failed (snd kv))%Z /\
                snd acc < failure_rate (snd kv)).
Proof.
  induction l as [|kv l IH]; intro acc; cbn [fold_left].
  - split; [apply Qle_refl|]. split; [intros kv []|left; reflexivity].
  - destruct (IH (worst_step acc kv)) as [Hle [Hall Hres]].
    unfold worst_step in *.
    destruct (qlt (snd acc) (failure_rate (snd kv))) eqn:Hq;
      destruct (1 <? b_failed (snd kv))%Z eqn:Hf; cbn [andb snd] in *.
    + apply qlt_true in Hq. apply Z.ltb_lt in Hf.
      split; [eapply Qle_trans; [apply Qlt_le_weak; exact Hq | exact Hle]|].
      split.
      * intros kv' [<-|Hin] Hf'; [exact Hle | apply Hall; assumption].
      * right. destruct Hres as [Hres|[kv' [Hin [Hres [Hf' Hlt]]]]].
        -- exists kv. repeat split; try assumption. left; reflexivity.
        -- exists kv'. repeat split; try assumption.
           ++ right; exact Hin.
           ++ eapply Qlt_trans; eassumption.
    + apply Z.ltb_ge in Hf.
      split; [exact Hle|]. split.
      * intros kv' [<-|Hin] Hf'; [lia | apply Hall; assumption].
      * destruct Hres as [Hres|[kv' [Hin [Hres [Hf' Hlt]]]]]; [left; exact Hres|].
        right. exists kv'. repeat split; try assumption. right; exact Hin.
    + apply qlt_false in Hq.
      split; [exact Hle|]. split.
      * intros kv' [<-|Hin] Hf'; [eapply Qle_trans; eassumption | apply Hall; assumption].
      * destruct Hres as [Hres|[kv' [Hin [Hres [Hf' Hlt]]]]]; [left; exact Hres|].
        right. exists kv'. repeat split; try assumption. right; exact Hin.
    + apply qlt_false in Hq.
      split; [exact Hle|]. split.
      * intros kv' [<-|Hin] Hf'; [eapply Qle_trans; eassumption | apply Hall; assumption].
      * destruct Hres as [Hres|[kv' [Hin [Hres [Hf' Hlt]]]]]; [left; exact Hres|].
        right. exists kv'. repeat split; try assumption. right; exact Hin.
Qed.

(** X7.  The module the rule-based insights single out is one with
    more than one failed test: among those it has the highest failure
    rate, which is above zero.  When no module has more than one failed
    test and a positive rate, none is singled out; a module with a
    single failed test never is, whatever its rate. *)
Theorem worst_module_spec (st : stats) :
  match worst st with
  | (Some name, rate) =>
      (exists b, In (name, b) (by_module st) /\ failure_rate b = rate
                 /\ (1 < b_failed b)%Z) /\
      0 < rate /\
      forall kv, In kv (by_module st) -> (1 < b_failed (snd kv))%Z ->
                 failure_rate (snd kv) <= rate
  | (None, rate) =>
      rate = 0 /\
      forall kv, In kv (by_module st) -> (1 < b_failed (snd kv))%Z ->
                 failure_rate (snd kv) <= 0
  end.
Proof.
  unfold worst.
  destruct (worst_fold (by_module st) (None, 0)) as [Hle [Hall Hres]].
  destruct Hres as [Hres|[kv [Hin [Hres [Hf Hlt]]]]]; rewrite Hres in *.
  - split; [reflexivity|]. exact Hall.
  - cbn [snd] in *. split; [|split; [exact Hlt | exact Hall]].
    exists (snd kv). destruct kv as [k b]. cbn [fst snd] in *. tauto.
Qed.

Section Recommendations.
Variable num_str : Q -> string.
Variable fmt_1f : Q -> string.

Lemma specific_count (st : stats) :
  (List.length (specific_recommendations num_str fmt_1f st) <= 4)%nat.
Proof.
  unfold specific_recommendations. rewrite !length_app.
  assert (H1 : (List.length (module_recommendation num_str st) <= 1)%nat).
  { unfold module_recommendation. destruct (_ && _); cbn; lia. }
  assert (H2 : (List.length (performance_recommendation num_str st) <= 1)%nat).
  { unfold performance_recommendation.
    destruct (slowest_tests st); [cbn; lia|]. destruct (qlt _ _); cbn; lia. }
  assert (H3 : (List.length (distribution_recommendation fmt_1f st) <= 1)%nat).
  { unfold distribution_recommendation.
    destruct (0 <? _)%Z; [|cbn; lia]. destruct (qlt _ _); cbn; lia. }
  assert (H4 : (List.length (security_recommendation st) <= 1)%nat).
  { unfold security_recommendation. destruct (existsb _ _); cbn; lia. }
  lia.
Qed.

Lemma specific_not_generic (st : stats) :
  ~ In continue_monitoring (specific_recommendations num_str fmt_1f st).
Proof.
  unfold specific_recommendations. intro H.
  repeat (apply in_app_or in H; destruct H as [H|H]).
  - unfold module_recommendation in H.
    destruct (_ && _); [|contradiction]. destruct H as [H|[]]. discriminate H.
  - unfold performance_recommendation in H.
    destruct (slowest_tests st); [contradiction|].
    destruct (qlt _ _); [|contradiction]. destruct H as [H|[]]. discriminate H.
  - unfold distribution_recommendation in H.
    destruct (0 <? _)%Z; [|contradiction].
    destruct (qlt _ _); [|contradiction]. destruct H as [H|[]]. discriminate H.
  - unfold security_recommendation in H.
    destruct (existsb _ _); [|contradiction]. destruct H as [H|[]]. discriminate H.
Qed.

(** X8.  The rule-based insights give between one and four
    recommendations: at most one for each of the four rules, and the
    generic one exactly when fewer than three rules fire, so that the
    limit of five never cuts the list. *)
Theorem fallback_recommendations_count (st : stats) :
  recommendations (_generate_fallback_insights num_str fmt_1f st)
  = (if (List.length (specific_recommendations num_str fmt_1f st) <? 3)%nat
     then (specific_recommendations num_str fmt_1f st ++ [continue_monitoring])%list
     else specific_recommendations num_str fmt_1f st) /\
  (1 <= List.length (recommendations (_generate_fallback_insights num_str fmt_1f st))
   <= 4)%nat /\
  (In continue_monitoring
      (recommendations (_generate_fallback_insights num_str fmt_1f st))
   <-> (List.length (specific_recommendations num_str fmt_1f st) < 3)%nat).
Proof.
  pose proof (specific_count st) as Hc.
  pose proof (specific_not_generic st) as Hn.
  cbn [_generate_fallback_insights recommendations].
  destruct (List.length (specific_recommendations num_str fmt_1f st) <? 3)%nat eqn:E.
  - apply Nat.ltb_lt in E.
    rewrite firstn_all2 by (rewrite length_app; cbn [List.length]; lia).
    split; [reflexivity|]. rewrite length_app. cbn [List.length].
    split; [lia|]. split; [intro; exact E|].
    intro. apply in_or_app. right. left. reflexivity.
  - apply Nat.ltb_ge in E.
    rewrite firstn_all2 by lia.
    split; [reflexivity|]. split; [lia|].
    split; [intro H; contradiction | intro H; lia].
Qed.

End Recommendations.

End InsightFacts.

(* ------------------------------------------------------------------ *)
(** ** The executor and its report *)
(* ------------------------------------------------------------------ *)

Module ReportFacts.
Import Py PyFacts Pipeline Orchestrator StatsSpec.
Local Open Scope Q_scope.

Lemma count_passed_bounds (results : list Stats.test) :
  (0 <= count_passed results <= Z.of_nat (List.length results))%Z.
Proof.
  unfold count_passed. pose proof (filter_length_le (Stats.status_is "PASSED") results).
  lia.
Qed.

Lemma run_tests_length (e : env) (test_cases : list value) :
  forall results,
    run_tests e test_cases = Returned results ->
    List.length results = List.length test_cases.
Proof.
  induction test_cases as [|c l IH]; intros results; cbn [run_tests].
  - intro H. injection H as <-. reflexivity.
  - destruct (single_test e c) as [r|x]; cbn [bind]; [|discriminate].
    destruct (run_tests e l) as [rs|x]; cbn [bind]; [|discriminate].
    intro H. injection H as <-. cbn [List.length]. rewrite (IH rs eq_refl).
    reflexivity.
Qed.

(** X9.  The summary of an execution report counts one result per
    test: passed and failed add up to the total, every result that is
    not [PASSED] counts as failed, and the pass rate is the rounded
    percentage of the passed tests, between 0 and 100, and 0 when there
    is no test. *)
Theorem report_summary_consistent (execution_id : string)
  (results : list Stats.test) :
  Stats.s_total_tests (Stats.summary (report_of execution_id results))
  = Some (Z.of_nat (List.length results)) /\
  Stats.s_passed (Stats.summary (report_of execution_id results))
  = Some (with_status "PASSED" results) /\
  Stats.s_failed (Stats.summary (report_of execution_id results))
  = Some (Z.of_nat (List.length results) - with_status "PASSED" results)%Z /\
  (0 <= with_status "PASSED" results <= Z.of_nat (List.length results))%Z /\
  exists rate,
    Stats.s_pass_rate_percentage (Stats.summary (report_of execution_id results))
    = Some rate /\
    0 <= rate /\ rate <= 100 /\ (results = [] -> rate == 0).
Proof.
  pose proof (count_passed_bounds results) as Hb.
  unfold report_of. cbn [Stats.summary Stats.s_total_tests Stats.s_passed
                         Stats.s_failed Stats.s_pass_rate_percentage].
  change (count_passed results) with (with_status "PASSED" results) in *.
  split; [reflexivity|]. split; [reflexivity|]. split; [reflexivity|].
  split; [exact Hb|].
  eexists. split; [reflexivity|].
  destruct (0 <? Z.of_nat (List.length results))%Z eqn:E.
  - apply Z.ltb_lt in E.
    destruct (AnalyzeFacts.rate_bounds
                (p := with_status "PASSED" results)
                (e := Z.of_nat (List.length results)) Hb E) as [H0 H1].
    destruct (RoundFacts.round_digits_between 2 (lo := 0) (hi := 100) H0 H1)
      as [Hlo Hhi].
    split; [exact Hlo|]. split; [exact Hhi|].
    intros ->. cbn in E. lia.
  - split; [vm_compute; discriminate|]. split; [vm_compute; discriminate|].
    intros _. reflexivity.
Qed.

(** X10.  The statistics computed from a report of the executor agree
    with its summary: the overview's total is the number of results,
    which the module buckets add up to; all results are counted as
    generated tests, whose passed and failed counts are those of the
    overview; and the tests the buckets count as failed are at most the
    failed tests of the overview. *)
Theorem statistics_of_executor_report (execution_id : string)
  (results : list Stats.test) :
  Stats.total_tests
    (Stats.st_overview (Stats._calculate_statistics (report_of execution_id results)))
  = Z.of_nat (List.length results) /\
  Stats.sum_totals
    (Stats.by_module (Stats._calculate_statistics (report_of execution_id results)))
  = Z.of_nat (List.length results) /\
  Stats.dist_baseline (Stats._calculate_statistics (report_of execution_id results))
  = Stats.zero_distribution /\
  Stats.dist_ai_generated
    (Stats._calculate_statistics (report_of execution_id results))
  = {| Stats.d_total :=
         Stats.total_tests
           (Stats.st_overview
              (Stats._calculate_statistics (report_of execution_id results)));
       Stats.d_passed :=
         Stats.passed
           (Stats.st_overview
              (Stats._calculate_statistics (report_of execution_id results)));
       Stats.d_failed :=
         Stats.failed
           (Stats.st_overview
              (Stats._calculate_statistics (report_of execution_id results))) |} /\
  (sum_failed
     (Stats.by_module (Stats._calculate_statistics (report_of execution_id results)))
   <= Stats.failed
        (Stats.st_overview
           (Stats._calculate_statistics (report_of execution_id results))))%Z.
Proof.
  pose proof (StatsFacts.dimension_total Stats.module_key results) as Ht.
  cbn [report_of Stats._calculate_statistics Stats.results Stats.all_tests_of
       Stats.st_overview Stats.total_tests Stats.passed Stats.failed
       Stats.by_module Stats.dist_baseline Stats.dist_ai_generated
       Stats.summary Stats.s_total_tests Stats.s_passed Stats.s_failed
       Stats.or_default].
  split; [reflexivity|]. split; [exact Ht|]. split; [reflexivity|].
  split; [apply BucketFacts.distribute_all|].
  rewrite BucketFacts.dimension_failed.
  apply BucketFacts.failed_not_passed.
Qed.

Section ExecutorRun.
Variable json_loads : string -> option value.
Variable dumps : content -> string.
Variable e : env.

(** Where a returned report went. *)
Lemma executor_report_written (test_cases_path output_dir : string)
  (w w' : world) (report : Stats.report) :
  executor_execute json_loads dumps e test_cases_path output_dir w
  = (Returned (ExecutionReport report), w') ->
  or_empty (Stats.execution_id report) = "EXEC_" ++ now_execution e /\
  w' = written
         (artifact_path output_dir "execution_report"
            ("EXEC_" ++ now_execution e))
         (DumpedReport report) w.
Proof.
  unfold executor_execute, and_then, read_file, ret, lift, raise, write_file.
  destruct (get test_cases_path (files w)) as [c|]; [|discriminate].
  destruct (is_blank c); [discriminate|].
  destruct (loads_content json_loads dumps c) as [[| | | | | |test_data]|];
    try discriminate.
  destruct (get_or "enhanced_test_cases"
              (get_or "generated_tests" (VList []) test_data) test_data)
    as [|b|z|x|s|l|d]; cbn [truthy negb]; try discriminate.
  - destruct b; discriminate.
  - destruct (z =? 0)%Z; discriminate.
  - destruct (Qeq_bool x 0); discriminate.
  - destruct (s =? "")%string; discriminate.
  - destruct l as [|c0 l]; [discriminate|]. cbn [negb].
    destruct (run_tests e (c0 :: l)) as [results|x]; [|discriminate].
    intro H. injection H as <- <-. split; reflexivity.
  - destruct d; discriminate.
Qed.

(** X11.  When the executor returns a report, the file of test cases
    held an object whose test cases (those under [enhanced_test_cases],
    else under [generated_tests]) form a non-empty list; the report
    holds one result for each of them, in their order, under the
    identifier made from the clock; and the only change to the world is
    that the report is written to the file named after that identifier
    in the output directory. *)
Theorem executor_report_persisted (test_cases_path output_dir : string)
  (w w' : world) (report : Stats.report) :
  executor_execute json_loads dumps e test_cases_path output_dir w
  = (Returned (ExecutionReport report), w') ->
  exists (c : content) (test_data : dict) (test_cases : list value)
         (results : list Stats.test),
    get test_cases_path (files w) = Some c /\
    loads_content json_loads dumps c = Some (VDict test_data) /\
    get_or "enhanced_test_cases"
      (get_or "generated_tests" (VList []) test_data) test_data
    = VList test_cases /\
    test_cases <> [] /\
    run_tests e test_cases = Returned results /\
    List.length results = List.length test_cases /\
    report = report_of ("EXEC_" ++ now_execution e) results /\
    w' = written
           (artifact_path output_dir "execution_report"
              ("EXEC_" ++ now_execution e))
           (DumpedReport report) w.
Proof.
  unfold executor_execute, and_then, read_file, ret, lift, raise, write_file.
  destruct (get test_cases_path (files w)) as [c|] eqn:Hc; [|discriminate].
  destruct (is_blank c); [discriminate|].
  destruct (loads_content json_loads dumps c) as [[| | | | | |test_data]|] eqn:Hl;
    try discriminate.
  destruct (get_or "enhanced_test_cases"
              (get_or "generated_tests" (VList []) test_data) test_data)
    as [|b|z|x|s|l|d] eqn:Hg; cbn [truthy negb]; try discriminate.
  - destruct b; discriminate.
  - destruct (z =? 0)%Z; discriminate.
  - destruct (Qeq_bool x 0); discriminate.
  - destruct (s =? "")%string; discriminate.
  - destruct l as [|c0 l]; [discriminate|]. cbn [negb].
    destruct (run_tests e (c0 :: l)) as [results|x] eqn:Hr; [|discriminate].
    intro H. injection H as <- <-.
    exists c, test_data, (c0 :: l), results.
    repeat split; try assumption; try reflexivity.
    + discriminate.
    + apply (run_tests_length _ _ Hr).
  - destruct d; discriminate.
Qed.

Lemma set_present (A : Type) (k : string) (v : A) (d : list (string * A)) :
  get k d = Some v -> set k v d = d.
Proof.
  induction d as [|[k' v'] d IH]; cbn [get set]; [discriminate|].
  destruct (k' =? k)%string.
  - intro H. injection H as ->. reflexivity.
  - intro H. rewrite (IH H). reflexivity.
Qed.

(** X12.  The controller dumps the execution report it got from the
    executor into the file named after the report's identifier: that is
    the file the executor has just written, with that very report, so
    the second dump changes no file. *)
Theorem report_dumped_twice (test_cases_path output_dir : string)
  (w w' : world) (report : Stats.report) :
  executor_execute json_loads dumps e test_cases_path output_dir w
  = (Returned (ExecutionReport report), w') ->
  get (artifact_path output_dir "execution_report"
         (or_empty (Stats.execution_id report))) (files w')
  = Some (DumpedReport report) /\
  files (written
           (artifact_path output_dir "execution_report"
              (or_empty (Stats.execution_id report)))
           (DumpedReport report) w')
  = files w'.
Proof.
  intro H.
  destruct (@executor_report_written _ _ _ _ _ H) as [Hid Hw].
  rewrite Hid.
  assert (Hget : get (artifact_path output_dir "execution_report"
                        ("EXEC_" ++ now_execution e)) (files w')
                 = Some (DumpedReport report)).
  { rewrite Hw. unfold written. cbn [files]. apply PipelineFacts.get_set_same. }
  split; [exact Hget|].
  unfold written at 1. cbn [files]. apply set_present. exact Hget.
Qed.

End ExecutorRun.

Lemma report_dumped_twice_witness :
  files (written "out/execution_report_EXEC_20250101_120000.json"
           (DumpedReport (report_of "EXEC_20250101_120000" [Samples.passed_result]))
           (written "out/execution_report_EXEC_20250101_120000.json"
              (DumpedReport
                 (report_of "EXEC_20250101_120000" [Samples.passed_result]))
              Samples.tests_world))
  = files (written "out/execution_report_EXEC_20250101_120000.json"
             (DumpedReport
                (report_of "EXEC_20250101_120000" [Samples.passed_result]))
             Samples.tests_world).
Proof.
  assert (H : executor_execute Json.loads dump_text
                (sample_env "20250101_120000" "first")
                "out/generated_tests_20250101_120000.json" "out"
                Samples.tests_world
              = (Returned (ExecutionReport
                   (report_of "EXEC_20250101_120000" [Samples.passed_result])),
                 written "out/execution_report_EXEC_20250101_120000.json"
                   (DumpedReport
                      (report_of "EXEC_20250101_120000" [Samples.passed_result]))
                   Samples.tests_world))
    by (vm_compute; reflexivity).
  exact (proj2 (@report_dumped_twice Json.loads dump_text
                  (sample_env "20250101_120000" "first") _ _ _ _ _ H)).
Defined.

Lemma executor_report_persisted_witness :
  exists (c : content) (test_data : dict) (test_cases : list value)
         (results : list Stats.test),
    get "out/generated_tests_20250101_120000.json" (files Samples.tests_world)
    = Some c /\
    loads_content Json.loads dump_text c = Some (VDict test_data) /\
    get_or "enhanced_test_cases"
      (get_or "generated_tests" (VList []) test_data) test_data
    = VList test_cases /\
    test_cases <> [] /\
    run_tests (sample_env "20250101_120000" "first") test_cases
    = Returned results /\
    List.length results = List.length test_cases /\
    report_of "EXEC_20250101_120000" [Samples.passed_result]
    = report_of ("EXEC_" ++ now_execution (sample_env "20250101_120000" "first"))
        results /\
    written "out/execution_report_EXEC_20250101_120000.json"
      (DumpedReport (report_of "EXEC_20250101_120000" [Samples.passed_result]))
      Samples.tests_world
    = written
        (artifact_path "out" "execution_report"
           ("EXEC_" ++ now_execution (sample_env "20250101_120000" "first")))
        (DumpedReport (report_of "EXEC_20250101_120000" [Samples.passed_result]))
        Samples.tests_world.
Proof.
  assert (H : executor_execute Json.loads dump_text
                (sample_env "20250101_120000" "first")
                "out/generated_tests_20250101_120000.json" "out"
                Samples.tests_world
              = (Returned (ExecutionReport
                   (report_of "EXEC_20250101_120000" [Samples.passed_result])),
                 written "out/execution_report_EXEC_20250101_120000.json"
                   (DumpedReport
                      (report_of "EXEC_20250101_120000" [Samples.passed_result]))
                   Samples.tests_world))
    by (vm_compute; reflexivity).
  exact (@executor_report_persisted Json.loads dump_text
           (sample_env "20250101_120000" "first") _ _ _ _ _ H).
Defined.

End ReportFacts.

(* ------------------------------------------------------------------ *)
(** ** The analysis and its summary *)
(* ------------------------------------------------------------------ *)

Module AnalysisFacts.
Import Py PyFacts Pipeline Orchestrator.

Section AnalyzeRun.
Variable json_loads : string -> option value.
Variable num_str : Q -> string.
Variable fmt_1f : Q -> string.
Variable e : env.


End AnalyzeRun.


End AnalysisFacts.

(* ------------------------------------------------------------------ *)
(** ** The order of a run *)
(* ------------------------------------------------------------------ *)

Module RunFacts.
Import Py PyFacts Pipeline Orchestrator PipelineSpec PipelineFacts.

Lemma stages_app (t1 t2 : list event) :
  stages_of (t1 ++ t2) = (stages_of t1 ++ stages_of t2)%list.
Proof. unfold stages_of. apply flat_map_app. Qed.

Lemma stages_logged (s : stage) (w : world) :
  stages_of (trace (logged (Invoked s) w)) = (stages_of (trace w) ++ [s])%list.
Proof. unfold logged. cbn [trace]. rewrite stages_app. reflexivity. Qed.

Lemma stages_written (p : string) (c : content) (w : world) :
  stages_of (trace (written p c w)) = stages_of (trace w).
Proof.
  unfold written. cbn [trace]. rewrite stages_app. cbn. apply app_nil_r.
Qed.

Lemma has_written (p p' : string) (c : content) (w : world) :
  has p (files w) = true -> has p (files (written p' c w)) = true.
Proof.
  unfold written. cbn [files]. intro H.
  destruct (String.eqb_spec p p') as [->|Hne].
  - unfold has. rewrite get_set_same. reflexivity.
  - rewrite has_set_other; [exact H | exact Hne].
Qed.

Lemma bind_assoc (A B C : Type) (m : prog A) (f : A -> prog B)
  (g : B -> prog C) (w : world) :
  and_then (and_then m f) g w = and_then m (fun a => and_then (f a) g) w.
Proof. unfold and_then. destruct (m w) as [[a|x] w']; reflexivity. Qed.

(** *** Programs that invoke no stage and remove no file *)

Section Quiet.

Lemma silent_ret (A : Type) (a : A) : silent (ret a).
Proof. intro w. reflexivity. Qed.

Lemma silent_raise (A : Type) (exn : string) : silent (@raise A exn).
Proof. intro w. reflexivity. Qed.

Lemma silent_lift (A : Type) (o : outcome A) : silent (lift o).
Proof. intro w. reflexivity. Qed.

Lemma silent_read (p : string) : silent (read_file p).
Proof. intro w. reflexivity. Qed.

Lemma silent_exists (p : string) : silent (path_exists p).
Proof. intro w. reflexivity. Qed.

Lemma silent_write (p : string) (c : content) : silent (write_file p c).
Proof. intro w. apply stages_written. Qed.

Lemma silent_bind (A B : Type) (m : prog A) (f : A -> prog B) :
  silent m -> (forall a, silent (f a)) -> silent (and_then m f).
Proof.
  intros Hm Hf w. unfold and_then.
  specialize (Hm w). destruct (m w) as [[a|exn] w']; cbn [snd] in *.
  - rewrite (Hf a w'). exact Hm.
  - exact Hm.
Qed.

Lemma keeps_ret (A : Type) (a : A) : keeps_files (ret a).
Proof. intros w p H. exact H. Qed.

Lemma keeps_raise (A : Type) (exn : string) : keeps_files (@raise A exn).
Proof. intros w p H. exact H. Qed.

Lemma keeps_lift (A : Type) (o : outcome A) : keeps_files (lift o).
Proof. intros w p H. exact H. Qed.

Lemma keeps_read (p : string) : keeps_files (read_file p).
Proof. intros w p' H. exact H. Qed.

Lemma keeps_exists (p : string) : keeps_files (path_exists p).
Proof. intros w p' H. exact H. Qed.

Lemma keeps_write (p : string) (c : content) : keeps_files (write_file p c).
Proof. intros w p' H. apply has_written. exact H. Qed.

Lemma keeps_invoke (s : stage) : keeps_files (invoke s).
Proof. intros w p H. exact H. Qed.

Lemma keeps_bind (A B : Type) (m : prog A) (f : A -> prog B) :
  keeps_files m -> (forall a, keeps_files (f a)) -> keeps_files (and_then m f).
Proof.
  intros Hm Hf w p H. unfold and_then.
  specialize (Hm w p H). destruct (m w) as [[a|exn] w']; cbn [snd] in *.
  - apply Hf. exact Hm.
  - exact Hm.
Qed.

End Quiet.

Ltac quiet :=
  repeat first
    [ apply silent_ret | apply silent_raise | apply silent_lift
    | apply silent_read | apply silent_exists | apply silent_write
    | apply silent_bind; [|intro]
    | apply keeps_ret | apply keeps_raise | apply keeps_lift
    | apply keeps_read | apply keeps_exists | apply keeps_write
    | apply keeps_invoke
    | apply keeps_bind; [|intro]
    | match goal with
      | |- silent (if ?b then _ else _) => destruct b
      | |- silent (match ?x with _ => _ end) => destruct x
      | |- keeps_files (if ?b then _ else _) => destruct b
      | |- keeps_files (match ?x with _ => _ end) => destruct x
      end ].

Section QuietStages.
Variable json_loads : string -> option value.
Variable dumps : content -> string.
Variable num_str : Q -> string.
Variable fmt_1f : Q -> string.
Variable e : env.

Lemma silent_generator (inputs : generator_inputs) :
  silent (generator_execute json_loads dumps e inputs).
Proof. unfold generator_execute, resolve_gap_analysis. quiet. Qed.

Lemma silent_executor (test_cases_path dir : string) :
  silent (executor_execute json_loads dumps e test_cases_path dir).
Proof. unfold executor_execute. quiet. Qed.

Lemma silent_analyze (execution_report_path : string) :
  silent (analyze json_loads num_str fmt_1f e execution_report_path).
Proof. unfold analyze. quiet. Qed.


Lemma keeps_executor (test_cases_path dir : string) :
  keeps_files (executor_execute json_loads dumps e test_cases_path dir).
Proof. unfold executor_execute. quiet. Qed.

Lemma keeps_analyze (execution_report_path : string) :
  keeps_files (analyze json_loads num_str fmt_1f e execution_report_path).
Proof. unfold analyze. quiet. Qed.

End QuietStages.

Section Order.
Variable json_loads : string -> option value.
Variable dumps : content -> string.
Variable num_str : Q -> string.
Variable fmt_1f : Q -> string.
Variable e : env.
Variable cfg : config.

(** X14.  Whatever a run does, returns or raises, the stages it invokes
    are the first ones of the pipeline, each once and in its order: gap
    analysis, generation, execution, analysis.  A run that returns has
    invoked at least the first two; it reports an execution only if the
    execution was invoked, and an analysis only if all four were, and
    then together with the report of the execution. *)
Theorem stages_in_order (w : world) :
  exists k : nat,
    stages_of (trace (snd (run_pipeline json_loads dumps num_str fmt_1f e cfg w)))
    = (stages_of (trace w) ++ firstn k pipeline_stages)%list /\
    forall result,
      fst (run_pipeline json_loads dumps num_str fmt_1f e cfg w) = Returned result ->
      (2 <= k)%nat /\
      (r_execution_report result <> None -> (3 <= k)%nat) /\
      (r_analysis_summary result <> None ->
       k = 4%nat /\ exists report,
                      r_execution_report result = Some (ExecutionReport report)).
Proof.
  unfold run_pipeline, required.
  destruct (baseline_tests_path cfg) as [baseline|];
    [|exists 0%nat; cbn; rewrite app_nil_r; split; [reflexivity|discriminate]].
  destruct (app_model_path cfg) as [app_model|];
    [|exists 0%nat; cbn; rewrite app_nil_r; split; [reflexivity|discriminate]].
  do 3 run_step.
  set (w1 := logged (Invoked GapAnalysis) w).
  assert (S1 : stages_of (trace w1) = (stages_of (trace w) ++ [GapAnalysis])%list)
    by apply stages_logged.
  destruct (analyzer_execute dumps e baseline app_model w1) as [[gap|x] w2] eqn:E2.
  2:{ erewrite bind_raised by exact E2.
      pose proof (analyzer_world dumps e baseline app_model w1) as H.
      rewrite E2 in H. cbn [snd] in *. subst w2.
      exists 1%nat. split; [exact S1|discriminate]. }
  erewrite bind_returned by exact E2.
  pose proof (analyzer_world dumps e baseline app_model w1) as H2.
  rewrite E2 in H2. cbn [snd] in H2. subst w2.
  cbn [in_output_file].
  set (dir := Stats.or_default (output_dir cfg) "src/data/output").
  set (tests_file := artifact_path dir "generated_tests" (now_generated_tests e)).
  run_step.
  set (w3 := written (artifact_path dir "gap_analysis" (now_gap_analysis e))
               (Dumped gap) w1).
  assert (S3 : stages_of (trace w3) = (stages_of (trace w) ++ [GapAnalysis])%list)
    by (unfold w3; rewrite stages_written; exact S1).
  destruct (log_gap_analysis gap) as [[]|x].
  2:{ erewrite bind_raised by reflexivity.
      exists 1%nat. split; [exact S3|discriminate]. }
  do 2 run_step.
  set (w4 := logged (Invoked Generation) w3).
  assert (S4 : stages_of (trace w4)
               = (stages_of (trace w) ++ [GapAnalysis; Generation])%list).
  { unfold w4. rewrite stages_logged, S3, <- app_assoc. reflexivity. }
  match goal with
  | |- context [generator_execute json_loads dumps e ?i] => set (inputs := i)
  end.
  pose proof (silent_generator json_loads dumps e inputs w4) as S5.
  destruct (generator_execute json_loads dumps e inputs w4)
    as [[generated|x] w5] eqn:E5; cbn [snd] in S5.
  2:{ erewrite bind_raised by exact E5.
      exists 2%nat. split; [cbn [snd]; rewrite S5; exact S4|discriminate]. }
  erewrite bind_returned by exact E5.
  destruct (log_generated_tests generated) as [[]|x].
  2:{ erewrite bind_raised by reflexivity.
      exists 2%nat. split; [cbn [snd]; rewrite S5; exact S4|discriminate]. }
  run_step.
  assert (S5' : stages_of (trace w5)
                = (stages_of (trace w) ++ [GapAnalysis; Generation])%list)
    by (rewrite S5; exact S4).
  clear S5 S4 S3 S1 E2 E5.
  erewrite bind_returned by reflexivity.
  destruct (has tests_file (files w5)) eqn:P5.
  - (* the generated tests are on file *)
    rewrite !bind_assoc. run_step. rewrite ?bind_assoc.
    set (w6 := logged (Invoked Execution) w5).
    assert (S6 : stages_of (trace w6)
                 = (stages_of (trace w)
                    ++ [GapAnalysis; Generation; Execution])%list).
    { unfold w6. rewrite stages_logged, S5', <- app_assoc. reflexivity. }
    assert (P6 : has tests_file (files w6) = true) by exact P5.
    pose proof (silent_executor json_loads dumps e tests_file dir w6) as S7.
    pose proof (keeps_executor json_loads dumps e tests_file dir w6 _ P6) as P7.
    destruct (executor_execute json_loads dumps e tests_file dir w6)
      as [[report|x] w7] eqn:E7; cbn [snd] in S7, P7.
    2:{ erewrite bind_raised by exact E7.
        exists 3%nat. split; [cbn [snd]; rewrite S7; exact S6|discriminate]. }
    erewrite bind_returned by exact E7.
    do 2 (erewrite bind_returned by reflexivity). rewrite P7.
    destruct report as [msg|report].
    + do 2 (erewrite bind_returned by reflexivity). rewrite P7.
      exists 3%nat. split; [cbn [snd ret]; rewrite S7; exact S6|].
      intros result H. injection H as <-.
      cbn [r_execution_report r_analysis_summary].
      split; [lia|]. split; [intros _; lia|]. intro H. contradiction.
    + rewrite !bind_assoc. run_step. rewrite ?bind_assoc. run_step.
      rewrite ?bind_assoc.
      set (report_file := artifact_path dir "execution_report"
                            (or_empty (Stats.execution_id report))).
      set (w9 := logged (Invoked Analysis)
                   (written report_file (DumpedReport report) w7)).
      assert (S9 : stages_of (trace w9)
                   = (stages_of (trace w) ++ pipeline_stages)%list).
      { unfold w9. rewrite stages_logged, stages_written, S7, S6, <- app_assoc.
        reflexivity. }
      assert (P9 : has tests_file (files w9) = true).
      { unfold w9, logged. cbn [files]. apply has_written. exact P7. }
      pose proof (silent_analyze json_loads num_str fmt_1f e report_file w9) as S10.
      pose proof (keeps_analyze json_loads num_str fmt_1f e report_file w9 _ P9)
        as P10.
      destruct (analyze json_loads num_str fmt_1f e report_file w9)
        as [[result|x] w10] eqn:E10; cbn [snd] in S10, P10.
      2:{ erewrite bind_raised by exact E10.
          exists 4%nat. split; [cbn [snd]; rewrite S10; exact S9|discriminate]. }
      erewrite bind_returned by exact E10. rewrite ?bind_assoc.
      match goal with
      | |- context [lift ?o] => destruct o as [[]|x] eqn:Elen
      end.
      2:{ erewrite bind_raised by reflexivity.
          exists 4%nat. split; [cbn [snd]; rewrite S10; exact S9|discriminate]. }
      do 3 (erewrite bind_returned by reflexivity). rewrite P10.
      exists 4%nat. split; [cbn [snd ret]; rewrite S10; exact S9|].
      intros res H. injection H as <-.
      cbn [r_execution_report r_analysis_summary].
      split; [lia|]. split; [intros _; lia|]. intros _.
      split; [reflexivity|]. exists report. reflexivity.
  - (* no generated tests on file *)
    do 2 (erewrite bind_returned by reflexivity). rewrite P5.
    do 2 (erewrite bind_returned by reflexivity). rewrite P5.
    exists 2%nat. split; [cbn [snd ret]; exact S5'|].
    intros result H. injection H as <-.
    cbn [r_execution_report r_analysis_summary].
    split; [lia|]. split; intro H; contradiction.
Qed.



(** X16.  A configuration that lacks the path of the baseline tests
    makes the run raise a [KeyError] that names [baseline_tests_path],
    whether or not it has the path of the application model; one that
    has the former and lacks the latter makes it raise a [KeyError]
    that names [app_model_path].  In both cases no stage is invoked and
    the world is left as it was. *)
Theorem run_needs_its_paths (w : world) :
  (baseline_tests_path cfg = None ->
   run_pipeline json_loads dumps num_str fmt_1f e cfg w
   = (Raised "KeyError: baseline_tests_path", w)) /\
  (forall baseline,
     baseline_tests_path cfg = Some baseline -> app_model_path cfg = None ->
     run_pipeline json_loads dumps num_str fmt_1f e cfg w
     = (Raised "KeyError: app_model_path", w)).
Proof.
  unfold run_pipeline, required. split.
  - intros ->. reflexivity.
  - intros baseline -> ->. reflexivity.
Qed.

End Order.




Lemma run_needs_its_paths_witness :
  run_pipeline Json.loads dump_text Stats.show_fraction Stats.show_fraction
    (sample_env "20250101_120000" "first")
    {| baseline_tests_path := Some "data/baseline.json"; app_model_path := None;
       output_dir := None; validate_tests := None |} ready_world
  = (Raised "KeyError: app_model_path", ready_world).
Proof.
  apply (proj2 (@run_needs_its_paths Json.loads dump_text Stats.show_fraction
                  Stats.show_fraction (sample_env "20250101_120000" "first")
                  _ ready_world) "data/baseline.json");
    reflexivity.
Defined.

End RunFacts.

(* ------------------------------------------------------------------ *)
(** ** The generator and its result *)
(* ------------------------------------------------------------------ *)

Module GeneratorRunFacts.
Import Py PyFacts Pipeline Orchestrator PipelineFacts.

(** Whatever the reply, the chain returns an object with its tests. *)
Lemma recover_is_dict (json_loads : string -> option value)
  (generation_result : string) :
  exists d, Generator.recover json_loads generation_result = VDict d
            /\ has "generated_tests" d = true.
Proof.
  destruct (Generator.parsed json_loads (Generator.prepared generation_result))
    as [v|] eqn:Hp.
  - unfold Generator.recover, Generator.strategy3. rewrite Hp.
    destruct (truthy v) eqn:Ht.
    + apply (proj1 (@GeneratorFacts.structured_truthy json_loads _ _ Ht)).
    + apply GeneratorFacts.fallback_is_dict.
  - rewrite (@GeneratorFacts.recover_unparsed json_loads _ Hp).
    apply GeneratorFacts.harvest_is_dict.
Qed.

Section GeneratorRun.
Variable json_loads : string -> option value.
Variable dumps : content -> string.
Variable e : env.

(** X17.  With validation switched off, whatever the generator returns
    is either a result that holds [error], returned without any file
    being written, or an object that holds both [generated_tests] and
    [metadata]; in the latter case the only change to the world is that
    this very object is written to the output file, when one is
    named. *)
Theorem generator_result_shape (inputs : generator_inputs) (w w' : world)
  (result : value) :
  in_validate_tests inputs = false ->
  generator_execute json_loads dumps e inputs w = (Returned result, w') ->
  (py_in "error" result = Returned true /\ w' = w) \/
  (exists d,
     result = VDict d /\
     has "generated_tests" d = true /\ has "metadata" d = true /\
     w' = if (in_output_file inputs =? "")%string then w
          else written (in_output_file inputs) (Dumped result) w).
Proof.
  intro Hv.
  unfold generator_execute. rewrite Hv.
  unfold and_then at 1.
  destruct (resolve_gap_analysis json_loads dumps (in_gap_analysis inputs) w)
    as [[gap_analysis|x] w1] eqn:E1; [|discriminate].
  assert (Hw1 : w1 = w).
  { revert E1. unfold resolve_gap_analysis, and_then, read_file, ret, raise.
    repeat match goal with
           | |- context [match ?x with _ => _ end] =>
               lazymatch x with
               | context [match _ with _ => _ end] => fail
               | _ => destruct x
               end
           end; intro H; injection H as _ <-; reflexivity || discriminate. }
  subst w1.
  unfold and_then, lift, ret, read_file, write_file.
  destruct (py_in "error" (_parse_gap_analysis json_loads gap_analysis))
    as [[|]|x] eqn:Ein; try discriminate.
  - intro H. injection H as <- <-. left. split; [exact Ein|reflexivity].
  - destruct (get (in_app_model_path inputs) (files w)) as [model|].
    2:{ intro H. injection H as <- <-. left. split; reflexivity. }
    destruct (is_blank model).
    { intro H. injection H as <- <-. left. split; reflexivity. }
    destruct (missing_scenarios (_parse_gap_analysis json_loads gap_analysis))
      as [n|x]; [|discriminate].
    destruct (generation_crew e (_parse_gap_analysis json_loads gap_analysis)
                (text_of dumps model)) as [reply|x]; [|discriminate].
    destruct (recover_is_dict json_loads reply) as [d [Hd Hg]].
    rewrite Hd. unfold with_metadata.
    destruct (in_output_file inputs =? "")%string;
      intro H; injection H as <- <-; right;
      (eexists; split; [reflexivity|]; split; [|split; [|reflexivity]]).
    all: try (unfold has; rewrite get_set_same; reflexivity).
    all: rewrite has_set_other; [exact Hg | discriminate].
Qed.

End GeneratorRun.

Lemma generator_result_shape_witness :
  exists d,
    fst (generator_execute Json.loads dump_text
           (sample_env "20250101_120000" "first")
           {| in_gap_analysis := sample_gaps "first";
              in_app_model_path := "data/scenario.md";
              in_validate_tests := false;
              in_output_file := "out/generated_tests_20250101_120000.json" |}
           ready_world)
    = Returned (VDict d) /\
    has "generated_tests" d = true /\ has "metadata" d = true.
Proof.
  destruct (generator_execute Json.loads dump_text
              (sample_env "20250101_120000" "first")
              {| in_gap_analysis := sample_gaps "first";
                 in_app_model_path := "data/scenario.md";
                 in_validate_tests := false;
                 in_output_file := "out/generated_tests_20250101_120000.json" |}
              ready_world) as [[v|x] w'] eqn:E.
  - destruct (@generator_result_shape Json.loads dump_text
                (sample_env "20250101_120000" "first")
                {| in_gap_analysis := sample_gaps "first";
                   in_app_model_path := "data/scenario.md";
                   in_validate_tests := false;
                   in_output_file := "out/generated_tests_20250101_120000.json" |}
                _ _ _ eq_refl E)
      as [[He _]|[d [-> [Hg [Hm _]]]]].
    + exfalso. vm_compute in E. injection E as <- _.
      vm_compute in He. discriminate He.
    + exists d. repeat split; assumption.
  - exfalso. vm_compute in E. discriminate E.
Defined.

End GeneratorRunFacts.

(* ------------------------------------------------------------------ *)
(** ** The matcher *)
(* ------------------------------------------------------------------ *)

Module ReFacts.
Import Py Re ReSpec.

(** Whatever the matcher hands to its continuation is the rest of a
    match. *)
Lemma run_sound (A : Type) (r : regex) :
  forall (s : string) (g : option string)
         (k : string -> option string -> option A) (a : A),
    run r s g k = Some a ->
    exists s' g', matched r s g s' g' /\ k s' g' = Some a.
Proof.
  induction r as [|c|p|r1 IH1 r2 IH2|r1 IH1|r1 IH1]; intros s g k a H.
  - exists s, g. split; [constructor|exact H].
  - cbn [run] in H. destruct s as [|c' s']; [discriminate|].
    destruct (Ascii.eqb c c') eqn:E; [|discriminate].
    apply Ascii.eqb_eq in E. subst c'.
    exists s', g. split; [constructor|exact H].
  - cbn [run] in H. destruct s as [|c' s']; [discriminate|].
    destruct (p c') eqn:E; [|discriminate].
    exists s', g. split; [constructor; exact E|exact H].
  - cbn [run] in H.
    apply IH1 in H. destruct H as [s1 [g1 [M1 H]]].
    apply IH2 in H. destruct H as [s2 [g2 [M2 H]]].
    exists s2, g2. split; [econstructor; eassumption|exact H].
  - cbn [run] in H. revert H.
    generalize (String.length s) at 1. intro n. revert s g.
    induction n as [|n IHn]; intros s g H.
    + exists s, g. split; [constructor|exact H].
    + match type of H with
      | match ?x with _ => _ end = _ => destruct x as [a0|] eqn:E
      end.
      * injection H as ->.
        apply IH1 in E. destruct E as [s1 [g1 [M1 E]]].
        destruct (String.length s1 <? String.length s)%nat; [|discriminate].
        apply IHn in E. destruct E as [s2 [g2 [M2 E]]].
        exists s2, g2. split; [econstructor; eassumption|exact E].
      * exists s, g. split; [constructor|exact H].
  - cbn [run] in H.
    apply IH1 in H. destruct H as [s1 [g1 [M1 H]]].
    exists s1, (Some (take (String.length s - String.length s1) s)).
    split; [econstructor; exact M1|exact H].
Qed.

(** *** Texts *)

Lemma length_append (s t : string) :
  String.length (s ++ t) = (String.length s + String.length t)%nat.
Proof. induction s as [|c s IH]; cbn; [reflexivity | rewrite IH; reflexivity]. Qed.

Lemma append_assoc (s t u : string) : (s ++ t) ++ u = s ++ (t ++ u).
Proof. induction s as [|c s IH]; cbn; [reflexivity | rewrite IH; reflexivity]. Qed.

Lemma append_empty_r (s : string) : s ++ "" = s.
Proof. induction s as [|c s IH]; cbn; [reflexivity | rewrite IH; reflexivity]. Qed.

Lemma take_append (pre rest : string) :
  take (String.length (pre ++ rest) - String.length rest) (pre ++ rest) = pre.
Proof.
  rewrite length_append.
  replace (String.length pre + String.length rest - String.length rest)%nat
    with (String.length pre) by lia.
  induction pre as [|c pre IH]; cbn.
  - destruct rest; reflexivity.
  - rewrite IH. reflexivity.
Qed.

Lemma all_chars_append (p : ascii -> bool) (s t : string) :
  all_chars p (s ++ t) = all_chars p s && all_chars p t.
Proof.
  induction s as [|c s IH]; cbn; [reflexivity|].
  rewrite IH. apply andb_assoc.
Qed.

(** *** What a match consumes *)

Lemma matched_prefix (r : regex) (s s' : string) (g g' : option string) :
  matched r s g s' g' -> exists pre, s = pre ++ s'.
Proof.
  induction 1 as [s g|c s g|p c s g Hp|r1 r2 s s1 s2 g g1 g2 _ [p1 ->] _ [p2 ->]
                 |r s g|r s s1 s2 g g1 g2 _ [p1 ->] _ [p2 ->]
                 |r s s1 g g1 _ [p1 ->]].
  - exists "". reflexivity.
  - exists (String c ""). reflexivity.
  - exists (String c ""). reflexivity.
  - exists (p1 ++ p2). symmetry. apply append_assoc.
  - exists "". reflexivity.
  - exists (p1 ++ p2). symmetry. apply append_assoc.
  - exists p1. reflexivity.
Qed.

Lemma matched_lit (t s s' : string) (g g' : option string) :
  matched (Lit t) s g s' g' -> s = t ++ s' /\ g' = g.
Proof.
  revert s g. induction t as [|c t IH]; intros s g H; cbn [Lit] in H.
  - inversion H; subst. split; reflexivity.
  - inversion H as [| | |r1 r2 s0 s1 s2 g0 g1 g2 H1 H2| | |]; subst.
    inversion H1; subst.
    destruct (IH _ _ H2) as [-> ->]. split; reflexivity.
Qed.

Lemma matched_star_class (p : ascii -> bool) (s s' : string)
  (g g' : option string) :
  matched (Star (Class p)) s g s' g' ->
  exists pre, s = pre ++ s' /\ all_chars p pre = true /\ g' = g.
Proof.
  intro H. remember (Star (Class p)) as r eqn:Er.
  induction H as [| | | |r0 s g|r0 s s1 s2 g g1 g2 H1 _ H2 IH2|];
    try discriminate Er.
  - exists "". repeat split.
  - injection Er as ->.
    inversion H1; subst.
    destruct (IH2 eq_refl) as [pre [-> [Hall ->]]].
    exists (String c pre). cbn [all_chars]. rewrite Hall.
    repeat split. apply andb_true_iff. split; [assumption|reflexivity].
Qed.

Lemma matched_plus_class (p : ascii -> bool) (s s' : string)
  (g g' : option string) :
  matched (Plus (Class p)) s g s' g' ->
  exists pre, s = pre ++ s' /\ pre <> "" /\ all_chars p pre = true /\ g' = g.
Proof.
  unfold Plus. intro H.
  inversion H as [| | |r1 r2 s0 s1 s2 g0 g1 g2 H1 H2| | |]; subst.
  inversion H1; subst.
  destruct (matched_star_class H2) as [pre [-> [Hall ->]]].
  exists (String c pre). cbn [all_chars]. rewrite Hall.
  repeat split; [discriminate|].
  apply andb_true_iff. split; [assumption|reflexivity].
Qed.

(** A match of the field pattern captures a text that is not empty and
    holds no double quote. *)
Lemma field_pattern_group (name s rest : string) (g : option string) :
  match_here (field_pattern name) s = Some (rest, g) ->
  exists v, g = Some v /\ v <> "" /\ all_chars not_quote v = true.
Proof.
  unfold match_here. intro H.
  apply run_sound in H. destruct H as [s' [g' [M H]]].
  injection H as -> ->.
  unfold field_pattern in M.
  inversion M as [| | |r1 r2 s0 s1 s2 g0 g1 g2 M1 M2| | |]; subst. clear M.
  inversion M2 as [| | |r1 r2 s0 s3 s4 g0 g3 g4 M3 M4| | |]; subst. clear M2.
  inversion M4 as [| | |r1 r2 s0 s5 s6 g0 g5 g6 M5 M6| | |]; subst. clear M4.
  inversion M6 as [| | |r1 r2 s0 s7 s8 g0 g7 g8 M7 M8| | |]; subst. clear M6.
  inversion M8; subst. clear M8.
  inversion M7 as [| | | | | |r s0 s9 g0 g9 M9]; subst. clear M7.
  destruct (matched_plus_class M9) as [pre [-> [Hne [Hall _]]]].
  exists pre. rewrite take_append. repeat split; assumption.
Qed.

(** A match of the pattern of test identifiers starts with [TC-]. *)
Lemma test_id_pattern_prefix (s rest : string) (g : option string) :
  match_here test_id_pattern s = Some (rest, g) ->
  String.prefix "TC-" (take (String.length s - String.length rest) s) = true.
Proof.
  unfold match_here. intro H.
  apply run_sound in H. destruct H as [s' [g' [M H]]].
  injection H as -> ->.
  unfold test_id_pattern in M.
  inversion M as [| | |r1 r2 s0 s1 s2 g0 g1 g2 M1 M2| | |]; subst. clear M.
  apply (@matched_lit "TC-") in M1. destruct M1 as [-> _].
  inversion M2 as [| | |r1 r2 s0 s3 s4 g0 g3 g4 M3 M4| | |]; subst. clear M2.
  destruct (matched_plus_class M3) as [pre [-> [Hne _]]].
  destruct pre as [|c pre]; [contradiction|].
  cbn [append String.length].
  destruct (matched_prefix M4) as [p4 ->].
  rewrite !length_append.
  match goal with
  | |- context [take ?n _] =>
      replace n with (S (S (S (S (String.length pre + String.length p4)))))
        by (cbn [String.length]; lia)
  end.
  reflexivity.
Qed.

(** *** What [findall] returns *)

Lemma findall_aux_in (r : regex) (x : string) :
  forall (s : string) (skip : nat),
    In x (findall_aux r skip s) ->
    exists s0 rest g,
      match_here r s0 = Some (rest, g) /\
      x = if has_group r then or_empty g
          else take (String.length s0 - String.length rest) s0.
Proof.
  induction s as [|c s IH]; intros skip H; cbn [findall_aux] in H.
  - destruct skip; [|contradiction].
    destruct (match_here r "") as [[rest g]|] eqn:E; [|contradiction].
    destruct H as [<-|[]].
    exists "", rest, g. split; [exact E|].
    destruct (has_group r); reflexivity.
  - destruct skip as [|k]; [|apply (IH _ H)].
    destruct (match_here r (String c s)) as [[rest g]|] eqn:E; [|apply (IH _ H)].
    destruct H as [<-|H]; [|apply (IH _ H)].
    exists (String c s), rest, g. split; [exact E|reflexivity].
Qed.

End ReFacts.

(* ------------------------------------------------------------------ *)
(** ** Harvest, fallback and scan of the generator *)
(* ------------------------------------------------------------------ *)

Module HarvestFacts.
Import Py Re ReSpec ReFacts Generator.

Lemma has_group_lit (t : string) : has_group (Lit t) = false.
Proof. induction t as [|c t IH]; cbn; [reflexivity|exact IH]. Qed.

Lemma has_group_field (name : string) : has_group (field_pattern name) = true.
Proof.
  unfold field_pattern. cbn [has_group]. rewrite has_group_lit.
  reflexivity.
Qed.

(** What the field pattern finds is never empty and holds no quote. *)
Lemma findall_field_clean (name content v : string) :
  In v (findall (field_pattern name) content) ->
  negb (v =? "") && all_chars not_quote v = true.
Proof.
  unfold findall. intro H.
  apply findall_aux_in in H. destruct H as [s0 [rest [g [Hm ->]]]].
  rewrite has_group_field.
  apply field_pattern_group in Hm. destruct Hm as [w [-> [Hne Hall]]].
  cbn [or_empty]. rewrite Hall.
  apply String.eqb_neq in Hne. rewrite Hne. reflexivity.
Qed.

(** What the pattern of test identifiers finds starts with [TC-]. *)
Lemma findall_test_id_prefix (content v : string) :
  In v (findall test_id_pattern content) -> String.prefix "TC-" v = true.
Proof.
  unfold findall. intro H.
  apply findall_aux_in in H. destruct H as [s0 [rest [g [Hm ->]]]].
  change (has_group test_id_pattern) with false. cbn iota.
  apply (test_id_pattern_prefix _ Hm).
Qed.

(** *** Numbers in texts *)

Lemma digit_not_quote (c : ascii) : is_digit c = true -> not_quote c = true.
Proof.
  unfold is_digit, not_quote, between, code. intro H.
  destruct (Ascii.eqb c dquote) eqn:E; [|reflexivity].
  apply Ascii.eqb_eq in E. subst c. discriminate H.
Qed.

Lemma all_chars_impl (p p' : ascii -> bool) (s : string) :
  (forall c, p c = true -> p' c = true) ->
  all_chars p s = true -> all_chars p' s = true.
Proof.
  intro Hi. induction s as [|c s IH]; cbn; [reflexivity|].
  intro H. apply andb_true_iff in H. destruct H as [Hc Hs].
  rewrite (Hi c Hc), (IH Hs). reflexivity.
Qed.

Lemma digits_of_uint (u : Decimal.uint) :
  all_chars is_digit (NilEmpty.string_of_uint u) = true.
Proof.
  induction u; cbn [NilEmpty.string_of_uint all_chars]; try rewrite IHu;
    reflexivity.
Qed.

Lemma digits_of_nat (n : nat) : all_chars is_digit (str_of_nat n) = true.
Proof.
  unfold str_of_nat, NilZero.string_of_uint.
  destruct (Nat.to_uint n) eqn:E; try (rewrite <- E; apply digits_of_uint).
  reflexivity.
Qed.

Lemma str_of_nat_nonempty (n : nat) : str_of_nat n <> "".
Proof.
  unfold str_of_nat, NilZero.string_of_uint.
  destruct (Nat.to_uint n); discriminate.
Qed.

Lemma digits_of_zeros (n : nat) : all_chars is_digit (zeros n) = true.
Proof. induction n as [|n IH]; cbn; [reflexivity|exact IH]. Qed.

Lemma digits_of_fmt (n : nat) : all_chars is_digit (fmt_03d n) = true.
Proof.
  unfold fmt_03d. rewrite all_chars_append, digits_of_zeros, digits_of_nat.
  reflexivity.
Qed.

Lemma clean_prefixed (p t : string) :
  negb (p =? "") && all_chars not_quote p = true ->
  all_chars is_digit t = true ->
  negb (p ++ t =? "") && all_chars not_quote (p ++ t) = true.
Proof.
  intros Hp Ht. apply andb_true_iff in Hp. destruct Hp as [Hne Hall].
  rewrite all_chars_append, Hall, (@all_chars_impl is_digit not_quote t digit_not_quote Ht).
  destruct p as [|c p]; [discriminate Hne|reflexivity].
Qed.

Lemma item_or_clean (name content : string) (i : nat) (default : string) :
  negb (default =? "") && all_chars not_quote default = true ->
  negb (item_or (findall (field_pattern name) content) i default =? "")
  && all_chars not_quote (item_or (findall (field_pattern name) content) i default)
  = true.
Proof.
  intro Hd. unfold item_or.
  destruct (nth_in_or_default i (findall (field_pattern name) content) default)
    as [Hin| ->].
  - apply (findall_field_clean _ _ _ Hin).
  - exact Hd.
Qed.

(** X18.  Every record that field harvesting returns keeps under
    [test_id], [module], [scenario] and [priority] a text that is not
    empty and holds no double quote, be it harvested from the content
    or synthesized: the pattern captures one character at least and
    stops at the first quote. *)
Theorem harvested_fields_clean (content : string) :
  forallb (fun record =>
             clean_at "test_id" record && clean_at "module" record
             && clean_at "scenario" record && clean_at "priority" record)
          (records_of (_extract_structured_data content))
  = true.
Proof.
  rewrite GeneratorFacts.harvest_records.
  apply forallb_forall. intros record Hin.
  apply in_map_iff in Hin. destruct Hin as [i [<- _]].
  unfold clean_at, harvested_test, text_at.
  cbn [get String.eqb Ascii.eqb Bool.eqb].
  rewrite !item_or_clean; try reflexivity.
  - apply clean_prefixed; [reflexivity | apply digits_of_nat].
  - apply clean_prefixed; [reflexivity | apply digits_of_fmt].
Qed.

(** *** The synthetic fallback *)

Lemma capped_bounds (l : list string) : (1 <= capped l <= 10)%nat.
Proof. unfold capped. destruct l as [|x l]; cbn [List.length]; lia. Qed.

Lemma first_ten_or_length (l default : list string) :
  List.length default = 10%nat ->
  List.length (first_ten_or l default) = capped l.
Proof.
  intro H. unfold first_ten_or, capped.
  destruct l as [|x l]; [exact H|]. apply length_firstn.
Qed.

Lemma zip3_length (a b c : list string) :
  List.length (zip3 a b c)
  = Nat.min (Nat.min (List.length a) (List.length b)) (List.length c).
Proof. unfold zip3. rewrite !length_combine. reflexivity. Qed.

Lemma zip3_in_first (a b c : list string) (x y z : string) :
  In (x, y, z) (zip3 a b c) -> In x a.
Proof.
  unfold zip3. intro H.
  apply in_combine_l in H. apply in_combine_l in H. exact H.
Qed.

Lemma firstn_in (A : Type) (n : nat) (l : list A) (a : A) :
  In a (firstn n l) -> In a l.
Proof.
  intro H. rewrite <- (firstn_skipn n l). apply in_or_app. left. exact H.
Qed.

Lemma first_ten_or_in (l default : list string) (x : string) :
  In x (first_ten_or l default) -> In x l \/ In x default.
Proof.
  unfold first_ten_or. destruct l as [|y l]; [tauto|].
  intro H. left. apply (firstn_in _ _ _ H).
Qed.

(** The tests built from patterns: their number and their identifiers. *)
Lemma pattern_tests_shape (failed_content : string) :
  List.length (tests_from_patterns failed_content)
  = (if negb (failed_content =? "")%string
        && any_found (findall test_id_pattern failed_content)
             (findall (field_pattern "module") failed_content)
             (findall (field_pattern "scenario") failed_content)
     then Nat.min
            (Nat.min (capped (findall test_id_pattern failed_content))
                     (capped (findall (field_pattern "module") failed_content)))
            (capped (findall (field_pattern "scenario") failed_content))
     else 0%nat) /\
  forallb id_is_tc (tests_from_patterns failed_content) = true.
Proof.
  unfold tests_from_patterns.
  destruct (failed_content =? "")%string; [split; reflexivity|]. cbn [negb andb].
  set (ids := findall test_id_pattern failed_content).
  set (mods := findall (field_pattern "module") failed_content).
  set (scens := findall (field_pattern "scenario") failed_content).
  assert (Hids : forall x, In x ids -> String.prefix "TC-" x = true)
    by (intros x Hx; apply (findall_test_id_prefix _ _ Hx)).
  assert (Hgo :
    List.length
      (map pattern_test
         (zip3 (first_ten_or ids (map (fun i => "TC-GEN-" ++ fmt_03d i) (seq 0 10)))
               (first_ten_or mods (repeat "Banking System" 10))
               (first_ten_or scens
                  (map (fun i => "Test scenario " ++ str_of_nat (i + 1)) (seq 0 10)))))
    = Nat.min (Nat.min (capped ids) (capped mods)) (capped scens) /\
    forallb id_is_tc
      (map pattern_test
         (zip3 (first_ten_or ids (map (fun i => "TC-GEN-" ++ fmt_03d i) (seq 0 10)))
               (first_ten_or mods (repeat "Banking System" 10))
               (first_ten_or scens
                  (map (fun i => "Test scenario " ++ str_of_nat (i + 1)) (seq 0 10)))))
    = true).
  { split.
    - rewrite length_map, zip3_length, !first_ten_or_length; reflexivity.
    - apply forallb_forall. intros record Hin.
      apply in_map_iff in Hin. destruct Hin as [[[x y] z] [<- Hin]].
      apply zip3_in_first in Hin. apply first_ten_or_in in Hin.
      unfold id_is_tc, pattern_test, text_at.
      cbn [get String.eqb Ascii.eqb Bool.eqb].
      destruct Hin as [Hin|Hin]; [apply Hids; exact Hin|].
      apply in_map_iff in Hin. destruct Hin as [i [<- _]]. reflexivity. }
  clearbody ids mods scens.
  destruct ids as [|i0 ids']; [|exact Hgo].
  destruct mods as [|m0 mods']; [|exact Hgo].
  destruct scens as [|s0 scens']; [split; reflexivity|exact Hgo].
Qed.

Lemma template_ids : forallb id_is_tc template_tests = true.
Proof. vm_compute. reflexivity. Qed.

(** X19.  The synthetic fallback returns thirty tests when the content
    is empty or shows none of its three patterns.  Otherwise it returns
    as many tests as the shortest of the three lists of findings has,
    each list being cut to ten and counting as ten when it is empty:
    between one and ten tests.  In every case the identifier of each
    test starts with [TC-], and the summary counts the tests returned
    and tells whether there was any content. *)
Theorem fallback_tests_shape (failed_content : string) :
  List.length (records_of (_create_fallback_tests failed_content))
  = (if negb (failed_content =? "")%string
        && any_found (findall test_id_pattern failed_content)
             (findall (field_pattern "module") failed_content)
             (findall (field_pattern "scenario") failed_content)
     then Nat.min
            (Nat.min (capped (findall test_id_pattern failed_content))
                     (capped (findall (field_pattern "module") failed_content)))
            (capped (findall (field_pattern "scenario") failed_content))
     else 30%nat) /\
  (1 <= List.length (records_of (_create_fallback_tests failed_content)) <= 30)%nat /\
  (negb (failed_content =? "")%string
   && any_found (findall test_id_pattern failed_content)
        (findall (field_pattern "module") failed_content)
        (findall (field_pattern "scenario") failed_content) = true ->
   (List.length (records_of (_create_fallback_tests failed_content)) <= 10)%nat) /\
  forallb id_is_tc (records_of (_create_fallback_tests failed_content)) = true /\
  match _create_fallback_tests failed_content with
  | VDict d =>
      get "test_summary" d
      = Some (VDict
          [("total_tests",
            VInt (Z.of_nat
                    (List.length
                       (records_of (_create_fallback_tests failed_content)))));
           ("fallback_reason",
            VStr "JSON parsing failed, used intelligent content analysis");
           ("generated_from_content", VBool (negb (failed_content =? "")))])
  | _ => False
  end.
Proof.
  destruct (pattern_tests_shape failed_content) as [Hlen Hids].
  unfold _create_fallback_tests.
  cbn [records_of get String.eqb Ascii.eqb Bool.eqb].
  pose proof (capped_bounds (findall test_id_pattern failed_content)) as Bi.
  pose proof (capped_bounds (findall (field_pattern "module") failed_content)) as Bm.
  pose proof (capped_bounds (findall (field_pattern "scenario") failed_content)) as Bs.
  destruct (negb (failed_content =? "")
            && any_found (findall test_id_pattern failed_content)
                 (findall (field_pattern "module") failed_content)
                 (findall (field_pattern "scenario") failed_content)) eqn:Efound.
  - (* the tests found *)
    destruct (tests_from_patterns failed_content) as [|t0 found] eqn:Ef;
      [cbn [List.length] in Hlen; lia|].
    assert (Hall : firstn 30 (t0 :: found) = t0 :: found)
      by (apply firstn_all2; lia).
    rewrite Hall.
    split; [exact Hlen|]. split; [lia|]. split; [intros _; lia|].
    split; [exact Hids | reflexivity].
  - (* the template *)
    destruct (tests_from_patterns failed_content) as [|t0 found] eqn:Ef;
      [|discriminate Hlen].
    split; [reflexivity|]. split; [cbn; lia|]. split; [discriminate|].
    split; [apply template_ids | reflexivity].
Qed.

(** *** The scan for a balanced object *)

Lemma code_eqb (c : ascii) (n : nat) :
  (n < 256)%nat -> (code c =? n)%nat = Ascii.eqb c (ascii_of_nat n).
Proof.
  intro Hn. unfold code.
  destruct (Ascii.eqb c (ascii_of_nat n)) eqn:E.
  - apply Ascii.eqb_eq in E. subst c.
    rewrite nat_ascii_embedding by exact Hn. apply Nat.eqb_refl.
  - apply Nat.eqb_neq. intro H. apply Ascii.eqb_neq in E. apply E.
    rewrite <- H. symmetry. apply ascii_nat_embedding.
Qed.

Lemma scan_braces_spec (s : string) :
  forall (k : Z) (t : string),
    (0 < k)%Z -> scan_braces k s = Some t ->
    (exists rest, s = t ++ rest) /\
    (k + Z.of_nat (count_char "{" t) - Z.of_nat (count_char "}" t) = 0)%Z /\
    forall n, (n < String.length t)%nat ->
              (0 < k + Z.of_nat (count_char "{" (take n t))
                   - Z.of_nat (count_char "}" (take n t)))%Z.
Proof.
  induction s as [|c r IH]; intros k t Hk H; cbn [scan_braces] in H;
    [discriminate|].
  rewrite !code_eqb in H by lia.
  change (ascii_of_nat 123) with "{"%char in H.
  change (ascii_of_nat 125) with "}"%char in H.
  assert (Hstep : forall k' t',
    (0 < k')%Z -> scan_braces k' r = Some t' ->
    (k' = k + (if Ascii.eqb c "{" then 1 else 0)
            - (if Ascii.eqb c "}" then 1 else 0))%Z ->
    (exists rest, String c r = String c t' ++ rest) /\
    (k + Z.of_nat (count_char "{" (String c t'))
     - Z.of_nat (count_char "}" (String c t')) = 0)%Z /\
    forall n, (n < String.length (String c t'))%nat ->
              (0 < k + Z.of_nat (count_char "{" (take n (String c t')))
                   - Z.of_nat (count_char "}" (take n (String c t'))))%Z).
  { intros k' t' Hk' Ht' Ek'.
    destruct (IH k' t' Hk' Ht') as [[rest ->] [Hsum Hpre]].
    split; [exists rest; reflexivity|].
    cbn [count_char]. split.
    - destruct (Ascii.eqb c "{"); destruct (Ascii.eqb c "}"); lia.
    - intros [|n] Hn; cbn [take count_char]; [lia|].
      cbn [String.length] in Hn.
      specialize (Hpre n ltac:(lia)).
      destruct (Ascii.eqb c "{"); destruct (Ascii.eqb c "}"); lia. }
  destruct (Ascii.eqb c "{") eqn:Eo.
  - apply Ascii.eqb_eq in Eo. subst c. cbn [Ascii.eqb Bool.eqb andb] in *.
    destruct (scan_braces (k + 1) r) as [t'|] eqn:E; [|discriminate].
    injection H as <-.
    apply (Hstep (k + 1)%Z t'); [lia | exact E | lia].
  - destruct (Ascii.eqb c "}") eqn:Ec.
    + destruct (k - 1 =? 0)%Z eqn:Ez.
      * injection H as <-. apply Z.eqb_eq in Ez.
        split; [exists r; reflexivity|].
        cbn [count_char]. rewrite Eo, Ec. split; [cbn; lia|].
        intros [|n] Hn; [cbn; lia|]. cbn [String.length] in Hn. lia.
      * apply Z.eqb_neq in Ez.
        destruct (scan_braces (k - 1) r) as [t'|] eqn:E; [|discriminate].
        injection H as <-.
        apply (Hstep (k - 1)%Z t'); [lia | exact E | lia].
    + destruct (scan_braces k r) as [t'|] eqn:E; [|discriminate].
      injection H as <-.
      apply (Hstep k t'); [lia | exact E | lia].
Qed.

Lemma find_brace (s : string) :
  forall i, find "{" s = Some i ->
            count_char "{" (take i s) = 0%nat /\
            s = take i s ++ drop i s /\
            exists r, drop i s = String "{" r.
Proof.
  induction s as [|c s IH]; intros i H; cbn [find String.prefix] in H.
  - discriminate.
  - destruct (Ascii.ascii_dec "{" c) as [<-|Hne]; cbn [String.prefix] in H.
    + assert (Hp : String.prefix "" s = true) by (destruct s; reflexivity).
      rewrite Hp in H. injection H as <-. cbn. repeat split.
      exists s. reflexivity.
    + destruct (find "{" s) as [j|] eqn:E; [|discriminate].
      injection H as <-.
      destruct (IH j eq_refl) as [Hc [Hs [r Hr]]].
      cbn [take drop count_char append].
      assert (Hb : Ascii.eqb c "{" = false).
      { apply Ascii.eqb_neq. congruence. }
      rewrite Hb, Hc. repeat split.
      * f_equal. exact Hs.
      * exists r. exact Hr.
Qed.

(** X20.  When the scan for an object succeeds, what it returns is a
    piece of the reply that starts at its first opening brace and ends
    where the braces first balance: no opening brace comes before it,
    it holds as many opening as closing braces, and each of its proper
    beginnings holds more opening than closing ones.  Braces inside
    quoted texts count like the others. *)
Theorem balanced_object_spec (result_text t : string) :
  balanced_object result_text = Some t ->
  (exists pre post,
     result_text = pre ++ t ++ post /\ count_char "{" pre = 0%nat) /\
  String.prefix "{" t = true /\
  count_char "{" t = count_char "}" t /\
  forall n, (0 < n < String.length t)%nat ->
            (count_char "}" (take n t) < count_char "{" (take n t))%nat.
Proof.
  unfold balanced_object.
  destruct (find "{" result_text) as [i|] eqn:Ef; [|discriminate].
  destruct (find_brace _ Ef) as [Hpre [Hsplit [r Hr]]].
  rewrite Hr. cbn [scan_braces].
  rewrite code_eqb by lia. change (ascii_of_nat 123) with "{"%char.
  cbn [Ascii.eqb Bool.eqb andb].
  destruct (scan_braces (0 + 1) r) as [t'|] eqn:E; [|discriminate].
  intro H. injection H as <-.
  destruct (scan_braces_spec r (k := (0 + 1)%Z) ltac:(lia) E)
    as [[rest Hrest] [Hsum Hbegin]].
  split; [|split; [|split]].
  - exists (take i result_text), rest. split; [|exact Hpre].
    rewrite Hsplit at 1. rewrite Hr, Hrest. reflexivity.
  - cbn [String.prefix]. destruct (Ascii.ascii_dec "{" "{"); [|congruence].
    destruct t'; reflexivity.
  - cbn [count_char Ascii.eqb Bool.eqb andb]. lia.
  - intros [|n] [Hpos Hn]; [lia|]. cbn [String.length] in Hn.
    specialize (Hbegin n ltac:(lia)).
    cbn [take count_char Ascii.eqb Bool.eqb andb]. lia.
Qed.

Lemma balanced_object_spec_witness :
  count_char "{" "{a: {b: 1}}" = count_char "}" "{a: {b: 1}}".
Proof.
  assert (H : balanced_object "see {a: {b: 1}} and } more" = Some "{a: {b: 1}}")
    by (vm_compute; reflexivity).
  exact (proj1 (proj2 (proj2 (balanced_object_spec _ H)))).
Defined.

End HarvestFacts.

(* ------------------------------------------------------------------ *)
(** ** The whole of [analyze_results] *)
(* ------------------------------------------------------------------ *)

Module ResultsFacts.
Import Py PyFacts Analyze AnalyzeFacts Results.
Local Open Scope Q_scope.

(** *** Keys *)

Lemma key_eqb_refl (v : value) : hashable v = true -> key_eqb v v = true.
Proof.
  destruct v as [|b|z|x|s|l|d]; cbn; try discriminate; intros _;
    try reflexivity.
  - destruct b; reflexivity.
  - apply Qeq_bool_iff. reflexivity.
  - apply Qeq_bool_iff. reflexivity.
  - apply String.eqb_refl.
Qed.

Lemma key_eqb_sym (a b : value) : key_eqb a b = key_eqb b a.
Proof.
  assert (Hq : forall x y, Qeq_bool x y = Qeq_bool y x).
  { intros x y. destruct (Qeq_bool x y) eqn:E.
    - apply Qeq_bool_iff in E. symmetry. apply Qeq_bool_iff. symmetry. exact E.
    - destruct (Qeq_bool y x) eqn:E'; [|reflexivity].
      apply Qeq_bool_iff in E'. symmetry in E'. apply Qeq_bool_iff in E'.
      congruence. }
  destruct a as [|b1|z1|x1|s1|l1|d1]; destruct b as [|b2|z2|x2|s2|l2|d2];
    cbn; try reflexivity; try apply Hq.
  apply String.eqb_sym.
Qed.

Lemma key_eqb_trans (a b c : value) :
  key_eqb a b = true -> key_eqb b c = true -> key_eqb a c = true.
Proof.
  assert (Hq : forall x y z, Qeq_bool x y = true -> Qeq_bool y z = true ->
                             Qeq_bool x z = true).
  { intros x y z H1 H2. apply Qeq_bool_iff in H1, H2. apply Qeq_bool_iff.
    rewrite H1. exact H2. }
  destruct a as [|b1|z1|x1|s1|l1|d1]; destruct b as [|b2|z2|x2|s2|l2|d2];
    cbn; try discriminate; destruct c as [|b3|z3|x3|s3|l3|d3];
    cbn; try discriminate; try reflexivity; try apply Hq.
  intros H1 H2. apply String.eqb_eq in H1, H2. subst. apply String.eqb_refl.
Qed.

(** *** The keys of a counter *)

Lemma ordpairs_snoc (A : Type) (R : A -> A -> Prop) (l : list A) (k : A) :
  ForallOrdPairs R l -> Forall (fun a => R a k) l ->
  ForallOrdPairs R (l ++ [k]).
Proof.
  induction 1 as [|a l Ha Hl IH]; intro Hk; cbn [app].
  - constructor; constructor.
  - inversion Hk as [|? ? Hak Hk']; subst.
    constructor; [|apply IH; exact Hk'].
    apply Forall_app. split; [exact Ha|]. constructor; [exact Hak|constructor].
Qed.

Lemma distinct_fold (l : list value) :
  forall seen : list value,
    ForallOrdPairs (fun a b => key_eqb b a = false) seen ->
    let keys := fold_left (fun seen k => if existsb (key_eqb k) seen then seen
                                         else (seen ++ [k])%list) l seen in
    ForallOrdPairs (fun a b => key_eqb b a = false) keys /\
    (forall k, In k keys -> In k seen \/ In k l) /\
    (forall k, In k seen -> In k keys) /\
    (forall x, In x l -> hashable x = true ->
               exists k, In k keys /\ key_eqb x k = true).
Proof.
  induction l as [|x l IH]; intros seen Hseen; cbn [fold_left].
  - repeat split; try tauto. intros x [].
  - destruct (existsb (key_eqb x) seen) eqn:E.
    + destruct (IH seen Hseen) as [H1 [H2 [H3 H4]]].
      split; [exact H1|]. split; [|split; [exact H3|]].
      * intros k Hk. destruct (H2 k Hk); [left|right; right]; assumption.
      * intros y [<-|Hy] Hh; [|apply H4; assumption].
        apply existsb_exists in E. destruct E as [k [Hk Hxk]].
        exists k. split; [apply H3; exact Hk|exact Hxk].
    + assert (Hsnoc : ForallOrdPairs (fun a b => key_eqb b a = false)
                        (seen ++ [x])).
      { apply ordpairs_snoc; [exact Hseen|].
        apply Forall_forall. intros a Ha.
        destruct (key_eqb x a) eqn:Exa; [|reflexivity].
        assert (Hex : existsb (key_eqb x) seen = true)
          by (apply existsb_exists; exists a; tauto).
        congruence. }
      destruct (IH (seen ++ [x])%list Hsnoc) as [H1 [H2 [H3 H4]]].
      split; [exact H1|]. split; [|split].
      * intros k Hk. destruct (H2 k Hk) as [Hin|Hin]; [|right; right; exact Hin].
        apply in_app_or in Hin. destruct Hin as [Hin|[<-|[]]];
          [left; exact Hin | right; left; reflexivity].
      * intros k Hk. apply H3. apply in_or_app. left. exact Hk.
      * intros y [<-|Hy] Hh; [|apply H4; assumption].
        exists x. split; [|apply key_eqb_refl; exact Hh].
        apply H3. apply in_or_app. right. left. reflexivity.
Qed.

Lemma distinct_spec (l : list value) :
  ForallOrdPairs (fun a b => key_eqb b a = false) (distinct l) /\
  (forall k, In k (distinct l) -> In k l) /\
  (forall x, In x l -> hashable x = true ->
             exists k, In k (distinct l) /\ key_eqb x k = true).
Proof.
  destruct (distinct_fold l (seen := []) (FOP_nil _)) as [H1 [H2 [_ H4]]].
  split; [exact H1|]. split; [|exact H4].
  intros k Hk. destruct (H2 k Hk) as [[]|H]. exact H.
Qed.

(** A value that has a key among pairwise different keys has one. *)
Lemma one_key (x : value) (keys : list value) :
  ForallOrdPairs (fun a b => key_eqb b a = false) keys ->
  (exists k, In k keys /\ key_eqb x k = true) ->
  List.length (filter (key_eqb x) keys) = 1%nat.
Proof.
  induction 1 as [|a rest Ha Hrest IH]; intros [k [Hin Hk]]; [contradiction|].
  cbn [filter]. destruct (key_eqb x a) eqn:Exa.
  - assert (Hnone : filter (key_eqb x) rest = []).
    { clear IH Hin. induction rest as [|b rest IHr]; [reflexivity|].
      inversion Ha as [|? ? Hab Ha']; subst.
      inversion Hrest as [|? ? Hb Hrest']; subst.
      cbn [filter]. destruct (key_eqb x b) eqn:Exb.
      - exfalso.
        assert (Hba : key_eqb b a = true).
        { apply key_eqb_trans with (b := x); [|exact Exa].
          rewrite key_eqb_sym. exact Exb. }
        congruence.
      - apply IHr; assumption. }
    rewrite Hnone. reflexivity.
  - destruct Hin as [<-|Hin]; [congruence|].
    apply IH. exists k. tauto.
Qed.

(** *** Counting the records key by key *)

Lemma filter_swap (A : Type) (p q : A -> bool) (l : list A) :
  filter p (filter q l) = filter q (filter p l).
Proof.
  induction l as [|x l IH]; [reflexivity|].
  cbn [filter]. destruct (q x) eqn:Eq, (p x) eqn:Ep; cbn [filter];
    rewrite ?Eq, ?Ep, IH; reflexivity.
Qed.

Lemma list_sum_cons (x : nat) (l : list nat) :
  list_sum (x :: l) = (x + list_sum l)%nat.
Proof. reflexivity. Qed.

Lemma count_by_key_step (A K : Type) (f : K -> A -> bool) (keys : list K)
      (r : A) (l : list A) :
  list_sum (map (fun k => List.length (filter (f k) (r :: l))) keys)
  = (List.length (filter (fun k => f k r) keys)
     + list_sum (map (fun k => List.length (filter (f k) l)) keys))%nat.
Proof.
  induction keys as [|k keys IH]; [reflexivity|].
  cbn [map]. rewrite !list_sum_cons, IH. cbn [filter].
  destruct (f k r); cbn [List.length]; lia.
Qed.

Lemma count_by_key (A K : Type) (f : K -> A -> bool) (keys : list K)
      (l : list A) :
  (forall r, In r l -> List.length (filter (fun k => f k r) keys) = 1%nat) ->
  list_sum (map (fun k => List.length (filter (f k) l)) keys) = List.length l.
Proof.
  induction l as [|r l IH]; intro Hone.
  - clear Hone. cbn [filter List.length]. induction keys as [|k keys IHk]; [reflexivity|].
    cbn [map]. rewrite list_sum_cons, IHk. reflexivity.
  - rewrite count_by_key_step, (Hone r (or_introl eq_refl)), IH.
    + reflexivity.
    + intros r' Hr'. apply Hone. right. exact Hr'.
Qed.

Lemma zsum_of_nat (K : Type) (g : K -> nat) (keys : list K) :
  zsum (map (fun k => Z.of_nat (g k)) keys) = Z.of_nat (list_sum (map g keys)).
Proof.
  induction keys as [|k keys IH]; [reflexivity|].
  cbn [map]. rewrite zsum_cons, list_sum_cons, IH. lia.
Qed.

Lemma zsum_sub3 (K : Type) (a b c : K -> Z) (keys : list K) :
  zsum (map (fun k => (a k - b k - c k)%Z) keys)
  = (zsum (map a keys) - zsum (map b keys) - zsum (map c keys))%Z.
Proof.
  induction keys as [|k keys IH]; [reflexivity|].
  cbn [map]. rewrite !zsum_cons, IH. lia.
Qed.

(** *** What the steps of the analysis need *)

Lemma as_records_returned (items : list value) (results : list dict) :
  as_records items = Returned results <-> items = map VDict results.
Proof.
  revert results. induction items as [|v items IH]; intro results.
  - cbn [as_records]. split.
    + intro H. inversion H. reflexivity.
    + destruct results; [reflexivity|discriminate].
  - cbn [as_records]. split.
    + destruct v; try discriminate. unfold bind.
      destruct (as_records items) as [rs|] eqn:E; [|discriminate].
      intro H. inversion H. subst. cbn [map]. f_equal.
      apply IH. reflexivity.
    + destruct results as [|r rs]; [discriminate|]. cbn [map].
      intro H. inversion H. subst. unfold bind.
      rewrite (proj2 (IH rs) eq_refl). reflexivity.
Qed.

Lemma column_returned (k : string) (results : list dict) (vs : list value) :
  column k results = Returned vs <-> map (get k) results = map Some vs.
Proof.
  revert vs. induction results as [|r results IH]; intro vs.
  - cbn [column map]. split.
    + intro H. inversion H. reflexivity.
    + destruct vs; [reflexivity|discriminate].
  - cbn [column map]. unfold item, bind. split.
    + destruct (get k r) as [v|]; [|discriminate].
      destruct (column k results) as [vs'|]; [|discriminate].
      intro H. inversion H. subst. cbn [map]. f_equal.
      apply IH. reflexivity.
    + destruct vs as [|v vs]; [discriminate|]. cbn [map].
      intro H. inversion H as [[Hv Hvs]]. rewrite Hv.
      rewrite (proj2 (IH vs) Hvs). reflexivity.
Qed.

Lemma column_in (k : string) (results : list dict) (vs : list value) (r : dict) :
  column k results = Returned vs -> In r results ->
  exists v, get k r = Some v /\ In v vs.
Proof.
  revert vs. induction results as [|r' results IH]; intros vs Hc Hin;
    [contradiction|].
  cbn [column] in Hc. unfold item, bind in Hc.
  destruct (get k r') as [v|] eqn:Ev; [|discriminate].
  destruct (column k results) as [vs'|] eqn:Ec; [|discriminate].
  inversion Hc. subst. destruct Hin as [<-|Hin].
  - exists v. split; [exact Ev|left; reflexivity].
  - destruct (IH vs' eq_refl Hin) as [w [Hw Hin']].
    exists w. split; [exact Hw|right; exact Hin'].
Qed.

Lemma column_exists (k : string) (results : list dict) :
  forallb (has k) results = true -> exists vs, column k results = Returned vs.
Proof.
  induction results as [|r results IH]; intro H.
  - exists []. reflexivity.
  - cbn [forallb] in H. apply andb_prop in H. destruct H as [Hr H].
    destruct (IH H) as [vs Hvs]. unfold has in Hr.
    destruct (get k r) as [v|] eqn:Ev; [|discriminate].
    exists (v :: vs). cbn [column]. unfold item, bind. rewrite Ev, Hvs.
    reflexivity.
Qed.

Lemma sum_times_needs (results : list dict) :
  forall (acc t : total),
    sum_times acc results = Returned t ->
    forall r, In r results ->
      exists v, get "execution_time" r = Some v /\ is_number v = true.
Proof.
  induction results as [|r' results IH]; intros acc t H r Hin;
    [contradiction|].
  cbn [sum_times] in H. unfold item, bind in H.
  destruct (get "execution_time" r') as [v|] eqn:Ev; [|discriminate].
  destruct (plus acc v) as [acc'|] eqn:Ep; [|discriminate].
  destruct Hin as [<-|Hin].
  - exists v. split; [exact Ev|].
    destruct acc, v; try discriminate; reflexivity.
  - exact (IH _ _ H r Hin).
Qed.

Lemma int_size_nonneg (r : dict) : (0 <= int_size r)%Z.
Proof.
  unfold int_size. destruct (get "execution_time" r) as [[| | | | | |]|]; lia.
Qed.

Lemma int_sizes_nonneg (results : list dict) :
  (0 <= zsum (map int_size results))%Z.
Proof.
  induction results as [|r results IH]; [cbn; lia|].
  cbn [map]. rewrite zsum_cons. pose proof (int_size_nonneg r). lia.
Qed.

(** A total of integers is no larger than their sizes together, so
    that moderate times are added without an overflow. *)
Lemma sum_times_moderate (results : list dict) :
  forall acc : total,
    (forall r, In r results ->
       exists v, get "execution_time" r = Some v /\ is_number v = true) ->
    (match acc with IntTotal a => Z.abs a | FloatTotal _ => 0 end
     + zsum (map int_size results) < float_limit)%Z ->
    exists t,
      sum_times acc results = Returned t /\
      (match t with IntTotal z => Z.abs z | FloatTotal _ => 0 end
       <= match acc with IntTotal a => Z.abs a | FloatTotal _ => 0 end
          + zsum (map int_size results))%Z.
Proof.
  induction results as [|r results IH]; intros acc Hnum Hsize.
  - exists acc. split; [reflexivity|]. cbn. destruct acc; lia.
  - destruct (Hnum r (or_introl eq_refl)) as [v [Ev Hv]].
    cbn [map] in Hsize |- *. rewrite zsum_cons in Hsize |- *.
    pose proof (int_sizes_nonneg results) as Hrest.
    pose proof (int_size_nonneg r) as Hr.
    assert (Hstep : exists acc',
              plus acc v = Returned acc' /\
              (match acc' with IntTotal z => Z.abs z | FloatTotal _ => 0 end
               <= match acc with IntTotal a => Z.abs a | FloatTotal _ => 0 end
                  + int_size r)%Z).
    { assert (Hv' : int_size r
                    = match v with
                      | VInt z => Z.abs z
                      | VBool _ => 1%Z
                      | _ => 0%Z
                      end)
        by (unfold int_size; rewrite Ev; reflexivity).
      rewrite Hv' in *. clear Hv'.
      destruct acc as [a|a], v as [|b|z|x|t|l|d]; try discriminate Hv;
        cbn [plus]; unfold float_of_int, bind.
      - eexists. split; [reflexivity|]. cbn. destruct b; lia.
      - eexists. split; [reflexivity|]. cbn. lia.
      - destruct (Z.ltb_spec (Z.abs a) float_limit); [|lia].
        eexists. split; [reflexivity|]. cbn. lia.
      - eexists. split; [reflexivity|]. cbn. lia.
      - destruct (Z.ltb_spec (Z.abs z) float_limit); [|lia].
        eexists. split; [reflexivity|]. cbn. lia.
      - eexists. split; [reflexivity|]. cbn. lia. }
    destruct Hstep as [acc' [Ep Hacc']].
    destruct (IH acc') as [t [Ht Hbound]].
    + intros r' Hr'. apply Hnum. right. exact Hr'.
    + lia.
    + exists t. split; [|lia].
      cbn [sum_times]. unfold item, bind. rewrite Ev, Ep. exact Ht.
Qed.

Lemma details_needs (failed : list dict) (details : list failure) :
  details_of_failures failed = Returned details ->
  List.length details = List.length failed /\
  forall f, In f failed ->
    has "test_id" f = true /\ has "name" f = true
    /\ has "failure_details" f = true.
Proof.
  revert details. induction failed as [|f' failed IH]; intros details H.
  - inversion H. split; [reflexivity|]. intros f [].
  - cbn [details_of_failures] in H. unfold item, bind in H.
    destruct (get "test_id" f') eqn:E1; [|discriminate].
    destruct (get "name" f') eqn:E2; [|discriminate].
    destruct (get "module" f') eqn:E3; [|discriminate].
    destruct (get "failure_details" f') eqn:E4; [|discriminate].
    destruct (details_of_failures failed) as [ds|] eqn:Ed; [|discriminate].
    inversion H. subst. destruct (IH ds eq_refl) as [Hlen Hall].
    split; [cbn [List.length]; rewrite Hlen; reflexivity|].
    intros f [<-|Hf]; [|apply Hall; exact Hf].
    unfold has. rewrite E1, E2, E4. tauto.
Qed.

Lemma details_exists (failed : list dict) :
  (forall f, In f failed ->
     has "test_id" f = true /\ has "name" f = true
     /\ has "module" f = true /\ has "failure_details" f = true) ->
  exists details, details_of_failures failed = Returned details.
Proof.
  induction failed as [|f failed IH]; intro H.
  - exists []. reflexivity.
  - destruct (H f (or_introl eq_refl)) as [H1 [H2 [H3 H4]]].
    destruct (IH (fun f' Hf' => H f' (or_intror Hf'))) as [ds Hds].
    unfold has in H1, H2, H3, H4.
    destruct (get "test_id" f) as [v1|] eqn:E1; [|discriminate].
    destruct (get "name" f) as [v2|] eqn:E2; [|discriminate].
    destruct (get "module" f) as [v3|] eqn:E3; [|discriminate].
    destruct (get "failure_details" f) as [v4|] eqn:E4; [|discriminate].
    eexists. cbn [details_of_failures]. unfold item, bind.
    rewrite E1, E2, E3, E4, Hds. reflexivity.
Qed.

Lemma column_from (k : string) (results : list dict) (vs : list value) (v : value) :
  column k results = Returned vs -> In v vs ->
  exists r, In r results /\ get k r = Some v.
Proof.
  revert vs. induction results as [|r' results IH]; intros vs Hc Hin.
  - inversion Hc. subst. contradiction.
  - cbn [column] in Hc. unfold item, bind in Hc.
    destruct (get k r') as [w|] eqn:Ew; [|discriminate].
    destruct (column k results) as [vs'|] eqn:Ec; [|discriminate].
    inversion Hc. subst. destruct Hin as [<-|Hin].
    + exists r'. split; [left; reflexivity|exact Ew].
    + destruct (IH vs' eq_refl Hin) as [r [Hr Hg]].
      exists r. split; [right; exact Hr|exact Hg].
Qed.

Lemma status_one (r : dict) :
  match status_is "PASS" r, status_is "FAIL" r, status_is "SKIPPED" r,
        other_status r with
  | true, false, false, false | false, true, false, false
  | false, false, true, false | false, false, false, true => True
  | _, _, _, _ => False
  end.
Proof.
  unfold other_status, status_is.
  destruct (get "status" r) as [[| | | |t| |]|]; cbn [negb orb]; try exact I.
  destruct (t =? "PASS") eqn:E1; destruct (t =? "FAIL") eqn:E2;
    destruct (t =? "SKIPPED") eqn:E3; cbn [negb orb]; try exact I;
    repeat match goal with
           | H : (_ =? _) = true |- _ => apply String.eqb_eq in H
           end; subst; discriminate.
Qed.

Lemma status_split (results : list dict) :
  List.length results
  = (List.length (filter (status_is "PASS") results)
     + List.length (filter (status_is "FAIL") results)
     + List.length (filter (status_is "SKIPPED") results)
     + List.length (filter other_status results))%nat.
Proof.
  induction results as [|r results IH]; [reflexivity|].
  cbn [filter List.length]. pose proof (status_one r) as H.
  destruct (status_is "PASS" r), (status_is "FAIL" r),
    (status_is "SKIPPED" r), (other_status r);
    try contradiction; cbn [List.length]; lia.
Qed.

Lemma failed_tests_split (results : list dict) :
  failed_tests (basic_metrics results)
  = (Z.of_nat (List.length (filter (status_is "FAIL") results))
     + Z.of_nat (List.length (filter other_status results)))%Z.
Proof.
  cbn [basic_metrics failed_tests]. rewrite !count_status_length.
  pose proof (status_split results). pose proof (passed_skipped_le results).
  destruct (Z.leb_spec 0 (Z.of_nat (List.length results)
                          - Z.of_nat (List.length
                                        (filter (status_is "SKIPPED") results))));
    lia.
Qed.

(** *** The modules of an analysis *)

Lemma in_module_key (r : dict) (m : value) (keys : list value) :
  get "module" r = Some m ->
  filter (fun k => in_module k r) keys = filter (key_eqb m) keys.
Proof.
  intro Hm. apply filter_ext. intro k. unfold in_module. rewrite Hm.
  reflexivity.
Qed.

Lemma modules_count (results sub : list dict) (modules : list value) :
  column "module" results = Returned modules ->
  forallb hashable modules = true ->
  (forall r, In r sub -> In r results) ->
  list_sum (map (fun k => List.length (filter (in_module k) sub))
                (distinct modules))
  = List.length sub.
Proof.
  intros Hc Hh Hsub. apply count_by_key. intros r Hr.
  destruct (@column_in _ _ _ _ Hc (Hsub r Hr)) as [m [Hm Hin]].
  rewrite (@in_module_key _ _ (distinct modules) Hm).
  destruct (distinct_spec modules) as [Hpairs [_ Hcover]].
  apply one_key; [exact Hpairs|].
  apply Hcover; [exact Hin|].
  rewrite forallb_forall in Hh. apply Hh. exact Hin.
Qed.

Lemma module_status_count (s : string) (results : list dict) (k : value) :
  count_status s (filter (in_module k) results)
  = Z.of_nat (List.length (filter (in_module k) (filter (status_is s) results))).
Proof. rewrite count_status_length, filter_swap. reflexivity. Qed.

Lemma module_failed (results : list dict) (k : value) :
  m_failed (stats_of_module results k)
  = (m_total (stats_of_module results k) - m_skipped (stats_of_module results k)
     - m_passed (stats_of_module results k))%Z.
Proof.
  cbn [stats_of_module m_failed m_total m_skipped m_passed].
  rewrite !count_status_length.
  pose proof (passed_skipped_le (filter (in_module k) results)). lia.
Qed.

Lemma module_rate (results : list dict) (k : value) :
  0 <= m_pass_rate (stats_of_module results k) /\
  m_pass_rate (stats_of_module results k) <= 100.
Proof.
  cbn [stats_of_module m_pass_rate].
  set (tests := filter (in_module k) results).
  destruct (0 <? Z.of_nat (List.length tests) - count_status "SKIPPED" tests)%Z
    eqn:E.
  - apply Z.ltb_lt in E. apply rate_bounds; [|exact E].
    rewrite !count_status_length in *.
    pose proof (passed_skipped_le tests). lia.
  - split; [apply Qle_refl|discriminate].
Qed.

Lemma filter_full (A : Type) (p : A -> bool) (l : list A) :
  List.length (filter p l) = List.length l -> forall x, In x l -> p x = true.
Proof.
  induction l as [|y l IH]; intros H x Hx; [contradiction|].
  cbn [filter] in H. pose proof (filter_length_le p l) as Hle.
  destruct (p y) eqn:Ey; cbn [List.length] in H; [|lia].
  destruct Hx as [<-|Hx]; [exact Ey|]. apply IH; [lia|exact Hx].
Qed.

Lemma filter_all (A : Type) (p : A -> bool) (l : list A) :
  (forall x, In x l -> p x = true) -> filter p l = l.
Proof.
  induction l as [|y l IH]; intro H; [reflexivity|].
  cbn [filter]. rewrite (H y (or_introl eq_refl)), IH; [reflexivity|].
  intros x Hx. apply H. right. exact Hx.
Qed.

Lemma filter_none (A : Type) (p : A -> bool) (l : list A) :
  (forall x, In x l -> p x = false) -> filter p l = [].
Proof.
  induction l as [|y l IH]; intro H; [reflexivity|].
  cbn [filter]. rewrite (H y (or_introl eq_refl)). apply IH.
  intros x Hx. apply H. right. exact Hx.
Qed.

Lemma rate_full (n : Z) :
  (0 < n)%Z -> (inject_Z n / inject_Z n) * 100 == 100.
Proof.
  intro Hn. unfold Qdiv. rewrite Qmult_inv_r; [reflexivity|].
  unfold Qeq. cbn. lia.
Qed.

Lemma pass_not_other (r : dict) :
  status_is "PASS" r = true ->
  status_is "FAIL" r = false /\ status_is "SKIPPED" r = false.
Proof.
  intro H. pose proof (status_one r) as Hone. rewrite H in Hone.
  destruct (status_is "FAIL" r), (status_is "SKIPPED" r), (other_status r);
    try contradiction; tauto.
Qed.

Lemma skipped_not_other (r : dict) :
  status_is "SKIPPED" r = true ->
  status_is "FAIL" r = false /\ status_is "PASS" r = false.
Proof.
  intro H. pose proof (status_one r) as Hone. rewrite H in Hone.
  destruct (status_is "PASS" r), (status_is "FAIL" r), (other_status r);
    try contradiction; tauto.
Qed.

Lemma details_spec (failed : list dict) (details : list failure) :
  details_of_failures failed = Returned details ->
  Forall2 (fun f r =>
             get "test_id" r = Some (f_test_id f) /\
             get "name" r = Some (f_name f) /\
             get "module" r = Some (f_module f) /\
             get "failure_details" r = Some (f_details f))
          details failed.
Proof.
  revert details. induction failed as [|r failed IH]; intros details H.
  - inversion H. constructor.
  - cbn [details_of_failures] in H. unfold item, bind in H.
    destruct (get "test_id" r) eqn:E1; [|discriminate].
    destruct (get "name" r) eqn:E2; [|discriminate].
    destruct (get "module" r) eqn:E3; [|discriminate].
    destruct (get "failure_details" r) eqn:E4; [|discriminate].
    destruct (details_of_failures failed) as [ds|] eqn:Ed; [|discriminate].
    inversion H. subst. constructor; [|apply IH; reflexivity].
    cbn [f_test_id f_name f_module f_details]. tauto.
Qed.

Lemma module_nonempty (results : list dict) (modules : list value) (k : value) :
  column "module" results = Returned modules ->
  forallb hashable modules = true ->
  In k (distinct modules) ->
  filter (in_module k) results <> [].
Proof.
  intros Hc Hh Hk. destruct (distinct_spec modules) as [_ [Hfrom _]].
  destruct (@column_from _ _ _ k Hc (Hfrom k Hk)) as [r [Hr Hg]].
  assert (Hin : In r (filter (in_module k) results)).
  { apply filter_In. split; [exact Hr|].
    unfold in_module. rewrite Hg. apply key_eqb_refl.
    rewrite forallb_forall in Hh. apply Hh. apply Hfrom. exact Hk. }
  intro E. rewrite E in Hin. contradiction.
Qed.

Lemma bind_returns (A B : Type) (m : outcome A) (f : A -> outcome B) (b : B) :
  Py.bind m f = Returned b -> exists a, m = Returned a /\ f a = Returned b.
Proof.
  destruct m as [a|exn]; cbn [bind]; [|discriminate].
  intro H. exists a. split; [reflexivity|exact H].
Qed.

Lemma complete_spec (r : dict) :
  complete r = true <->
  (exists v, get "execution_time" r = Some v /\ is_number v = true) /\
  (exists m, get "module" r = Some m /\ hashable m = true) /\
  (status_is "FAIL" r = true ->
   has "test_id" r = true /\ has "name" r = true
   /\ has "failure_details" r = true).
Proof.
  unfold complete. split.
  - intro H. apply andb_prop in H. destruct H as [H H3].
    apply andb_prop in H. destruct H as [H1 H2].
    split; [|split].
    + destruct (get "execution_time" r) as [v|]; [|discriminate].
      exists v. split; [reflexivity|exact H1].
    + destruct (get "module" r) as [m|]; [|discriminate].
      exists m. split; [reflexivity|exact H2].
    + intro Hf. rewrite Hf in H3. cbn [negb orb] in H3.
      apply andb_prop in H3. destruct H3 as [H3 H6].
      apply andb_prop in H3. tauto.
  - intros [[v [Hv Hx]] [[m [Hm Hh]] Hf]].
    rewrite Hv, Hx, Hm, Hh. cbn [andb].
    destruct (status_is "FAIL" r); [|reflexivity].
    destruct (Hf eq_refl) as [H1 [H2 H3]]. rewrite H1, H2, H3. reflexivity.
Qed.

Section Analysis.

Variable str_of : value -> string.
Variable fmt_1f : Q -> string.
Variable error_analyzer :
  list dict -> list (value * module_stats) -> outcome value.
Variable now : string.

Lemma analyze_loaded_inv (loaded : value) (a : analysis) :
  analyze_loaded str_of fmt_1f error_analyzer now loaded = Returned a ->
  exists items results average_time modules details,
    sized loaded = Returned items /\
    as_records items = Returned results /\
    (if (0 <? total_tests (basic_metrics results))%Z
     then total_time <- sum_times (IntTotal 0) results ;;
          average total_time (total_tests (basic_metrics results))
     else Returned 0) = Returned average_time /\
    column "module" results = Returned modules /\
    forallb hashable modules = true /\
    details_of_failures (filter (status_is "FAIL") results) = Returned details /\
    summary a = basic_metrics results /\
    module_results a
    = map (fun module => (module, stats_of_module results module))
          (distinct modules) /\
    failures a = details /\
    recommendations a
    = ((if qlt (pass_rate (basic_metrics results)) 90
        then [overall_recommendation] else [])
       ++ flat_map (module_recommendation str_of fmt_1f) (module_results a))%list /\
    analysis_of_failures a
    = match filter (status_is "FAIL") results with
      | [] => AllPassing
      | _ =>
          match error_analyzer (filter (status_is "FAIL") results)
                               (module_results a) with
          | Returned answer => Analyzed answer
          | Raised _ => AnalysisFailed details
          end
      end.
Proof.
  unfold analyze_loaded. intro H.
  apply bind_returns in H. destruct H as [items [E1 H]].
  apply bind_returns in H. destruct H as [results [E2 H]].
  cbv zeta in H.
  apply bind_returns in H. destruct H as [average_time [E3 H]].
  apply bind_returns in H. destruct H as [modules [E4 H]].
  destruct (forallb hashable modules) eqn:E5; cbn [negb] in H; [|discriminate].
  apply bind_returns in H. destruct H as [details [E6 H]].
  inversion H. subst a. clear H.
  exists items, results, average_time, modules, details.
  cbn [summary module_results failures recommendations analysis_of_failures].
  repeat (split; [reflexivity || assumption|]). reflexivity.
Qed.

Lemma module_sums (results : list dict) (modules : list value) :
  column "module" results = Returned modules ->
  forallb hashable modules = true ->
  zsum (map (fun k => m_total (stats_of_module results k)) (distinct modules))
  = Z.of_nat (List.length results) /\
  forall s,
    zsum (map (fun k => count_status s (filter (in_module k) results))
              (distinct modules))
    = count_status s results.
Proof.
  intros Hc Hh. split.
  - cbn [stats_of_module m_total].
    rewrite (zsum_of_nat (fun k => List.length (filter (in_module k) results))).
    rewrite (@modules_count results results modules Hc Hh); [reflexivity|tauto].
  - intro s.
    rewrite (map_ext _ _ (module_status_count s results)).
    rewrite (zsum_of_nat
               (fun k => List.length (filter (in_module k)
                                             (filter (status_is s) results)))).
    rewrite (@modules_count results (filter (status_is s) results) modules Hc Hh).
    + rewrite count_status_length. reflexivity.
    + intros r Hr. apply filter_In in Hr. tauto.
Qed.

(** X21.  The entries of [module_results] split the run between them:
    over the modules, the totals add up to [total_tests] of the
    summary, and the passed, failed and skipped counts to the
    summary's [passed_tests], [failed_tests] and [skipped_tests]. *)
Theorem modules_partition (loaded : value) (a : analysis) :
  analyze_loaded str_of fmt_1f error_analyzer now loaded = Returned a ->
  zsum (map (fun e => m_total (snd e)) (module_results a))
  = total_tests (summary a) /\
  zsum (map (fun e => m_passed (snd e)) (module_results a))
  = passed_tests (summary a) /\
  zsum (map (fun e => m_failed (snd e)) (module_results a))
  = failed_tests (summary a) /\
  zsum (map (fun e => m_skipped (snd e)) (module_results a))
  = skipped_tests (summary a).
Proof.
  intro H.
  destruct (@analyze_loaded_inv loaded a H)
    as (items & results & total_time & modules & details
        & _ & _ & _ & Hc & Hh & _ & Hs & Hm & _).
  rewrite Hs, Hm, !map_map. cbn [snd].
  destruct (@module_sums results modules Hc Hh) as [Htotal Hstatus].
  assert (Hpassed :
            zsum (map (fun k => m_passed (stats_of_module results k))
                      (distinct modules)) = count_status "PASS" results)
    by exact (Hstatus "PASS").
  assert (Hskipped :
            zsum (map (fun k => m_skipped (stats_of_module results k))
                      (distinct modules)) = count_status "SKIPPED" results)
    by exact (Hstatus "SKIPPED").
  split; [exact Htotal|]. split; [exact Hpassed|]. split; [|exact Hskipped].
  rewrite (map_ext _ _ (module_failed results)).
  rewrite (zsum_sub3 (fun k => m_total (stats_of_module results k))
                     (fun k => m_skipped (stats_of_module results k))
                     (fun k => m_passed (stats_of_module results k))).
  rewrite Htotal, Hpassed, Hskipped.
  cbn [basic_metrics failed_tests]. rewrite !count_status_length.
  pose proof (passed_skipped_le results).
  destruct (0 <=? Z.of_nat (List.length results)
                  - Z.of_nat (List.length (filter (status_is "SKIPPED") results)))%Z
    eqn:E; [reflexivity|].
  apply Z.leb_gt in E. lia.
Qed.

(** X22.  In [module_results] every module has one entry: no two
    keys are equal.  Each entry counts at least one test, its total is
    the sum of its passed, failed and skipped counts, none of which is
    negative, and its pass rate lies between 0 and 100. *)
Theorem module_entries_consistent (loaded : value) (a : analysis) :
  analyze_loaded str_of fmt_1f error_analyzer now loaded = Returned a ->
  ForallOrdPairs (fun k1 k2 => key_eqb k2 k1 = false)
                 (map fst (module_results a)) /\
  Forall (fun e =>
            (1 <= m_total (snd e))%Z /\
            (m_total (snd e)
             = m_passed (snd e) + m_failed (snd e) + m_skipped (snd e))%Z /\
            (0 <= m_passed (snd e))%Z /\ (0 <= m_failed (snd e))%Z /\
            (0 <= m_skipped (snd e))%Z /\
            0 <= m_pass_rate (snd e) /\ m_pass_rate (snd e) <= 100)
         (module_results a).
Proof.
  intro H.
  destruct (@analyze_loaded_inv loaded a H)
    as (items & results & total_time & modules & details
        & _ & _ & _ & Hc & Hh & _ & _ & Hm & _).
  rewrite Hm. destruct (distinct_spec modules) as [Hpairs [Hfrom _]].
  split.
  - rewrite map_map. cbn [fst]. rewrite map_id. exact Hpairs.
  - apply Forall_forall. intros e He. apply in_map_iff in He.
    destruct He as [k [<- Hk]]. cbn [snd].
    pose proof (module_failed results k) as Hfailed.
    pose proof (module_rate results k) as Hrate.
    assert (Hone : (1 <= m_total (stats_of_module results k))%Z).
    { destruct (@column_from _ _ _ k Hc (Hfrom k Hk)) as [r [Hr Hg]].
      assert (Hin : In r (filter (in_module k) results)).
      { apply filter_In. split; [exact Hr|].
        unfold in_module. rewrite Hg. apply key_eqb_refl.
        rewrite forallb_forall in Hh. apply Hh. apply Hfrom. exact Hk. }
      cbn [stats_of_module m_total].
      destruct (filter (in_module k) results); [contradiction|].
      cbn [List.length]. lia. }
    cbn [stats_of_module m_total m_passed m_skipped] in *.
    rewrite !count_status_length in *.
    pose proof (passed_skipped_le (filter (in_module k) results)).
    repeat split; try lia; tauto.
Qed.

Lemma analysis_needs (loaded : value) (a : analysis) :
  analyze_loaded str_of fmt_1f error_analyzer now loaded = Returned a ->
  analysable loaded = true.
Proof.
  intro H.
  destruct (@analyze_loaded_inv loaded a H)
    as (items & results & average_time & modules & details
        & E1 & E2 & E3 & Hc & Hh & Hd & _).
  unfold analysable. rewrite E1, E2. apply forallb_forall. intros r Hr.
  apply complete_spec. split; [|split].
  - assert (Hpos : (0 <? total_tests (basic_metrics results))%Z = true).
    { cbn [basic_metrics total_tests]. apply Z.ltb_lt.
      destruct results; [contradiction|cbn [List.length]; lia]. }
    rewrite Hpos in E3. apply bind_returns in E3.
    destruct E3 as [t [Et _]].
    exact (@sum_times_needs results (IntTotal 0) t Et r Hr).
  - destruct (@column_in _ _ _ _ Hc Hr) as [m [Hm Hin]].
    exists m. split; [exact Hm|].
    rewrite forallb_forall in Hh. apply Hh. exact Hin.
  - intro Hf. apply (proj2 (@details_needs _ _ Hd)).
    apply filter_In. split; assumption.
Qed.

Lemma analysis_given (loaded : value) :
  analysable loaded = true -> moderate loaded = true ->
  exists a, analyze_loaded str_of fmt_1f error_analyzer now loaded = Returned a.
Proof.
  unfold analysable, moderate, analyze_loaded.
  destruct (sized loaded) as [items|]; [|discriminate].
  cbv beta iota.
  destruct (as_records items) as [results|] eqn:E2; [|discriminate].
  intros Hall Hmod. rewrite forallb_forall in Hall. apply Z.ltb_lt in Hmod.
  assert (Hspec : forall r, In r results ->
            (exists v, get "execution_time" r = Some v
                       /\ is_number v = true) /\
            (exists m, get "module" r = Some m /\ hashable m = true) /\
            (status_is "FAIL" r = true ->
             has "test_id" r = true /\ has "name" r = true
             /\ has "failure_details" r = true))
    by (intros r Hr; apply complete_spec, Hall, Hr).
  assert (E3 : exists average_time,
            (if (0 <? total_tests (basic_metrics results))%Z
             then total_time <- sum_times (IntTotal 0) results ;;
                  average total_time (total_tests (basic_metrics results))
             else Returned 0) = Returned average_time).
  { destruct (Z.ltb_spec 0 (total_tests (basic_metrics results))) as [Hpos|_];
      [|exists 0; reflexivity].
    destruct (@sum_times_moderate results (IntTotal 0)
                (fun r Hr => proj1 (Hspec r Hr))) as [t [Et Hsize]];
      [cbv beta iota; lia|].
    rewrite Et. cbn [bind]. unfold average.
    destruct t as [z|x]; [|eexists; reflexivity].
    cbv beta iota in Hsize.
    destruct (Z.ltb_spec (Z.abs z)
                (total_tests (basic_metrics results) * float_limit));
      [eexists; reflexivity|].
    assert (0 < float_limit)%Z by (vm_compute; reflexivity). nia. }
  destruct E3 as [average_time E3].
  assert (Hhas : forallb (has "module") results = true).
  { apply forallb_forall. intros r Hr.
    destruct (proj1 (proj2 (Hspec r Hr))) as [m [Hm _]].
    unfold has. rewrite Hm. reflexivity. }
  destruct (@column_exists "module" results Hhas) as [modules Hc].
  assert (Hh : forallb hashable modules = true).
  { apply forallb_forall. intros m Hm.
    destruct (@column_from _ _ _ m Hc Hm) as [r [Hr Hg]].
    destruct (proj1 (proj2 (Hspec r Hr))) as [m' [Hm' Hh]].
    congruence. }
  destruct (@details_exists (filter (status_is "FAIL") results))
    as [details Hd].
  { intros f Hf. apply filter_In in Hf. destruct Hf as [Hf Hs].
    destruct (proj2 (proj2 (Hspec f Hf)) Hs) as [H1 [H2 H3]].
    destruct (proj1 (proj2 (Hspec f Hf))) as [m [Hm _]].
    unfold has at 3. rewrite Hm. tauto. }
  unfold bind at 1. cbv beta iota. rewrite E2.
  unfold bind at 1. cbv beta iota zeta.
  rewrite E3. unfold bind at 1. cbv beta iota.
  rewrite Hc. unfold bind at 1. cbv beta iota.
  rewrite Hh. cbn [negb]. rewrite Hd. unfold bind at 1. cbv beta iota.
  eexists. reflexivity.
Qed.

Lemma huge_time_overflows (r : dict) (z : Z) :
  get "execution_time" r = Some (VInt z) -> (float_limit <= Z.abs z)%Z ->
  analyze_loaded str_of fmt_1f error_analyzer now (VList [VDict r])
  = Raised "OverflowError".
Proof.
  intros Hr Hz. unfold analyze_loaded. cbn [sized].
  unfold bind at 1. cbv beta iota.
  change (as_records [VDict r]) with (Returned [r]).
  unfold bind at 1. cbv beta iota zeta.
  unfold bind at 1.
  change (0 <? total_tests (basic_metrics [r]))%Z with true. cbv beta iota.
  cbn [sum_times]. unfold item. rewrite Hr. cbn [bind plus]. unfold average.
  change (total_tests (basic_metrics [r])) with 1%Z.
  destruct (Z.ltb_spec (Z.abs (0 + z)) (1 * float_limit)); [lia|].
  reflexivity.
Qed.

Section Loading.

Variable json_loads : string -> option value.

(** X23.  When [analyze_results] returns an analysis, and not the
    error result, its argument is JSON for a list of objects (or for an
    empty object or an empty text, analysed as an empty run) in which
    every record has a number or a boolean under [execution_time] and a
    hashable value under [module], and every record whose status is
    FAIL also has [test_id], [name] and [failure_details]; the status
    itself may be missing.  Every such argument gets an analysis when
    its integer times are moderate, that is when their sizes add up to
    less than the least integer that is too large for a float.  They
    have to be: a single record whose time is such an integer gives the
    error result, with an [OverflowError]. *)
Theorem analysis_of_analysable (raw_results_str : string) :
  (forall a,
     analyze_results json_loads str_of fmt_1f error_analyzer now raw_results_str
     = Analysis a ->
     exists loaded,
       json_loads raw_results_str = Some loaded /\ analysable loaded = true) /\
  (forall loaded,
     json_loads raw_results_str = Some loaded ->
     analysable loaded = true -> moderate loaded = true ->
     exists a,
       analyze_results json_loads str_of fmt_1f error_analyzer now raw_results_str
       = Analysis a) /\
  (forall r z,
     json_loads raw_results_str = Some (VList [VDict r]) ->
     get "execution_time" r = Some (VInt z) -> (float_limit <= Z.abs z)%Z ->
     analyze_results json_loads str_of fmt_1f error_analyzer now raw_results_str
     = ErrorAnalysis "OverflowError" now).
Proof.
  unfold analyze_results. split; [|split].
  - intros a H.
    destruct (json_loads raw_results_str) as [loaded|]; [|discriminate].
    exists loaded. split; [reflexivity|].
    destruct (analyze_loaded str_of fmt_1f error_analyzer now loaded)
      as [a'|] eqn:Ha; [|discriminate].
    exact (analysis_needs _ Ha).
  - intros loaded Hl Ha Hm. rewrite Hl.
    destruct (analysis_given _ Ha Hm) as [a Hr].
    rewrite Hr. exists a. reflexivity.
  - intros r z Hl Hr Hz. rewrite Hl, (huge_time_overflows _ Hr Hz).
    reflexivity.
Qed.

End Loading.

Lemma low_rate_everywhere (results : list dict) (keys : list value) :
  (forall k, In k keys -> m_pass_rate (stats_of_module results k) = 0) ->
  flat_map (module_recommendation str_of fmt_1f)
           (map (fun k => (k, stats_of_module results k)) keys)
  = map (fun e => "Module '" ++ module_text str_of (fst e)
                  ++ "' has a low pass rate of " ++ fmt_1f 0
                  ++ "%. Prioritize fixing these tests.")
        (map (fun k => (k, stats_of_module results k)) keys).
Proof.
  induction keys as [|k keys IH]; intro H; [reflexivity|].
  cbn [map flat_map]. rewrite IH by (intros k' Hk'; apply H; right; exact Hk').
  unfold module_recommendation at 1. cbn [fst snd].
  rewrite (H k (or_introl eq_refl)). reflexivity.
Qed.

Lemma full_rate_everywhere (results : list dict) (keys : list value) :
  (forall k, In k keys -> qlt (m_pass_rate (stats_of_module results k)) 75 = false) ->
  flat_map (module_recommendation str_of fmt_1f)
           (map (fun k => (k, stats_of_module results k)) keys) = [].
Proof.
  induction keys as [|k keys IH]; intro H; [reflexivity|].
  cbn [map flat_map]. rewrite IH by (intros k' Hk'; apply H; right; exact Hk').
  unfold module_recommendation. cbn [fst snd].
  rewrite (H k (or_introl eq_refl)). reflexivity.
Qed.

(** X24.  When no test was executed (the run is empty, or every test
    was skipped) the analysis still recommends: first the sentence that
    the overall pass rate is below 90%, then for every module, in the
    order of [module_results], the sentence that it has a low pass
    rate, with the rate 0. *)
Theorem nothing_executed_recommendations (loaded : value) (a : analysis) :
  analyze_loaded str_of fmt_1f error_analyzer now loaded = Returned a ->
  executed_tests (summary a) = 0%Z ->
  recommendations a
  = overall_recommendation
    :: map (fun e => "Module '" ++ module_text str_of (fst e)
                     ++ "' has a low pass rate of " ++ fmt_1f 0
                     ++ "%. Prioritize fixing these tests.")
           (module_results a).
Proof.
  intros H He.
  destruct (@analyze_loaded_inv loaded a H)
    as (items & results & total_time & modules & details
        & _ & _ & _ & Hc & Hh & _ & Hs & Hm & _ & Hr & _).
  rewrite Hs in He. cbn [basic_metrics executed_tests] in He.
  rewrite Hr. cbn [basic_metrics pass_rate]. rewrite He. cbn [Z.ltb Z.compare].
  change (qlt 0 90) with true. cbn [app]. f_equal.
  rewrite Hm. apply low_rate_everywhere. intros k _.
  rewrite count_status_length in He.
  assert (Hall : forall r, In r results -> status_is "SKIPPED" r = true)
    by (apply filter_full; lia).
  cbn [stats_of_module m_pass_rate]. rewrite count_status_length.
  rewrite (@filter_all _ (status_is "SKIPPED") (filter (in_module k) results))
    by (intros r Hr'; apply filter_In in Hr'; apply Hall; tauto).
  rewrite Z.sub_diag. reflexivity.
Qed.

(** X25.  A run that is not empty and in which every test passed gets
    no recommendation, an empty list of failures, and the failure
    analysis of a run without failures. *)
Theorem clean_run_analysis (loaded : value) (a : analysis) :
  analyze_loaded str_of fmt_1f error_analyzer now loaded = Returned a ->
  (0 < total_tests (summary a))%Z ->
  passed_tests (summary a) = total_tests (summary a) ->
  recommendations a = [] /\ failures a = [] /\
  analysis_of_failures a = AllPassing.
Proof.
  intros H Hpos Hpass.
  destruct (@analyze_loaded_inv loaded a H)
    as (items & results & total_time & modules & details
        & _ & _ & _ & Hc & Hh & Hd & Hs & Hm & Hf & Hr & Ha).
  rewrite Hs in Hpos, Hpass.
  cbn [basic_metrics total_tests passed_tests] in Hpos, Hpass.
  rewrite count_status_length in Hpass.
  assert (Hall : forall r, In r results -> status_is "PASS" r = true)
    by (apply filter_full; lia).
  assert (Hnofail : filter (status_is "FAIL") results = []).
  { apply filter_none. intros r Hr'. apply pass_not_other, Hall, Hr'. }
  assert (Hnoskip : forall l, (forall r, In r l -> In r results) ->
                              count_status "SKIPPED" l = 0%Z).
  { intros l Hl. rewrite count_status_length, filter_none; [reflexivity|].
    intros r Hr'. apply pass_not_other, Hall, Hl, Hr'. }
  assert (Hallpass : forall l, (forall r, In r l -> In r results) ->
                               count_status "PASS" l = Z.of_nat (List.length l)).
  { intros l Hl. rewrite count_status_length, filter_all; [reflexivity|].
    intros r Hr'. apply Hall, Hl, Hr'. }
  rewrite Hnofail in Hd, Ha. cbn [details_of_failures] in Hd.
  injection Hd as Hd'. rewrite <- Hd' in Hf.
  split; [|split; [exact Hf|exact Ha]].
  rewrite Hr, Hm. cbn [basic_metrics pass_rate].
  rewrite (Hnoskip results) by tauto. rewrite (Hallpass results) by tauto.
  rewrite Z.sub_0_r. destruct (Z.ltb_spec 0 (Z.of_nat (List.length results)));
    [|lia].
  assert (Hq : qlt (inject_Z (Z.of_nat (List.length results))
                    / inject_Z (Z.of_nat (List.length results)) * 100) 90
               = false).
  { unfold qlt. apply negb_false_iff, Qle_bool_iff.
    rewrite rate_full by assumption. discriminate. }
  rewrite Hq. cbn [app]. apply full_rate_everywhere. intros k Hk.
  assert (Hsub : forall r, In r (filter (in_module k) results) -> In r results)
    by (intros r Hr'; apply filter_In in Hr'; tauto).
  cbn [stats_of_module m_pass_rate].
  rewrite (Hnoskip _ Hsub), (Hallpass _ Hsub), Z.sub_0_r.
  pose proof (@module_nonempty results modules k Hc Hh Hk) as Hne.
  destruct (filter (in_module k) results) as [|r rest]; [congruence|].
  destruct (Z.ltb_spec 0 (Z.of_nat (List.length (r :: rest))));
    [|cbn [List.length] in *; lia].
  unfold qlt. apply negb_false_iff, Qle_bool_iff.
  rewrite rate_full by assumption. discriminate.
Qed.

(** X26.  The list of failures has one entry for every record whose
    status is FAIL, in the order of the run, with that record's
    [test_id], [name], [module] and [failure_details].  The summary's
    [failed_tests] is the length of that list plus the number of
    records whose status is none of PASS, FAIL and SKIPPED; and the
    failure analysis is the one of a run without failures exactly when
    the list is empty. *)
Theorem failures_listed (results : list dict) (a : analysis) :
  analyze_loaded str_of fmt_1f error_analyzer now (VList (map VDict results))
  = Returned a ->
  Forall2 (fun f r =>
             get "test_id" r = Some (f_test_id f) /\
             get "name" r = Some (f_name f) /\
             get "module" r = Some (f_module f) /\
             get "failure_details" r = Some (f_details f))
          (failures a) (filter (status_is "FAIL") results) /\
  failed_tests (summary a)
  = (Z.of_nat (List.length (failures a))
     + Z.of_nat (List.length (filter other_status results)))%Z /\
  (analysis_of_failures a = AllPassing <-> failures a = []).
Proof.
  intro H.
  destruct (@analyze_loaded_inv _ a H)
    as (items & results' & total_time & modules & details
        & E1 & E2 & _ & _ & _ & Hd & Hs & _ & Hf & _ & Ha).
  cbn [sized] in E1. inversion E1. subst items. clear E1.
  rewrite (proj2 (as_records_returned (map VDict results) results) eq_refl)
    in E2.
  inversion E2. subst results'. clear E2.
  rewrite Hf. pose proof (details_spec _ Hd) as Hspec.
  pose proof (proj1 (details_needs _ Hd)) as Hlen.
  split; [exact Hspec|]. split.
  - rewrite Hs, Hlen. cbn [basic_metrics failed_tests].
    rewrite !count_status_length.
    pose proof (status_split results). pose proof (passed_skipped_le results).
    destruct (Z.leb_spec 0 (Z.of_nat (List.length results)
                            - Z.of_nat (List.length
                                          (filter (status_is "SKIPPED") results))));
      lia.
  - rewrite Ha. destruct (filter (status_is "FAIL") results) as [|r rest].
    + destruct details; [tauto|discriminate].
    + destruct details; [discriminate|].
      split; [|discriminate].
      destruct (error_analyzer (r :: rest) (module_results a)); discriminate.
Qed.

End Analysis.

Lemma modules_partition_witness :
  exists a,
    analyze_loaded (fun _ => "") (fun _ => "") no_analyzer "" sample_results
    = Returned a /\
    zsum (map (fun e => m_total (snd e)) (module_results a)) = 3%Z.
Proof.
  eexists. split; [vm_compute; reflexivity|].
  refine (proj1 (@modules_partition (fun _ => "") (fun _ => "") no_analyzer ""
                                    sample_results _ _)).
  vm_compute. reflexivity.
Defined.

Lemma module_entries_consistent_witness :
  exists a,
    analyze_loaded (fun _ => "") (fun _ => "") no_analyzer "" sample_results
    = Returned a /\
    ForallOrdPairs (fun k1 k2 => key_eqb k2 k1 = false)
                   (map fst (module_results a)).
Proof.
  eexists. split; [vm_compute; reflexivity|].
  refine (proj1 (@module_entries_consistent
                   (fun _ => "") (fun _ => "") no_analyzer ""
                   sample_results _ _)).
  vm_compute. reflexivity.
Defined.

Lemma nothing_executed_recommendations_witness :
  exists a,
    analyze_loaded (fun _ => "") (fun _ => "") no_analyzer ""
                   (VList [VDict (record_of "pay" "SKIPPED")])
    = Returned a /\
    List.length (recommendations a) = 2%nat.
Proof.
  eexists. split; [vm_compute; reflexivity|].
  rewrite (@nothing_executed_recommendations
             (fun _ => "") (fun _ => "") no_analyzer ""
             (VList [VDict (record_of "pay" "SKIPPED")]) _);
    vm_compute; reflexivity.
Defined.

Lemma clean_run_analysis_witness :
  exists a,
    analyze_loaded (fun _ => "") (fun _ => "") no_analyzer ""
                   (VList [VDict (record_of "login" "PASS")])
    = Returned a /\
    recommendations a = [].
Proof.
  eexists. split; [vm_compute; reflexivity|].
  refine (proj1 (@clean_run_analysis
                   (fun _ => "") (fun _ => "") no_analyzer ""
                   (VList [VDict (record_of "login" "PASS")]) _ _ _ _));
    vm_compute; reflexivity.
Defined.

Lemma failures_listed_witness :
  exists a,
    analyze_loaded (fun _ => "") (fun _ => "") no_analyzer ""
                   (VList (map VDict [record_of "login" "FAIL";
                                      record_of "pay" "ERROR"]))
    = Returned a /\
    failed_tests (summary a)
    = (Z.of_nat (List.length (failures a)) + 1)%Z.
Proof.
  eexists. split; [vm_compute; reflexivity|].
  refine (proj1 (proj2 (@failures_listed
                          (fun _ => "") (fun _ => "") no_analyzer ""
                          [record_of "login" "FAIL"; record_of "pay" "ERROR"]
                          _ _))).
  vm_compute. reflexivity.
Defined.

End ResultsFacts.

(* ------------------------------------------------------------------ *)
(** ** The reply of the crew *)
(* ------------------------------------------------------------------ *)

Module GapReplyFacts.
Import Py Pipeline ReSpec GapReply ReFacts.

(** *** Searching in a text *)

Lemma prefix_nil (s : string) : String.prefix "" s = true.
Proof. destruct s; reflexivity. Qed.

Lemma prefix_append (sub rest : string) : String.prefix sub (sub ++ rest) = true.
Proof.
  induction sub as [|c sub IH]; [apply prefix_nil|].
  cbn. destruct (Ascii.ascii_dec c c); [exact IH|congruence].
Qed.

Lemma prefix_other (p : ascii -> bool) (c0 c : ascii) (sub s : string) :
  p c0 = false -> p c = true -> String.prefix (String c0 sub) (String c s) = false.
Proof.
  intros H0 Hc. cbn. destruct (Ascii.ascii_dec c0 c); [congruence|reflexivity].
Qed.

Lemma prefix_shorter (a b s : string) :
  String.prefix (a ++ b) s = true -> String.prefix a s = true.
Proof.
  revert s. induction a as [|c a IH]; intros s H; [apply prefix_nil|].
  destruct s as [|c' s]; [discriminate|]. cbn in *.
  destruct (Ascii.ascii_dec c c'); [apply IH; exact H|discriminate].
Qed.

Lemma prefix_fits (sub s : string) :
  String.prefix sub s = true -> (String.length sub <= String.length s)%nat.
Proof.
  revert s. induction sub as [|c sub IH]; intros s H; [cbn; lia|].
  destruct s as [|c' s]; [discriminate|]. cbn in *.
  destruct (Ascii.ascii_dec c c'); [|discriminate].
  apply IH in H. lia.
Qed.

Lemma drop_append (a b : string) : drop (String.length a) (a ++ b) = b.
Proof. induction a as [|c a IH]; cbn; [destruct b; reflexivity|exact IH]. Qed.

Lemma take_prefix (a b : string) : take (String.length a) (a ++ b) = a.
Proof.
  induction a as [|c a IH]; cbn; [destruct b; reflexivity|rewrite IH; reflexivity].
Qed.

Lemma contains_find (sub s : string) :
  contains sub s = match find sub s with Some _ => true | None => false end.
Proof.
  induction s as [|c s IH]; cbn [contains find].
  - destruct (String.prefix sub ""); reflexivity.
  - destruct (String.prefix sub (String c s)); [reflexivity|].
    cbn [orb]. rewrite IH. destruct (find sub s); reflexivity.
Qed.

Lemma contains_shorter (a b s : string) :
  contains (a ++ b) s = true -> contains a s = true.
Proof.
  induction s as [|c s IH]; cbn [contains]; intro H.
  - apply orb_true_iff in H. destruct H as [H|H]; [|discriminate].
    rewrite (@prefix_shorter a b _ H). reflexivity.
  - apply orb_true_iff in H. destruct H as [H|H].
    + rewrite (@prefix_shorter a b _ H). reflexivity.
    + rewrite (IH H). apply orb_true_r.
Qed.

Lemma find_fits (sub s : string) (i : nat) :
  find sub s = Some i -> (i + String.length sub <= String.length s)%nat.
Proof.
  revert i. induction s as [|c s IH]; intros i; cbn [find].
  - destruct (String.prefix sub "") eqn:E; [|discriminate].
    intro H. inversion H. apply prefix_fits in E. lia.
  - destruct (String.prefix sub (String c s)) eqn:E.
    + intro H. inversion H. apply prefix_fits in E. lia.
    + destruct (find sub s) as [j|]; [|discriminate].
      intro H. inversion H. specialize (IH j eq_refl). cbn. lia.
Qed.

(** The first occurrence, after a text without its first character. *)
Lemma find_after (p : ascii -> bool) (c0 : ascii) (sub pre rest : string) :
  p c0 = false -> all_chars p pre = true ->
  find (String c0 sub) (pre ++ String c0 sub ++ rest)
  = Some (String.length pre).
Proof.
  intros H0. induction pre as [|c pre IH]; intro Hp.
  - cbn [append String.length find].
    change (String c0 (sub ++ rest)) with (String c0 sub ++ rest).
    rewrite prefix_append. reflexivity.
  - cbn [all_chars] in Hp. apply andb_prop in Hp. destruct Hp as [Hc Hp].
    specialize (IH Hp). cbn [append String.length find] in *.
    rewrite (@prefix_other p c0 c sub _ H0 Hc), IH. reflexivity.
Qed.

Lemma find_nowhere (p : ascii -> bool) (c0 : ascii) (sub s : string) :
  p c0 = false -> all_chars p s = true -> find (String c0 sub) s = None.
Proof.
  intros H0. induction s as [|c s IH]; intro Hp; [reflexivity|].
  cbn [all_chars] in Hp. apply andb_prop in Hp. destruct Hp as [Hc Hp].
  cbn [find]. rewrite (@prefix_other p c0 c sub _ H0 Hc), (IH Hp). reflexivity.
Qed.

Lemma rfind_nowhere (p : ascii -> bool) (c0 : ascii) (sub s : string) :
  p c0 = false -> all_chars p s = true -> rfind (String c0 sub) s = None.
Proof.
  intros H0. induction s as [|c s IH]; intro Hp; [reflexivity|].
  cbn [all_chars] in Hp. apply andb_prop in Hp. destruct Hp as [Hc Hp].
  cbn [rfind]. rewrite (IH Hp), (@prefix_other p c0 c sub _ H0 Hc). reflexivity.
Qed.

(** The last occurrence of a character, before a text without it. *)
Lemma rfind_before (p : ascii -> bool) (c0 : ascii) (pre post : string) :
  p c0 = false -> all_chars p post = true ->
  rfind (String c0 "") (pre ++ String c0 post) = Some (String.length pre).
Proof.
  intros H0 Hp. induction pre as [|c pre IH].
  - cbn [append String.length rfind].
    rewrite (@rfind_nowhere p c0 "" post H0 Hp). cbn.
    destruct (Ascii.ascii_dec c0 c0); [|congruence].
    rewrite prefix_nil. reflexivity.
  - cbn [append String.length rfind]. rewrite IH. reflexivity.
Qed.

Lemma contains_after (sub pre rest : string) :
  contains sub (pre ++ sub ++ rest) = true.
Proof.
  induction pre as [|c pre IH].
  - cbn [append]. destruct (sub ++ rest) eqn:E; cbn [contains];
      rewrite <- E, prefix_append; reflexivity.
  - cbn [append contains]. rewrite IH. apply orb_true_r.
Qed.

(** *** The extraction *)

Lemma no_fence_json (t : string) :
  contains "```" t = false -> contains "```json" t = false.
Proof.
  intro H. destruct (contains "```json" t) eqn:E; [|reflexivity].
  change "```json" with ("```" ++ "json") in E.
  apply contains_shorter in E. congruence.
Qed.

Lemma slice_inside (pre mid post : string) :
  slice (Z.of_nat (String.length pre))
        (Z.of_nat (String.length pre) + Z.of_nat (String.length mid))
        (pre ++ mid ++ post)
  = mid.
Proof.
  unfold slice, bound. rewrite !length_append.
  destruct (Z.ltb_spec (Z.of_nat (String.length pre)) 0); [lia|].
  destruct (Z.ltb_spec (Z.of_nat (String.length pre)
                        + Z.of_nat (String.length mid)) 0); [lia|].
  rewrite !Z.min_l by lia.
  replace (Z.to_nat (Z.of_nat (String.length pre) + Z.of_nat (String.length mid)
                     - Z.of_nat (String.length pre)))
    with (String.length mid) by lia.
  rewrite Nat2Z.id, drop_append, take_prefix. reflexivity.
Qed.

Lemma find_from_inside (p : ascii -> bool) (c0 : ascii) (sub pre mid rest : string) :
  p c0 = false -> all_chars p mid = true ->
  py_find_from (String c0 sub) (pre ++ mid ++ String c0 sub ++ rest)
               (Z.of_nat (String.length pre))
  = (Z.of_nat (String.length pre) + Z.of_nat (String.length mid))%Z.
Proof.
  intros H0 Hm. unfold py_find_from. rewrite !length_append.
  destruct (Z.ltb_spec (Z.of_nat (String.length pre)) 0); [lia|].
  match goal with |- context [(?a <? ?b)%Z] => destruct (Z.ltb_spec a b) end;
    [lia|].
  rewrite Nat2Z.id, drop_append, (@find_after p c0 sub mid rest H0 Hm).
  reflexivity.
Qed.

Lemma fenced_content (pre body post : string) :
  all_chars no_tick pre = true -> all_chars no_tick body = true ->
  body <> "" ->
  json_content (pre ++ "```json" ++ body ++ "```" ++ post)
  = Some (strip body).
Proof.
  intros Hpre Hbody Hne. unfold json_content.
  rewrite contains_after. unfold py_find.
  rewrite (@find_after no_tick "`"%char "``json" pre (body ++ "```" ++ post)
                       eq_refl Hpre).
  assert (Hlen : (Z.of_nat (String.length pre) + 7
                  = Z.of_nat (String.length (pre ++ "```json")))%Z)
    by (rewrite length_append; cbn [String.length]; lia).
  rewrite Hlen.
  replace (pre ++ "```json" ++ body ++ "```" ++ post)
    with ((pre ++ "```json") ++ body ++ "```" ++ post)
    by (rewrite append_assoc; reflexivity).
  rewrite (@find_from_inside no_tick "`"%char "``" (pre ++ "```json") body post
                             eq_refl Hbody).
  rewrite slice_inside.
  destruct (Z.ltb_spec (Z.of_nat (String.length (pre ++ "```json")))
                       (Z.of_nat (String.length (pre ++ "```json"))
                        + Z.of_nat (String.length body))) as [_|Hle];
    [reflexivity|].
  destruct body; [congruence|cbn [String.length] in Hle; lia].
Qed.

Lemma object_content (pre mid post : string) :
  contains "```" (pre ++ "{" ++ mid ++ "}" ++ post) = false ->
  all_chars no_open pre = true -> all_chars no_close post = true ->
  json_content (pre ++ "{" ++ mid ++ "}" ++ post) = Some ("{" ++ mid ++ "}").
Proof.
  intros Hno Hpre Hpost. unfold json_content.
  rewrite (@no_fence_json _ Hno), Hno. cbn [andb].
  rewrite (contains_after "{" pre (mid ++ "}" ++ post)).
  replace (pre ++ "{" ++ mid ++ "}" ++ post)
    with ((pre ++ "{" ++ mid) ++ "}" ++ post)
    by (rewrite !append_assoc; reflexivity).
  rewrite (contains_after "}" (pre ++ "{" ++ mid) post). cbn [andb].
  unfold py_rfind.
  change ("}" ++ post) with (String "}" post).
  rewrite (@rfind_before no_close "}"%char (pre ++ "{" ++ mid) post eq_refl Hpost).
  replace ((pre ++ "{" ++ mid) ++ String "}" post)
    with (pre ++ ("{" ++ mid ++ "}") ++ post)
    by (rewrite !append_assoc; reflexivity).
  unfold py_find.
  replace (pre ++ ("{" ++ mid ++ "}") ++ post)
    with (pre ++ "{" ++ (mid ++ "}" ++ post))
    by (rewrite !append_assoc; reflexivity).
  rewrite (@find_after no_open "{"%char "" pre (mid ++ "}" ++ post) eq_refl Hpre).
  replace (pre ++ "{" ++ (mid ++ "}" ++ post))
    with (pre ++ ("{" ++ mid ++ "}") ++ post)
    by (rewrite !append_assoc; reflexivity).
  replace (Z.of_nat (String.length (pre ++ "{" ++ mid)) + 1)%Z
    with (Z.of_nat (String.length pre)
          + Z.of_nat (String.length ("{" ++ mid ++ "}")))%Z
    by (rewrite !length_append; cbn [String.length]; lia).
  rewrite slice_inside. reflexivity.
Qed.

Lemma unclosed_content (t : string) (i : nat) :
  find "```json" t = Some i ->
  contains "```" (drop (i + 7) t) = false ->
  json_content t = None.
Proof.
  intros Hf Hno. unfold json_content.
  rewrite contains_find, Hf. unfold py_find. rewrite Hf.
  pose proof (@find_fits _ _ _ Hf) as Hfit. cbn [String.length] in Hfit.
  unfold py_find_from.
  destruct (Z.ltb_spec (Z.of_nat i + 7) 0); [lia|].
  destruct (Z.ltb_spec (Z.of_nat (String.length t)) (Z.of_nat i + 7)); [lia|].
  replace (Z.to_nat (Z.of_nat i + 7)) with (i + 7)%nat by lia.
  rewrite contains_find in Hno.
  destruct (find "```" (drop (i + 7) t)); [discriminate|].
  destruct (Z.ltb_spec (Z.of_nat i + 7) (-1)); [lia|reflexivity].
Qed.

Section Parse.

Variable json_loads : string -> option value.

(** X27.  When the reply, stripped, holds a fence [```json] closed by
    [```], with no backtick before the fence nor inside it, and
    something other than white space inside, then what is inside,
    stripped, is what [json.loads] gets: its value is returned as it
    is, whatever its shape, and the fallback when it is not JSON.
    The text around the fence is not looked at. *)
Theorem fenced_reply (result pre body post : string) :
  strip result = pre ++ "```json" ++ body ++ "```" ++ post ->
  all_chars no_tick pre = true -> all_chars no_tick body = true ->
  strip body <> "" ->
  parsed_result json_loads result
  = match json_loads (strip body) with
    | Some parsed => parsed
    | None => fallback result
    end.
Proof.
  intros Ht Hpre Hbody Hne. unfold parsed_result.
  rewrite Ht, fenced_content; try assumption.
  - destruct (strip body =? "") eqn:E; [|reflexivity].
    apply String.eqb_eq in E. contradiction.
  - intro E. subst body. apply Hne. reflexivity.
Qed.

(** X28.  When the reply, stripped, has no fence and holds a brace
    [{] with none before it and a brace [}] with none after it, the
    text from the one to the other is what [json.loads] gets, and the
    words before and after are dropped. *)
Theorem object_reply (result pre mid post : string) :
  strip result = pre ++ "{" ++ mid ++ "}" ++ post ->
  contains "```" (strip result) = false ->
  all_chars no_open pre = true -> all_chars no_close post = true ->
  parsed_result json_loads result
  = match json_loads ("{" ++ mid ++ "}") with
    | Some parsed => parsed
    | None => fallback result
    end.
Proof.
  intros Ht Hno Hpre Hpost. unfold parsed_result.
  rewrite Ht in *. rewrite object_content by assumption. reflexivity.
Qed.

(** X29.  A reply with a fence [```json] that is not closed gives the
    fallback, whatever follows the fence: the other extraction
    methods are not tried, and [json.loads] is not called. *)
Theorem unclosed_fence_fallback (result : string) (i : nat) :
  find "```json" (strip result) = Some i ->
  contains "```" (drop (i + 7) (strip result)) = false ->
  parsed_result json_loads result = fallback result.
Proof.
  intros Hf Hno. unfold parsed_result.
  rewrite (@unclosed_content _ i Hf Hno). reflexivity.
Qed.

End Parse.

Lemma fenced_reply_witness :
  parsed_result (fun content => Some (VStr content))
                "Here it is: ```json {} ``` Done. "
  = VStr "{}".
Proof.
  refine (@fenced_reply (fun content => Some (VStr content))
                        "Here it is: ```json {} ``` Done. "
                        "Here it is: " " {} " " Done." _ _ _ _);
    vm_compute; (reflexivity || discriminate).
Defined.

Lemma object_reply_witness :
  parsed_result (fun content => Some (VStr content))
                "The gaps are {x: {y}} as asked"
  = VStr "{x: {y}}".
Proof.
  refine (@object_reply (fun content => Some (VStr content))
                        "The gaps are {x: {y}} as asked"
                        "The gaps are " "x: {y}" " as asked" _ _ _ _);
    vm_compute; reflexivity.
Defined.

Lemma unclosed_fence_fallback_witness :
  parsed_result (fun content => Some (VStr content)) "```json {}"
  = fallback "```json {}".
Proof.
  refine (@unclosed_fence_fallback (fun content => Some (VStr content))
                                   "```json {}" 0 _ _);
    vm_compute; reflexivity.
Defined.

End GapReplyFacts.

(* ------------------------------------------------------------------ *)
(** ** From the JUnit report to the analysis *)
(* ------------------------------------------------------------------ *)

Module JunitAnalysisFacts.
Import Py PyFacts Junit JunitFacts Analyze AnalyzeFacts Results ResultsFacts.

Lemma results_from_in (clock : nat -> string) (cases : list element) :
  forall (i : nat) (r : result),
    In r (results_from clock i cases) ->
    exists j case, In case cases /\ r = case_result (clock j) case.
Proof.
  induction cases as [|c cases IH]; intros i r H; [contradiction|].
  cbn [results_from] in H. destruct H as [<-|H].
  - exists i, c. split; [left; reflexivity|reflexivity].
  - destruct (IH _ _ H) as [j [case [Hin Hr]]].
    exists j, case. split; [right; exact Hin|exact Hr].
Qed.

Lemma case_status (now : string) (case : element) :
  status (case_result now case) = "PASS"
  \/ status (case_result now case) = "FAIL"
  \/ status (case_result now case) = "SKIPPED".
Proof.
  unfold case_result.
  destruct (find_child "failure" case); [cbn; tauto|].
  destruct (find_child "error" case); [cbn; tauto|].
  destruct (find_child "skipped" case); cbn; tauto.
Qed.

Lemma case_time (now : string) (case : element) :
  execution_time (case_result now case) = round_float 4 (exec_time_of case).
Proof.
  unfold case_result.
  destruct (find_child "failure" case); [reflexivity|].
  destruct (find_child "error" case); [reflexivity|].
  destruct (find_child "skipped" case); reflexivity.
Qed.

Lemma result_dict_complete (r : result) (x : Q) :
  execution_time r = Finite x -> complete (result_dict r) = true.
Proof.
  intro Hx. unfold complete, result_dict. cbn. rewrite Hx. cbn.
  apply orb_true_r.
Qed.

Lemma result_dict_size (r : result) (x : Q) :
  execution_time r = Finite x -> int_size (result_dict r) = 0%Z.
Proof.
  intro Hx. unfold int_size, result_dict. cbn. rewrite Hx. reflexivity.
Qed.

Lemma result_dict_status (r : result) :
  status r = "PASS" \/ status r = "FAIL" \/ status r = "SKIPPED" ->
  other_status (result_dict r) = false.
Proof.
  unfold other_status, status_is, result_dict. cbn.
  intros [H|[H|H]]; rewrite H; reflexivity.
Qed.

Section Analysis.

Variable json_loads : string -> option value.
Variable str_of : value -> string.
Variable fmt_1f : Q -> string.
Variable error_analyzer :
  list dict -> list (value * module_stats) -> outcome value.
Variable now : string.
Variable clock : nat -> string.

(** X30.  The analysis accepts what the normalizer emits.  When every
    [testcase] of a JUnit report has a finite time (or an unreadable
    one) and the text handed over reads back as the records of
    [parse_junit_to_results], [analyze_results] returns an analysis and
    not the error result; its [total_tests] is the number of
    [testcase] elements, and its [failed_tests] is the length of its
    list of failures. *)
Theorem junit_results_analysed (root : element) (raw_results : string) :
  Forall (fun case => exists x, exec_time_of case = Finite x)
         (findall_below "testcase" root) ->
  json_loads raw_results
  = Some (VList (map VDict (map result_dict (parse_junit_to_results clock root)))) ->
  exists a,
    analyze_results json_loads str_of fmt_1f error_analyzer now raw_results
    = Analysis a /\
    total_tests (summary a)
    = Z.of_nat (List.length (findall_below "testcase" root)) /\
    failed_tests (summary a) = Z.of_nat (List.length (failures a)).
Proof.
  intros Hfinite Hloads.
  set (records := map result_dict (parse_junit_to_results clock root)) in *.
  assert (Hfrom : forall d, In d records ->
            exists r j case,
              d = result_dict r /\ r = case_result (clock j) case /\
              In case (findall_below "testcase" root)).
  { intros d Hd. apply in_map_iff in Hd. destruct Hd as [r [<- Hr]].
    destruct (results_from_in _ _ _ _ Hr) as [j [case [Hin Hcase]]].
    exists r, j, case. tauto. }
  assert (Hrecords : as_records (map VDict records) = Returned records)
    by (apply as_records_returned; reflexivity).
  assert (Hok : analysable (VList (map VDict records)) = true).
  { unfold analysable. cbn [sized]. rewrite Hrecords.
    apply forallb_forall. intros d Hd.
    destruct (Hfrom d Hd) as [r [j [case [-> [-> Hin]]]]].
    rewrite Forall_forall in Hfinite. destruct (Hfinite case Hin) as [x Hx].
    apply result_dict_complete with (x := round_digits 4 x).
    rewrite case_time, Hx. reflexivity. }
  assert (Hmoderate : moderate (VList (map VDict records)) = true).
  { unfold moderate. cbn [sized]. rewrite Hrecords. apply Z.ltb_lt.
    assert (Hzero : zsum (map int_size records) = 0%Z).
    { assert (Hall : forall d, In d records -> int_size d = 0%Z).
      { intros d Hd. destruct (Hfrom d Hd) as [r [j [case [-> [-> Hin]]]]].
        rewrite Forall_forall in Hfinite. destruct (Hfinite case Hin) as [x Hx].
        apply result_dict_size with (x := round_digits 4 x).
        rewrite case_time, Hx. reflexivity. }
      clear - Hall. induction records as [|d l IH]; [reflexivity|].
      cbn [map]. rewrite zsum_cons, (Hall d (or_introl eq_refl)), IH;
        [reflexivity|].
      intros d' Hd'. apply Hall. right. exact Hd'. }
    rewrite Hzero. vm_compute. reflexivity. }
  destruct (analysis_given str_of fmt_1f error_analyzer now _ Hok Hmoderate)
    as [a Ha].
  exists a.
  unfold analyze_results. rewrite Hloads, Ha. split; [reflexivity|].
  destruct (@analyze_loaded_inv _ _ _ _ _ a Ha)
    as (items & results' & total_time & modules & details
        & E1 & E2 & _ & _ & _ & Hd & Hs & _ & Hf & _).
  cbn [sized] in E1. injection E1 as <-. rewrite Hrecords in E2.
  injection E2 as <-. rewrite Hs, Hf. split.
  - cbn [basic_metrics total_tests]. unfold records.
    rewrite length_map. unfold parse_junit_to_results.
    rewrite results_from_length. reflexivity.
  - rewrite failed_tests_split, (proj1 (details_needs _ Hd)).
    rewrite (@filter_none _ other_status records); [cbn; lia|].
    intros d Hin. destruct (Hfrom d Hin) as [r [j [case [-> [-> _]]]]].
    apply result_dict_status, case_status.
Qed.

End Analysis.

Lemma junit_results_analysed_witness :
  exists a,
    analyze_results
      (fun _ => Some (VList (map VDict (map result_dict
                        (parse_junit_to_results fixed_clock sample_report)))))
      (fun _ => "") (fun _ => "") no_analyzer "" "[...]"
    = Analysis a /\
    total_tests (summary a) = 6%Z /\
    failed_tests (summary a) = Z.of_nat (List.length (failures a)).
Proof.
  refine (@junit_results_analysed
            (fun _ => Some (VList (map VDict (map result_dict
                              (parse_junit_to_results fixed_clock sample_report)))))
            (fun _ => "") (fun _ => "") no_analyzer "" fixed_clock
            sample_report "[...]" _ _).
  - repeat constructor; eexists; vm_compute; reflexivity.
  - reflexivity.
Defined.

End JunitAnalysisFacts.
